(** * devserver.py: a static file server with cross-origin isolation headers

    A shallow embedding of [app/devserver.py] together with the parts of the
    Python 3.11 standard library it runs on: [posixpath], the handler
    classes of [http.server] ([BaseHTTPRequestHandler],
    [SimpleHTTPRequestHandler]), [socketserver.TCPServer] and
    [http.server.test], each definition following the method of the same
    name.  The operating system (file system, sockets) and the pure
    formatting helpers of the library are an explicit environment, [World]
    and [Lib]; what a method writes to its log on standard error is left
    out.

    The script itself is [RequestHandler.end_headers] and [module_body]. *)

From Stdlib Require Import String Ascii List ZArith Bool Lia.
From Stdlib Require Import DecimalString.
Import ListNotations.
Open Scope list_scope.
Open Scope string_scope.

(** ** Python string primitives

    A [string] stands for one of three things.  A [bytes] object, by its
    bytes.  A [str] decoded from the socket with iso-8859-1 (the request
    line and what [parse_request] cuts out of it), by its characters, all
    below 256: the latin-1 [encode] and [decode] are the identity.  A path
    of the file system ([__file__], the working directory, what [unquote]
    returns and what is joined to it), by the UTF-8 encoding of the [str],
    surrogates passed through: the slash, the dot, NUL and the other ASCII
    characters are single bytes and part of no other character, so
    [split('/')], [startswith] and the comparisons of [posixpath] and
    [translate_path] act on the encoding as they do on the [str].
    [unquote] leads from the second reading to the third; how the system
    turns a path into the bytes of a file name belongs to [World]. *)

Definition slash : ascii := "/"%char.

(** [s.split(c)] for a one-character separator. *)
Fixpoint split_on (c : ascii) (s : string) : list string :=
  match s with
  | EmptyString => [""]
  | String a s' =>
      if Ascii.eqb a c then "" :: split_on c s'
      else match split_on c s' with
           | w :: ws => String a w :: ws
           | [] => [String a ""]
           end
  end.

(** [s.split(c, 1)]: the text before the first [c], and the text after it
    when there is one. *)
Fixpoint split1 (c : ascii) (s : string) : string * option string :=
  match s with
  | EmptyString => ("", None)
  | String a s' =>
      if Ascii.eqb a c then ("", Some s')
      else let (w, r) := split1 c s' in (String a w, r)
  end.

(** [str.isspace] on one character below 256. *)
Definition isspace (a : ascii) : bool :=
  let n := N_of_ascii a in
  (((9 <=? n) && (n <=? 13)) || ((28 <=? n) && (n <=? 32))
   || (n =? 133) || (n =? 160))%N.

Definition isempty (s : string) : bool :=
  match s with EmptyString => true | _ => false end.

Fixpoint words_aux (s : string) : string * list string :=
  match s with
  | EmptyString => ("", [])
  | String a s' =>
      let (w, ws) := words_aux s' in
      if isspace a then ("", if isempty w then ws else w :: ws)
      else (String a w, ws)
  end.

(** [s.split()]: the maximal runs of non-whitespace characters. *)
Definition py_split (s : string) : list string :=
  let (w, ws) := words_aux s in if isempty w then ws else w :: ws.

(** [s.rstrip(chars)], the set of characters given as a predicate. *)
Fixpoint rstrip (p : ascii -> bool) (s : string) : string :=
  match s with
  | EmptyString => ""
  | String a s' =>
      let r := rstrip p s' in
      if isempty r && p a then "" else String a r
  end.

(** [s.lstrip(chars)]. *)
Fixpoint lstrip (p : ascii -> bool) (s : string) : string :=
  match s with
  | EmptyString => ""
  | String a s' => if p a then lstrip p s' else s
  end.

(** [s.startswith(pre)]. *)
Fixpoint startswith (s pre : string) {struct pre} : bool :=
  match pre with
  | EmptyString => true
  | String b pre' =>
      match s with
      | EmptyString => false
      | String a s' => Ascii.eqb a b && startswith s' pre'
      end
  end.

(** [s.endswith(c)] for a one-character suffix. *)
Fixpoint endswith_char (s : string) (c : ascii) : bool :=
  match s with
  | EmptyString => false
  | String a EmptyString => Ascii.eqb a c
  | String _ s' => endswith_char s' c
  end.

(** ['c' in s]. *)
Fixpoint contains_char (c : ascii) (s : string) : bool :=
  match s with
  | EmptyString => false
  | String a s' => Ascii.eqb a c || contains_char c s'
  end.

Definition lower_ascii (a : ascii) : ascii :=
  let n := N_of_ascii a in
  if ((65 <=? n) && (n <=? 90))%N then ascii_of_N (n + 32) else a.

(** [s.lower()] on the ASCII letters; the program compares its result
    with ASCII names only. *)
Fixpoint lower (s : string) : string :=
  match s with
  | EmptyString => ""
  | String a s' => String (lower_ascii a) (lower s')
  end.

(** [str(n)] for a non-negative integer. *)
Definition str_of_nat (n : nat) : string :=
  NilZero.string_of_uint (Nat.to_uint n).

(** [str(n)] for an integer. *)
Definition str_of_Z (z : Z) : string :=
  NilZero.string_of_int (Z.to_int z).

(** ** posixpath *)

Module posixpath.

(** [join(a, b)]; [join(a, b, c)] folds it from the left. *)
Definition join (a b : string) : string :=
  if startswith b "/" then b
  else if isempty a || endswith_char a slash then a ++ b
  else a ++ "/" ++ b.

Definition isabs (s : string) : bool := startswith s "/".

(** [p[:p.rfind('/') + 1]]: everything up to and including the last
    slash. *)
Fixpoint head_upto_last_slash (p : string) : string :=
  match p with
  | EmptyString => ""
  | String a p' =>
      if contains_char slash p then String a (head_upto_last_slash p')
      else ""
  end.

Fixpoint all_slashes (s : string) : bool :=
  match s with
  | EmptyString => true
  | String a s' => Ascii.eqb a slash && all_slashes s'
  end.

Definition dirname (p : string) : string :=
  let head := head_upto_last_slash p in
  if negb (isempty head) && negb (all_slashes head)
  then rstrip (fun a => Ascii.eqb a slash) head
  else head.

(** One turn of the loop of [normpath] over the components. *)
Definition normpath_step (initial_slashes : nat) (new_comps : list string)
    (comp : string) : list string :=
  if String.eqb comp "" || String.eqb comp "." then new_comps
  else if negb (String.eqb comp "..")
          || ((initial_slashes =? 0)%nat
              && match new_comps with [] => true | _ => false end)
          || (match new_comps with [] => false | _ => true end
              && String.eqb (last new_comps "") "..")
  then (new_comps ++ [comp])%list
  else match new_comps with
       | [] => new_comps
       | _ => removelast new_comps
       end.

Fixpoint repeat_slash (n : nat) : string :=
  match n with O => "" | S n' => String slash (repeat_slash n') end.

Definition normpath (path : string) : string :=
  if isempty path then "."
  else
    let initial_slashes :=
      if startswith path "/" then
        if startswith path "//" && negb (startswith path "///") then 2%nat
        else 1%nat
      else 0%nat in
    let comps := split_on slash path in
    let new_comps := fold_left (normpath_step initial_slashes) comps [] in
    let path := String.concat "/" new_comps in
    let path := repeat_slash initial_slashes ++ path in
    if isempty path then "." else path.

(** [abspath(path)], the current working directory made explicit. *)
Definition abspath (getcwd : string) (path : string) : string :=
  normpath (if isabs path then path else join getcwd path).

End posixpath.

(** ** The environment of the program *)

Definition CRLF : string := String (ascii_of_nat 13) (String (ascii_of_nat 10) "").

Definition is_crlf (a : ascii) : bool :=
  Ascii.eqb a (ascii_of_nat 13) || Ascii.eqb a (ascii_of_nat 10).

Inductive tzinfo := tz_utc | tz_other.

(** A [datetime.datetime]: whole seconds since the epoch and its zone. *)
Record datetime := mkDatetime { dt_seconds : Z; dt_tzinfo : option tzinfo }.

(** Pure helpers of the standard library whose results the server only
    passes on: tables, formatters and parsers. *)
Record Lib := mkLib {
  unquote : string -> string;
    (* urllib.parse.unquote(path, errors='surrogatepass'), with its
       fallback: the path of a request in, a path of the file system out *)
  py_int : string -> option Z;
    (* int(s); None stands for ValueError *)
  py_repr : string -> string;
    (* '%r' % s *)
  responses : Z -> option (string * string);
    (* BaseHTTPRequestHandler.responses: code -> (phrase, description) *)
  version_string : string;
    (* server_version + ' ' + sys_version *)
  date_time_string : Z -> string;
    (* email.utils.formatdate(timestamp, usegmt=True) for a time of the
       years 1 to 9999, given by its whole seconds since the epoch *)
  error_body : Z -> string -> string -> string;
    (* (error_message_format % {...}).encode('UTF-8', 'replace') *)
  mimetypes_guess_type : string -> option string;
    (* mimetypes.guess_type(path)[0] *)
  urlsplit_path : string -> option string;
    (* urllib.parse.urlsplit(path).path; None stands for the ValueError of
       urlsplit (a bracket that is no IPv6 address, for one) *)
  redirect_url : string -> string;
    (* urlunsplit of urlsplit(path) with '/' appended to its path, where
       urlsplit returns *)
  parsedate_to_datetime : string -> option datetime;
    (* email.utils.parsedate_to_datetime; None stands for its exceptions *)
  filesystemencoding : string;
    (* sys.getfilesystemencoding() *)
  render_listing : string -> list (string * bool * bool) -> option string
    (* the HTML page list_directory builds from self.path and the entries
       of the directory, which it sorts, each given with its isdir and
       islink flags, encoded in the encoding of the file system with
       surrogateescape; None stands for the UnicodeEncodeError of that
       encode *)
}.

(** What a path names, as the kernel resolves it.  [st_mtime_us] is the
    time of last modification as [datetime.fromtimestamp] reads the float
    [st_mtime]: rounded to the nearest microsecond, in microseconds since
    the epoch. *)
Inductive node :=
| Dir (readable searchable : bool) (entries : list string)
| File (readable : bool) (content : string) (st_mtime_us : Z).

(** The operating system and the invocation.  [lookup] is the kernel's
    resolution of an absolute path (following links, so what it finds may
    be kept elsewhere: [w_realpath] tells where); [None] when the path
    does not resolve, as is the case of a path the system cannot be given
    at all (one with a NUL character, one that [os.fsencode] refuses). *)
Record World := mkWorld {
  w_file : string;                      (* __file__ *)
  w_cwd : string;                       (* os.getcwd() when the interpreter starts *)
  w_argv : list string;                 (* sys.argv[1:] *)
  w_environ : list (string * string);   (* os.environ *)
  lookup : string -> option node;
  islink : string -> bool;
  w_realpath : string -> string;
    (* os.path.realpath(p), which getcwd reports after chdir(p) *)
  w_fsencodable : string -> bool;       (* os.fsencode(p) returns *)
  w_getaddrinfo : Z -> option string;   (* host of the first AI_PASSIVE address *)
  w_port_held : Z -> bool;
    (* another process has a socket bound to the port *)
  w_bind_refused : Z -> bool;
    (* socket.bind on the port, SO_REUSEADDR set, raises OSError *)
  w_listen_refused : Z -> bool
    (* socket.listen on the socket bound to the port raises OSError *)
}.

(** ** Exceptions and the state monad of the methods *)

Inductive exn :=
| FileNotFoundError (p : string)
| NotADirectoryError (p : string)
| PermissionError (p : string)
| AddressInUse (port : Z)
| gaierror
| AttributeError (name : string)
| ValueError
    (* UnicodeEncodeError is one; it stands as well for the OverflowError
       of a time stamp the platform cannot convert *)
| KeyboardInterrupt
| SystemExit (code : Z).

(** What a call has come to: a value, an exception, or no return at all
    (the call waits for input that never arrives). *)
Inductive result (A : Type) :=
| Ok (a : A)
| Raise (e : exn)
| Pending.
Arguments Ok {A} a.
Arguments Raise {A} e.
Arguments Pending {A}.

Definition M (S A : Type) : Type := S -> result A * S.

Definition ret {S A} (a : A) : M S A := fun s => (Ok a, s).

Definition bind {S A B} (m : M S A) (k : A -> M S B) : M S B :=
  fun s => match m s with
           | (Ok a, s') => k a s'
           | (Raise e, s') => (Raise e, s')
           | (Pending, s') => (Pending, s')
           end.

Definition raise {S A} (e : exn) : M S A := fun s => (Raise e, s).
Definition get {S} : M S S := fun s => (Ok s, s).
Definition modify {S} (f : S -> S) : M S unit := fun s => (Ok tt, f s).

(** [try: m finally: fin]. *)
Definition try_finally {S A} (m : M S A) (fin : M S unit) : M S A :=
  fun s => match m s with
           | (Pending, s') => (Pending, s')
           | (r, s') => match fin s' with
                        | (Ok _, s'') => (r, s'')
                        | (Raise e, s'') => (Raise e, s'')
                        | (Pending, s'') => (Pending, s'')
                        end
           end.

(** [try: m except: cleanup; raise]. *)
Definition on_exception {S A} (m : M S A) (cleanup : M S unit) : M S A :=
  fun s => match m s with
           | (Raise e, s') => match cleanup s' with
                              | (Ok _, s'') => (Raise e, s'')
                              | (Raise e', s'') => (Raise e', s'')
                              | (Pending, s'') => (Pending, s'')
                              end
           | rs => rs
           end.

(** [try: m except KeyboardInterrupt: handler]. *)
Definition except_KeyboardInterrupt {S} (m : M S unit) (except : M S unit)
  : M S unit :=
  fun s => match m s with
           | (Raise KeyboardInterrupt, s') => except s'
           | rs => rs
           end.

Declare Scope monad_scope.
Delimit Scope monad_scope with monad.
Notation "x <- c ;; k" := (bind c (fun x => k))
  (at level 61, c at next level, right associativity) : monad_scope.
Notation "c ;; k" := (bind c (fun _ => k))
  (at level 61, right associativity) : monad_scope.
Open Scope monad_scope.

Definition when {S} (b : bool) (m : M S unit) : M S unit :=
  if b then m else ret tt.

(** ** The request handler object *)

(** The instance attributes the methods read and write.  [wfile] is the
    byte stream written to the client so far; [time_now] is the clock
    [date_time_string()] reads, in whole seconds since the epoch. *)
Record handler := mkHandler {
  directory : string;
  protocol_version : string;
  time_now : Z;
  request_version : string;
  command : option string;
  path : string;
  headers : list (string * string);
  close_connection : bool;
  _headers_buffer : option (list string);
  wfile : string
}.

Definition set_request_version (v : string) (h : handler) : handler :=
  mkHandler (directory h) (protocol_version h) (time_now h) v (command h)
    (path h) (headers h) (close_connection h) (_headers_buffer h) (wfile h).
Definition set_command (c : option string) (h : handler) : handler :=
  mkHandler (directory h) (protocol_version h) (time_now h) (request_version h)
    c (path h) (headers h) (close_connection h) (_headers_buffer h) (wfile h).
Definition set_path (p : string) (h : handler) : handler :=
  mkHandler (directory h) (protocol_version h) (time_now h) (request_version h)
    (command h) p (headers h) (close_connection h) (_headers_buffer h) (wfile h).
Definition set_headers (hs : list (string * string)) (h : handler) : handler :=
  mkHandler (directory h) (protocol_version h) (time_now h) (request_version h)
    (command h) (path h) hs (close_connection h) (_headers_buffer h) (wfile h).
Definition set_close_connection (b : bool) (h : handler) : handler :=
  mkHandler (directory h) (protocol_version h) (time_now h) (request_version h)
    (command h) (path h) (headers h) b (_headers_buffer h) (wfile h).
Definition set_headers_buffer (b : option (list string)) (h : handler) : handler :=
  mkHandler (directory h) (protocol_version h) (time_now h) (request_version h)
    (command h) (path h) (headers h) (close_connection h) b (wfile h).
Definition set_wfile (w : string) (h : handler) : handler :=
  mkHandler (directory h) (protocol_version h) (time_now h) (request_version h)
    (command h) (path h) (headers h) (close_connection h) (_headers_buffer h) w.

(** The list [send_response_only] and [send_header] append to: they first
    create an empty [_headers_buffer] when the attribute is missing. *)
Definition buffer_of (h : handler) : list string :=
  match _headers_buffer h with Some b => b | None => [] end.

(** [self.wfile.write(b)]. *)
Definition wfile_write (b : string) : M handler unit :=
  modify (fun h => set_wfile (wfile h ++ b) h).

(** [b"".join(lines)]. *)
Definition join_bytes (lines : list string) : string := String.concat "" lines.

(** The line [send_header] puts in the buffer. *)
Definition header_line (kv : string * string) : string :=
  fst kv ++ ": " ++ snd kv ++ CRLF.

(** [self.headers.get(name, default)]: the first field of that name, names
    compared without case. *)
Fixpoint headers_get (hs : list (string * string)) (name default : string) : string :=
  match hs with
  | [] => default
  | (k, v) :: hs' =>
      if String.eqb (lower k) (lower name) then v else headers_get hs' name default
  end.

(** [name in self.headers]. *)
Fixpoint headers_mem (hs : list (string * string)) (name : string) : bool :=
  match hs with
  | [] => false
  | (k, _) :: hs' => String.eqb (lower k) (lower name) || headers_mem hs' name
  end.

(** A request as the handler reads it from [rfile]: the bytes
    [readline(65537)] returns (empty at end of file), and what
    [http.client.parse_headers] then makes of the header lines. *)
Inductive header_outcome :=
| HeadersOk (hs : list (string * string))
| LineTooLong (err : string)
| TooManyHeaders (err : string).

Record request := mkRequest {
  raw_requestline : string;
  parsed_headers : header_outcome
}.

(** ** http.server.BaseHTTPRequestHandler *)

Module BaseHTTPRequestHandler.

Definition default_request_version : string := "HTTP/0.9".
Definition error_content_type : string := "text/html;charset=utf-8".

Section Methods.
Variable L : Lib.

Definition send_response_only (code : Z) (message : option string)
  : M handler unit :=
  h <- get ;;
  if negb (String.eqb (request_version h) "HTTP/0.9") then
    let message :=
      match message with
      | Some m => m
      | None => match responses L code with
                | Some (phrase, _) => phrase
                | None => ""
                end
      end in
    modify (set_headers_buffer
              (Some (app (buffer_of h)
                       [protocol_version h ++ " " ++ str_of_Z code
                          ++ " " ++ message ++ CRLF])))
  else ret tt.

Definition send_header (keyword value : string) : M handler unit :=
  h <- get ;;
  when (negb (String.eqb (request_version h) "HTTP/0.9"))
    (modify (set_headers_buffer
               (Some (app (buffer_of h) [header_line (keyword, value)])))) ;;
  if String.eqb (lower keyword) "connection" then
    if String.eqb (lower value) "close" then
      modify (set_close_connection true)
    else if String.eqb (lower value) "keep-alive" then
      modify (set_close_connection false)
    else ret tt
  else ret tt.

Definition flush_headers : M handler unit :=
  h <- get ;;
  match _headers_buffer h with
  | Some buf =>
      wfile_write (join_bytes buf) ;;
      modify (set_headers_buffer (Some []))
  | None => ret tt
  end.

Definition end_headers : M handler unit :=
  h <- get ;;
  if negb (String.eqb (request_version h) "HTTP/0.9") then
    match _headers_buffer h with
    | Some buf =>
        modify (set_headers_buffer (Some (app buf [CRLF]))) ;;
        flush_headers
    | None => raise (AttributeError "_headers_buffer")
    end
  else ret tt.

(** [send_response]; the line [log_request] writes to stderr is left
    out. *)
Definition send_response (code : Z) (message : option string)
  : M handler unit :=
  send_response_only code message ;;
  send_header "Server" (version_string L) ;;
  h <- get ;;
  send_header "Date" (date_time_string L (time_now h)).

(** The methods below call [self.end_headers()], which a subclass may
    override. *)
Section Dispatch.
Variable self_end_headers : M handler unit.

(** [self.responses[code]], with the fallback of [send_error] for a
    code that is not in the table. *)
Definition responses_or_unknown (code : Z) : string * string :=
  match responses L code with
  | Some sl => sl
  | None => ("???", "???")
  end.

(** The codes [send_error] sends a page with. *)
Definition error_has_body (code : Z) : bool :=
  (200 <=? code)%Z
  && negb ((code =? 204)%Z || (code =? 205)%Z || (code =? 304)%Z).

(** [self.command != 'HEAD']. *)
Definition not_head (h : handler) : bool :=
  negb (match command h with
        | Some c => String.eqb c "HEAD"
        | None => false
        end).

Definition send_error (code : Z) (message explain : option string)
  : M handler unit :=
  let (shortmsg, longmsg) := responses_or_unknown code in
  let message := match message with Some m => m | None => shortmsg end in
  let explain := match explain with Some e => e | None => longmsg end in
  send_response code (Some message) ;;
  send_header "Connection" "close" ;;
  body <- (if error_has_body code then
             let body := error_body L code message explain in
             send_header "Content-Type" error_content_type ;;
             send_header "Content-Length" (str_of_nat (String.length body)) ;;
             ret (Some body)
           else ret None) ;;
  self_end_headers ;;
  h <- get ;;
  match body with
  | Some b => when (not_head h && negb (isempty b)) (wfile_write b)
  | None => ret tt
  end.

Definition handle_expect_100 : M handler bool :=
  send_response_only 100 None ;;
  self_end_headers ;;
  ret true.

(** The [try] block of [parse_request] that reads the version:
    [None] stands for its ValueError and IndexError. *)
Definition version_number (version : string)
  : option (string * (Z * Z)) :=
  if negb (startswith version "HTTP/") then None
  else match snd (split1 slash version) with
       | None => None
       | Some base_version_number =>
           match split_on "."%char base_version_number with
           | [major; minor] =>
               match py_int L major, py_int L minor with
               | Some a, Some b => Some (base_version_number, (a, b))
               | _, _ => None
               end
           | _ => None
           end
       end.

(** [t >= (a, b)] on pairs of integers. *)
Definition pair_geb (t : Z * Z) (a b : Z) : bool :=
  ((a <? fst t) || ((fst t =? a) && (b <=? snd t)))%Z.

(** [s >= t] on strings. *)
Definition str_geb (s t : string) : bool := String.leb t s.

(** The part of [parse_request] after the request line is accepted. *)
Definition parse_request_headers (req : request) : M handler bool :=
  match parsed_headers req with
  | LineTooLong err =>
      send_error 431 (Some "Line too long") (Some err) ;;
      ret false
  | TooManyHeaders err =>
      send_error 431 (Some "Too many headers") (Some err) ;;
      ret false
  | HeadersOk hs =>
      modify (set_headers hs) ;;
      h <- get ;;
      let conntype := headers_get hs "Connection" "" in
      (if String.eqb (lower conntype) "close" then
         modify (set_close_connection true)
       else if String.eqb (lower conntype) "keep-alive"
               && str_geb (protocol_version h) "HTTP/1.1" then
         modify (set_close_connection false)
       else ret tt) ;;
      let expect := headers_get hs "Expect" "" in
      if String.eqb (lower expect) "100-continue"
         && str_geb (protocol_version h) "HTTP/1.1"
         && str_geb (request_version h) "HTTP/1.1"
      then
        ok <- handle_expect_100 ;;
        if negb ok then ret false else ret true
      else ret true
  end.

(** The part of [parse_request] from the check of the number of
    words on. *)
Definition parse_request_words (req : request) (requestline : string)
    (words : list string) : M handler bool :=
  if negb ((2 <=? length words)%nat && (length words <=? 3)%nat) then
    send_error 400
      (Some ("Bad request syntax (" ++ py_repr L requestline ++ ")")) None ;;
    ret false
  else
    let command := nth 0 words "" in
    let path := nth 1 words "" in
    stop <- (if (length words =? 2)%nat then
               modify (set_close_connection true) ;;
               if negb (String.eqb command "GET") then
                 send_error 400
                   (Some ("Bad HTTP/0.9 request type ("
                          ++ py_repr L command ++ ")")) None ;;
                 ret true
               else ret false
             else ret false) ;;
    if (stop : bool) then ret false
    else
      modify (set_command (Some command)) ;;
      modify (set_path path) ;;
      when (startswith path "//")
        (modify (set_path
                   ("/" ++ lstrip (fun a => Ascii.eqb a slash) path))) ;;
      parse_request_headers req.

Definition parse_request (req : request) : M handler bool :=
  modify (set_command None) ;;
  modify (set_request_version default_request_version) ;;
  modify (set_close_connection true) ;;
  let requestline := rstrip is_crlf (raw_requestline req) in
  let words := py_split requestline in
  if (length words =? 0)%nat then ret false
  else if (3 <=? length words)%nat then
    let version := last words "" in
    match version_number version with
    | None =>
        send_error 400
          (Some ("Bad request version (" ++ py_repr L version ++ ")")) None ;;
        ret false
    | Some (base_version_number, vn) =>
        h <- get ;;
        when (pair_geb vn 1 1 && str_geb (protocol_version h) "HTTP/1.1")
          (modify (set_close_connection false)) ;;
        if pair_geb vn 2 0 then
          send_error 505
            (Some ("Invalid HTTP version (" ++ base_version_number ++ ")"))
            None ;;
          ret false
        else
          modify (set_request_version version) ;;
          parse_request_words req requestline words
    end
  else parse_request_words req requestline words.

(** [handle_one_request], the [do_*] methods of the class given by
    [self_do]: [hasattr(self, 'do_' + command)] is
    [self_do command <> None]. *)
Definition handle_one_request
    (self_do : string -> option (M handler unit)) (req : request)
  : M handler unit :=
  if (65536 <? Z.of_nat (String.length (raw_requestline req)))%Z then
    modify (set_request_version "") ;;
    modify (set_command (Some "")) ;;
    send_error 414 None None
  else if isempty (raw_requestline req) then
    modify (set_close_connection true)
  else
    ok <- parse_request req ;;
    if negb ok then ret tt
    else
      h <- get ;;
      let command := match command h with Some c => c | None => "" end in
      match self_do command with
      | None =>
          send_error 501
            (Some ("Unsupported method (" ++ py_repr L command ++ ")")) None
      | Some method => method
      end.

(** [handle]: requests are read off the connection for as long as
    [close_connection] stays false; after the last one [readline]
    returns the empty string. *)
Fixpoint handle_loop (self_do : string -> option (M handler unit))
    (reqs : list request) : M handler unit :=
  match reqs with
  | [] => handle_one_request self_do (mkRequest "" (HeadersOk []))
  | r :: reqs' =>
      handle_one_request self_do r ;;
      h <- get ;;
      if close_connection h then ret tt else handle_loop self_do reqs'
  end.

Definition handle (self_do : string -> option (M handler unit))
    (reqs : list request) : M handler unit :=
  modify (set_close_connection true) ;;
  handle_loop self_do reqs.

End Dispatch.
End Methods.

End BaseHTTPRequestHandler.

(** ** The file system calls of the handler *)

(** An open binary file or an [io.BytesIO]: [f_name] is the path it was
    opened from, [None] for a buffer in memory. *)
Record fileobj := mkFileobj {
  f_name : option string;
  f_content : string;
  f_mtime_us : Z
}.

(** How [open] ends. *)
Inductive opened :=
| Opened (f : fileobj)
| OpenOSError
| OpenValueError.

Definition nul : ascii := ascii_of_nat 0.

(** The times [datetime.fromtimestamp] has a [datetime] for: those of the
    years 1 to 9999.  On the others it raises (ValueError; OverflowError
    or OSError where the platform cannot convert the time). *)
Definition datetime_min_us : Z := (-62135596800000000)%Z.
Definition datetime_max_us : Z := 253402300799999999%Z.
Definition representable (us : Z) : bool :=
  ((datetime_min_us <=? us) && (us <=? datetime_max_us))%Z.

Section FileSystem.
Variable W : World.

Definition os_path_isdir (p : string) : bool :=
  match lookup W p with Some (Dir _ _ _) => true | _ => false end.

Definition os_path_isfile (p : string) : bool :=
  match lookup W p with Some (File _ _ _) => true | _ => false end.

(** A path the system cannot be given. *)
Definition unusable_path (p : string) : bool :=
  contains_char nul p || negb (w_fsencodable W p).

(** [open(p, 'rb')]: on a path the system cannot be given it raises
    ValueError, which is no OSError. *)
Definition py_open (p : string) : opened :=
  match lookup W p with
  | Some (File true content mtime) =>
      Opened (mkFileobj (Some p) content mtime)
  | Some _ => OpenOSError
  | None => if unusable_path p then OpenValueError else OpenOSError
  end.

(** [os.listdir(p)]; [None] stands for OSError. *)
Definition os_listdir (p : string) : option (list string) :=
  match lookup W p with
  | Some (Dir true _ entries) => Some entries
  | _ => None
  end.

(** [os.chdir(p)]: search permission on the directory is what the call
    needs; permission to read it is not consulted. *)
Definition os_chdir_error (p : string) : option exn :=
  match lookup W p with
  | None => Some (FileNotFoundError p)
  | Some (File _ _ _) => Some (NotADirectoryError p)
  | Some (Dir _ false _) => Some (PermissionError p)
  | Some (Dir _ true _) => None
  end.
End FileSystem.

(** ** http.server.SimpleHTTPRequestHandler *)

Module SimpleHTTPRequestHandler.

Definition extensions_map (ext : string) : option string :=
  if String.eqb ext ".gz" then Some "application/gzip"
  else if String.eqb ext ".Z" then Some "application/octet-stream"
  else if String.eqb ext ".bz2" then Some "application/x-bzip2"
  else if String.eqb ext ".xz" then Some "application/x-xz"
  else None.

(** [posixpath.splitext(p)[1]]: the text from the last dot of the file
    name on, when something other than dots comes before that dot. *)
Definition splitext_ext (p : string) : string :=
  let name := last (split_on slash p) "" in
  let parts := split_on "."%char name in
  match parts with
  | [] | [_] => ""
  | _ =>
      if forallb isempty (removelast parts) then ""
      else "." ++ last parts ""
  end.

Section Methods.
Variable L : Lib.
Variable W : World.

(** [__init__(..., directory=None)]: the serving directory is the
    working directory of the process when the handler is created.  The
    attributes of the request are unset until [parse_request] runs. *)
Definition init (getcwd protocol : string) (now : Z) : handler :=
  mkHandler getcwd protocol now "" None "" [] true None "".

Definition guess_type (p : string) : string :=
  let ext := splitext_ext p in
  match extensions_map ext with
  | Some t => t
  | None =>
      match extensions_map (lower ext) with
      | Some t => t
      | None =>
          match mimetypes_guess_type L p with
          | Some guess =>
              if isempty guess then "application/octet-stream" else guess
          | None => "application/octet-stream"
          end
      end
  end.

(** The body of the loop of [translate_path] over the words. *)
Definition translate_step (p word : string) : string :=
  if negb (isempty (posixpath.dirname word))
     || String.eqb word "." || String.eqb word ".."
  then p
  else posixpath.join p word.

Definition translate_path (directory p : string) : string :=
  let p := fst (split1 "?"%char p) in
  let p := fst (split1 "#"%char p) in
  let trailing_slash := endswith_char (rstrip isspace p) slash in
  let p := unquote L p in
  let p := posixpath.normpath p in
  let words := split_on slash p in
  let words := filter (fun w => negb (isempty w)) words in
  let p := fold_left translate_step words directory in
  if trailing_slash then p ++ "/" else p.

Section Dispatch.
Variable self_end_headers : M handler unit.

Definition send_error := BaseHTTPRequestHandler.send_error L self_end_headers.
Definition send_response := BaseHTTPRequestHandler.send_response L.
Definition send_header := BaseHTTPRequestHandler.send_header.

Definition list_directory (p : string) : M handler (option fileobj) :=
  match os_listdir W p with
  | None =>
      send_error 404 (Some "No permission to list directory") None ;;
      ret None
  | Some list =>
      h <- get ;;
      let entries :=
        map (fun name =>
               let fullname := posixpath.join p name in
               (name, os_path_isdir W fullname, islink W fullname)) list in
      match render_listing L (path h) entries with
      | None => raise ValueError
      | Some encoded =>
          let f := mkFileobj None encoded 0 in
          send_response 200 None ;;
          send_header "Content-type"
            ("text/html; charset=" ++ filesystemencoding L) ;;
          send_header "Content-Length"
            (str_of_nat (String.length encoded)) ;;
          self_end_headers ;;
          ret (Some f)
      end
  end.

(** The test of [send_head] for the browser cache: the request
    carries a usable If-Modified-Since, and no If-None-Match, that is
    not earlier than the last modification of the file.  [None]
    stands for the exception of [datetime.fromtimestamp], which is
    called once the date of the request is found usable. *)
Definition not_modified (hs : list (string * string)) (mtime_us : Z)
  : option bool :=
  if headers_mem hs "If-Modified-Since"
     && negb (headers_mem hs "If-None-Match")
  then
    match parsedate_to_datetime L
            (headers_get hs "If-Modified-Since" "") with
    | None => Some false
    | Some ims =>
        match dt_tzinfo ims with
        | None | Some tz_utc =>
            if representable mtime_us then
              let last_modif := (mtime_us / 1000000)%Z in
              Some (last_modif <=? dt_seconds ims)%Z
            else None
        | Some tz_other => Some false
        end
    end
  else Some false.

(** [self.date_time_string(fs.st_mtime)], evaluated before
    [send_header] is called with it. *)
Definition last_modified (mtime_us : Z) : M handler string :=
  if representable mtime_us
  then ret (date_time_string L (mtime_us / 1000000)%Z)
  else raise ValueError.

(** The rest of [send_head] once the path names no directory to
    list. *)
Definition send_head_file (p : string) : M handler (option fileobj) :=
  let ctype := guess_type p in
  if endswith_char p slash then
    send_error 404 (Some "File not found") None ;;
    ret None
  else
    match py_open W p with
    | OpenOSError =>
        send_error 404 (Some "File not found") None ;;
        ret None
    | OpenValueError => raise ValueError
    | Opened f =>
        h <- get ;;
        match not_modified (headers h) (f_mtime_us f) with
        | None => raise ValueError
        | Some true =>
            send_response 304 None ;;
            self_end_headers ;;
            ret None
        | Some false =>
            send_response 200 None ;;
            send_header "Content-type" ctype ;;
            send_header "Content-Length"
              (str_of_nat (String.length (f_content f))) ;;
            date <- last_modified (f_mtime_us f) ;;
            send_header "Last-Modified" date ;;
            self_end_headers ;;
            ret (Some f)
        end
    end.

Definition send_head : M handler (option fileobj) :=
  h <- get ;;
  let p := translate_path (directory h) (path h) in
  if os_path_isdir W p then
    match urlsplit_path L (path h) with
    | None => raise ValueError
    | Some parts_path =>
        if negb (endswith_char parts_path slash) then
          send_response 301 None ;;
          send_header "Location" (redirect_url L (path h)) ;;
          send_header "Content-Length" "0" ;;
          self_end_headers ;;
          ret None
        else if os_path_isfile W (posixpath.join p "index.html") then
          send_head_file (posixpath.join p "index.html")
        else if os_path_isfile W (posixpath.join p "index.htm") then
          send_head_file (posixpath.join p "index.htm")
        else list_directory p
    end
  else send_head_file p.

(** [copyfile(f, self.wfile)]: the content reaches the client whole,
    in the order read. *)
Definition copyfile (f : fileobj) : M handler unit :=
  wfile_write (f_content f).

Definition do_GET : M handler unit :=
  f <- send_head ;;
  match f with
  | Some f => try_finally (copyfile f) (ret tt)
  | None => ret tt
  end.

Definition do_HEAD : M handler unit :=
  f <- send_head ;;
  ret tt.

(** [getattr(self, 'do_' + command)]. *)
Definition self_do (command : string) : option (M handler unit) :=
  if String.eqb command "GET" then Some do_GET
  else if String.eqb command "HEAD" then Some do_HEAD
  else None.

Definition handle_one_request :=
  BaseHTTPRequestHandler.handle_one_request L self_end_headers self_do.

Definition handle :=
  BaseHTTPRequestHandler.handle L self_end_headers self_do.

End Dispatch.

(** [end_headers] is inherited. *)
Definition end_headers := BaseHTTPRequestHandler.end_headers.

End Methods.

End SimpleHTTPRequestHandler.

(** ** devserver.py: class RequestHandler *)

Module RequestHandler.
Section Methods.
Variable L : Lib.
Variable W : World.

Definition end_headers : M handler unit :=
  SimpleHTTPRequestHandler.send_header
    "Cross-Origin-Opener-Policy" "same-origin" ;;
  SimpleHTTPRequestHandler.send_header
    "Cross-Origin-Embedder-Policy" "require-corp" ;;
  SimpleHTTPRequestHandler.end_headers.

(** The inherited methods, [self.end_headers] bound to the override. *)
Definition send_error := SimpleHTTPRequestHandler.send_error L end_headers.
Definition send_head_file :=
  SimpleHTTPRequestHandler.send_head_file L W end_headers.
Definition list_directory :=
  SimpleHTTPRequestHandler.list_directory L W end_headers.
Definition send_head := SimpleHTTPRequestHandler.send_head L W end_headers.
Definition do_GET := SimpleHTTPRequestHandler.do_GET L W end_headers.
Definition do_HEAD := SimpleHTTPRequestHandler.do_HEAD L W end_headers.
Definition handle_one_request :=
  SimpleHTTPRequestHandler.handle_one_request L W end_headers.
Definition handle := SimpleHTTPRequestHandler.handle L W end_headers.
End Methods.
End RequestHandler.

(** ** The process: socketserver, http.server.test and the script *)

(** What the process does to the outside, in order. *)
Inductive event :=
| EvChdir (p : string)               (* os.chdir succeeded *)
| EvPrint (line : string)            (* print to standard output *)
| EvSocket                           (* socket.socket() *)
| EvBind (host : string) (port : Z)  (* socket.bind succeeded *)
| EvListen                           (* socket.listen *)
| EvAccept                           (* socket.accept *)
| EvSend (bytes : string)            (* the bytes written to one connection *)
| EvClose.                           (* the server socket closed *)

Inductive sock_state :=
| Created
| Bound (host : string) (port : Z)
| Listening (host : string) (port : Z).

Record process := mkProcess {
  cwd : string;
  server_socket : option sock_state;   (* None: no open server socket *)
  trace : list event
}.

Definition emit (e : event) : M process unit :=
  modify (fun p => mkProcess (cwd p) (server_socket p) (app (trace p) [e])).
Definition set_cwd (d : string) : M process unit :=
  modify (fun p => mkProcess d (server_socket p) (trace p)).
Definition set_server_socket (s : option sock_state) : M process unit :=
  modify (fun p => mkProcess (cwd p) s (trace p)).

(** What arrives while the server runs: a connection carrying requests, at
    some clock reading, or the interrupt signal. *)
Inductive input :=
| Conn (now : Z) (reqs : list request)
| Interrupt.

Definition print (line : string) : M process unit := emit (EvPrint line).

(** [os.chdir(p)]; [os.getcwd()] then reports the directory reached. *)
Definition os_chdir (W : World) (p : string) : M process unit :=
  match os_chdir_error W p with
  | None => set_cwd (w_realpath W p) ;; emit (EvChdir p)
  | Some e => raise e
  end.

(** *** socketserver.TCPServer, as http.server.HTTPServer configures it *)

Module HTTPServer.
Section Methods.
Variable W : World.

(** [server_bind]: HTTPServer sets SO_REUSEADDR, then binds.  Whether
    the system refuses the bind is its own matter: a socket that
    another process has bound to the port and that does not listen, or
    that listens on another address family, does not make it so. *)
Definition server_bind (host : string) (port : Z) : M process unit :=
  if w_bind_refused W port then raise (AddressInUse port)
  else set_server_socket (Some (Bound host port)) ;; emit (EvBind host port).

(** [server_activate]: [listen] can be refused on a socket that was
    bound. *)
Definition server_activate : M process unit :=
  p <- get ;;
  match server_socket p with
  | Some (Bound host port) =>
      if w_listen_refused W port then raise (AddressInUse port)
      else set_server_socket (Some (Listening host port)) ;; emit EvListen
  | _ => ret tt
  end.

Definition server_close : M process unit :=
  set_server_socket None ;; emit EvClose.

(** [TCPServer.__init__(server_address, RequestHandlerClass)]. *)
Definition init (host : string) (port : Z) : M process unit :=
  set_server_socket (Some Created) ;; emit EvSocket ;;
  on_exception (server_bind host port ;; server_activate) server_close.

(** [finish_request]: the handler class is instantiated on the
    connection and handles it; [handle_class] is its [handle] method.
    What the handler wrote has reached the client, also when it
    raised; [process_request] then closes the connection, and an
    exception of the handler is reported by [handle_error]. *)
Definition process_request (protocol : string)
    (handle_class : list request -> M handler unit)
    (now : Z) (reqs : list request) : M process unit :=
  p <- get ;;
  let self := SimpleHTTPRequestHandler.init (cwd p) protocol now in
  let (_, self') := handle_class reqs self in
  emit (EvSend (wfile self')).

(** [serve_forever] over what arrives. *)
Fixpoint serve_forever (protocol : string)
    (handle_class : list request -> M handler unit)
    (inputs : list input) : M process unit :=
  match inputs with
  | [] => fun p => (Pending, p)
  | Conn now reqs :: inputs' =>
      emit EvAccept ;;
      process_request protocol handle_class now reqs ;;
      serve_forever protocol handle_class inputs'
  | Interrupt :: _ => raise KeyboardInterrupt
  end.
End Methods.
End HTTPServer.

(** *** http.server.test *)

(** [_get_best_family(None, port)]. *)
Definition _get_best_family (W : World) (port : Z) : M process string :=
  match w_getaddrinfo W port with
  | Some host => ret host
  | None => raise gaierror
  end.

(** The line [test] prints once the socket listens. *)
Definition serving_message (host : string) (port : Z) : string :=
  "Serving HTTP on " ++ host ++ " port " ++ str_of_Z port
  ++ " (http://" ++ (if contains_char ":"%char host
                     then "[" ++ host ++ "]" else host)
  ++ ":" ++ str_of_Z port ++ "/) ...".

Definition interrupt_message : string :=
  String (ascii_of_nat 10) "Keyboard interrupt received, exiting.".

(** [test(HandlerClass, ServerClass, protocol="HTTP/1.0", port=8000,
    bind=None)] with [ServerClass] the HTTPServer above; [handle_class]
    is the [handle] method of [HandlerClass]. *)
Definition test (W : World) (handle_class : list request -> M handler unit)
    (port : Z) (inputs : list input) : M process unit :=
  let protocol := "HTTP/1.0" in
  host <- _get_best_family W port ;;
  HTTPServer.init W host port ;;
  try_finally
    (print (serving_message host port) ;;
     except_KeyboardInterrupt
       (HTTPServer.serve_forever protocol handle_class inputs)
       (print interrupt_message ;;
        raise (SystemExit 0)))
    HTTPServer.server_close.

(** ** devserver.py: the module *)

(** How far a run has come when its inputs are used up. *)
Inductive outcome :=
| Exited (status : Z)
| Waiting.                           (* blocked in serve_forever *)

Definition startup_message : string :=
  "===> Open your browser at http://localhost:8000/".

Section Script.
Variable L : Lib.
Variable W : World.

Definition current_dir : string :=
  posixpath.dirname (posixpath.abspath (w_cwd W) (w_file W)).

Definition dist_path : string :=
  posixpath.join (posixpath.join current_dir "..") "dist".

(** The statements of the module, run with [__name__] bound to
    [name]. *)
Definition module_body (name : string) (inputs : list input)
  : M process unit :=
  os_chdir W dist_path ;;
  if String.eqb name "__main__" then
    print startup_message ;;
    test W (RequestHandler.handle L W) 8000 inputs
  else ret tt.

Definition initial_process : process := mkProcess (w_cwd W) None [].

(** [python3 devserver.py]: an exception that reaches the top ends the
    process with status 1, [SystemExit] with its code. *)
Definition main (inputs : list input) : outcome * process :=
  match module_body "__main__" inputs initial_process with
  | (Ok _, p) => (Exited 0, p)
  | (Raise (SystemExit code), p) => (Exited code, p)
  | (Raise _, p) => (Exited 1, p)
  | (Pending, p) => (Waiting, p)
  end.
End Script.

(** ** Vocabulary of the properties *)

(** A single file or directory name: not empty, not [.] or [..], no
    slash inside. *)
Definition simple_name (w : string) : Prop :=
  w <> "" /\ w <> "." /\ w <> ".." /\ contains_char slash w = false.

(** The paths reached from [d] by descending into simple names (a trailing
    slash may be added on the way). *)
Inductive under (d : string) : string -> Prop :=
| under_root : under d d
| under_join q n : under d q -> simple_name n -> under d (posixpath.join q n)
| under_slash q : under d q -> under d (q ++ "/").

(** The two headers [RequestHandler.end_headers] adds. *)
Definition isolation_headers : list (string * string) :=
  [("Cross-Origin-Opener-Policy", "same-origin");
   ("Cross-Origin-Embedder-Policy", "require-corp")].

(** A header whose name is neither of the two. *)
Definition base_header (kv : string * string) : bool :=
  negb (String.eqb (lower (fst kv)) "cross-origin-opener-policy")
  && negb (String.eqb (lower (fst kv)) "cross-origin-embedder-policy").

(** The bytes of a header section: the status line, the headers [kvs] of
    the base handler, the two isolation headers, the blank line. *)
Definition header_block (status : string) (kvs : list (string * string))
  : string :=
  join_bytes (status :: app (map header_line (app kvs isolation_headers)) [CRLF]).

Definition status_line (proto : string) (code : Z) (message : string)
  : string :=
  proto ++ " " ++ str_of_Z code ++ " " ++ message ++ CRLF.

(** No header is waiting in the buffer. *)
Definition idle (h : handler) : Prop := buffer_of h = [].

(** The reason phrase [send_response_only] puts on the status line. *)
Definition reason (L : Lib) (code : Z) (message : option string) : string :=
  match message with
  | Some m => m
  | None => match responses L code with
            | Some (phrase, _) => phrase
            | None => ""
            end
  end.

(** The headers [send_response] starts every response with. *)
Definition standard_headers (L : Lib) (h : handler) : list (string * string) :=
  [("Server", version_string L); ("Date", date_time_string L (time_now h))].

(** What [send_error] sends: its message and explanation, the headers and
    the page. *)
Definition error_message (L : Lib) (code : Z) (message : option string)
  : string :=
  match message with
  | Some m => m
  | None => fst (BaseHTTPRequestHandler.responses_or_unknown L code)
  end.

Definition error_explain (L : Lib) (code : Z) (explain : option string)
  : string :=
  match explain with
  | Some e => e
  | None => snd (BaseHTTPRequestHandler.responses_or_unknown L code)
  end.

Definition error_page (L : Lib) (code : Z) (message explain : option string)
  : string :=
  error_body L code (error_message L code message) (error_explain L code explain).

Definition error_headers (L : Lib) (code : Z) (message explain : option string)
    (h : handler) : list (string * string) :=
  app (standard_headers L h)
    (("Connection", "close")
     :: (if BaseHTTPRequestHandler.error_has_body code then
           [("Content-Type", BaseHTTPRequestHandler.error_content_type);
            ("Content-Length",
             str_of_nat (String.length (error_page L code message explain)))]
         else [])).

Definition error_payload (L : Lib) (code : Z) (message explain : option string)
    (h : handler) : string :=
  if BaseHTTPRequestHandler.error_has_body code
     && BaseHTTPRequestHandler.not_head h
  then error_page L code message explain else "".

(** The handler after one whole response: the bytes are written, the
    buffer is empty. *)
Definition responded (status : string) (kvs : list (string * string))
    (body : string) (h : handler) : handler :=
  set_headers_buffer (Some [])
    (set_wfile (wfile h ++ header_block status kvs ++ body) h).

(** A method that leaves the version of the request as it found it. *)
Definition keeps_version {A} (m : M handler A) : Prop :=
  forall h, request_version (snd (m h)) = request_version h.

(** The headers of the responses of [send_head]. *)
Definition file_headers (L : Lib) (h : handler) (p : string) (f : fileobj)
  : list (string * string) :=
  app (standard_headers L h)
    [("Content-type", SimpleHTTPRequestHandler.guess_type L p);
     ("Content-Length", str_of_nat (String.length (f_content f)));
     ("Last-Modified", date_time_string L (f_mtime_us f / 1000000)%Z)].

Definition listing_headers (L : Lib) (h : handler) (encoded : string)
  : list (string * string) :=
  app (standard_headers L h)
    [("Content-type", "text/html; charset=" ++ filesystemencoding L);
     ("Content-Length", str_of_nat (String.length encoded))].

Definition redirect_headers (L : Lib) (h : handler) : list (string * string) :=
  app (standard_headers L h)
    [("Location", redirect_url L (path h)); ("Content-Length", "0")].

(** The page [list_directory] builds for the directory [p]. *)
Definition listing_page (L : Lib) (W : World) (h : handler) (p : string)
    (list : list string) : option string :=
  render_listing L (path h)
    (map (fun name =>
            let fullname := posixpath.join p name in
            (name, os_path_isdir W fullname, islink W fullname)) list).

(** The handler after the 404 response of [send_error] with [message]. *)
Definition not_found (L : Lib) (message : string) (h : handler) : handler :=
  set_close_connection true
    (responded
       (status_line (protocol_version h) 404 message)
       (error_headers L 404 (Some message) None h)
       (error_payload L 404 (Some message) None h) h).

(** The errors the handler answers with once the version of the request
    is recorded: code, message and explanation as [send_error] is given
    them. *)
Inductive refusal (L : Lib) : Z -> option string -> option string -> Prop :=
| refusal_uri_too_long : refusal L 414 None None
| refusal_syntax requestline :
    refusal L 400
      (Some ("Bad request syntax (" ++ py_repr L requestline ++ ")")) None
| refusal_line_too_long err :
    refusal L 431 (Some "Line too long") (Some err)
| refusal_too_many_headers err :
    refusal L 431 (Some "Too many headers") (Some err)
| refusal_method cmd :
    refusal L 501 (Some ("Unsupported method (" ++ py_repr L cmd ++ ")")) None
| refusal_not_found : refusal L 404 (Some "File not found") None
| refusal_no_permission :
    refusal L 404 (Some "No permission to list directory") None.

(** The responses of the handler to a request that is not HTTP/0.9, as
    the bytes written, [h] being the handler when the response is made:
    the header section, which ends with the two isolation headers and the
    blank line, then the body.  They are the error response of
    [send_error], the file (its content left out for HEAD), the answer to
    a browser that has the file, the redirection to a directory and the
    listing of a directory. *)
Inductive framed (L : Lib) (W : World) (h : handler) : string -> Prop :=
| framed_error code message explain :
    refusal L code message explain ->
    framed L W h
      (header_block
         (status_line (protocol_version h) code (error_message L code message))
         (error_headers L code message explain h)
       ++ error_payload L code message explain h)
| framed_file p f body :
    py_open W p = Opened f -> representable (f_mtime_us f) = true ->
    body = f_content f \/ body = "" ->
    framed L W h
      (header_block (status_line (protocol_version h) 200 (reason L 200 None))
         (file_headers L h p f)
       ++ body)
| framed_not_modified :
    framed L W h
      (header_block (status_line (protocol_version h) 304 (reason L 304 None))
         (standard_headers L h)
       ++ "")
| framed_redirect :
    framed L W h
      (header_block (status_line (protocol_version h) 301 (reason L 301 None))
         (redirect_headers L h)
       ++ "")
| framed_listing p list page body :
    os_listdir W p = Some list -> listing_page L W h p list = Some page ->
    body = page \/ body = "" ->
    framed L W h
      (header_block (status_line (protocol_version h) 200 (reason L 200 None))
         (listing_headers L h page)
       ++ body).

(** One response was written between [h] and [h'], the request read in
    between: [hx] is the handler when the response is made, with the
    clock and the protocol of [h]. *)
Definition one_response (L : Lib) (W : World) (h h' : handler) : Prop :=
  exists hx out,
    time_now hx = time_now h
    /\ protocol_version hx = protocol_version h
    /\ framed L W hx out
    /\ wfile h' = wfile h ++ out.

(** How a method that answers a request ends, when the request is not
    HTTP/0.9: it returns with one response written, or it raises with
    nothing written. *)
Definition replied {A} (L : Lib) (W : World) (h : handler)
    (rh : result A * handler) : Prop :=
  match fst rh with
  | Ok _ => one_response L W h (snd rh)
  | Raise _ => wfile (snd rh) = wfile h
  | Pending => False
  end.

(** The version of the request [parse_request] has recorded when
    [handle_one_request] returns from a line that is not empty:
    [HTTP/0.9], the default, unless the line has three words or more and
    its last word is a version below 2.0; no version at all when the line
    is too long to be parsed. *)
Definition recorded_version (L : Lib) (req : request) : string :=
  if (65536 <? Z.of_nat (String.length (raw_requestline req)))%Z then ""
  else
    let words := py_split (rstrip is_crlf (raw_requestline req)) in
    if (3 <=? length words)%nat then
      match BaseHTTPRequestHandler.version_number L (last words "") with
      | Some (_, vn) =>
          if BaseHTTPRequestHandler.pair_geb vn 2 0 then "HTTP/0.9"
          else last words ""
      | None => "HTTP/0.9"
      end
    else "HTTP/0.9".

(** The events of the accept loop. *)
Definition serving_event (e : event) : Prop :=
  match e with
  | EvAccept | EvSend _ => True
  | _ => False
  end.

(** The same machine, the program started with other arguments and another
    environment. *)
Definition with_invocation (W : World) (argv : list string)
    (environ : list (string * string)) : World :=
  mkWorld (w_file W) (w_cwd W) argv environ (lookup W) (islink W)
    (w_realpath W) (w_fsencodable W) (w_getaddrinfo W) (w_port_held W)
    (w_bind_refused W) (w_listen_refused W).

(** The process once the module has changed directory and printed its
    message. *)
Definition started (W : World) : process :=
  mkProcess (w_realpath W (dist_path W)) None
    [EvChdir (dist_path W); EvPrint startup_message].

(** Every value the method returns satisfies [P]. *)
Definition returns {A} (m : M handler A) (P : A -> Prop) : Prop :=
  forall h a h', m h = (Ok a, h') -> P a.




(** The request path of the file with the relative path [names]. *)
Definition url_of (names : list string) : string :=
  "/" ++ String.concat "/" names.

(** [os.path.join(root, *names)]. *)
Definition join_all (root : string) (names : list string) : string :=
  fold_left posixpath.join names root.

(** ** A sample installation

    The examples run on stand-ins for the helpers of the library that are
    exact on the inputs the examples give them: paths without escapes,
    messages without markup, dates on the first day of 1970. *)

Definition LF : string := String (ascii_of_nat 10) "".
Definition dq : string := String (ascii_of_nat 34) "".

Definition two_digits (n : Z) : string :=
  (if (n <? 10)%Z then "0" else "") ++ str_of_Z n.

Definition sample_date (t : Z) : string :=
  "Thu, 01 Jan 1970 " ++ two_digits (t / 3600) ++ ":"
  ++ two_digits ((t / 60) mod 60) ++ ":" ++ two_digits (t mod 60) ++ " GMT".

Definition sample_responses (code : Z) : option (string * string) :=
  if (code =? 200)%Z then Some ("OK", "Request fulfilled, document follows")
  else if (code =? 301)%Z then
    Some ("Moved Permanently", "Object moved permanently -- see URI list")
  else if (code =? 304)%Z then
    Some ("Not Modified", "Document has not changed since given time")
  else if (code =? 400)%Z then
    Some ("Bad Request", "Bad request syntax or unsupported method")
  else if (code =? 404)%Z then
    Some ("Not Found", "Nothing matches the given URI")
  else if (code =? 414)%Z then Some ("Request-URI Too Long", "URI is too long")
  else if (code =? 501)%Z then
    Some ("Not Implemented", "Server does not support this operation")
  else if (code =? 505)%Z then
    Some ("HTTP Version Not Supported", "Cannot fulfill request")
  else None.

(** DEFAULT_ERROR_MESSAGE, filled in. *)
Definition sample_error_body (code : Z) (message explain : string) : string :=
  String.concat LF
    ["<!DOCTYPE HTML>";
     "<html lang=" ++ dq ++ "en" ++ dq ++ ">";
     "    <head>";
     "        <meta charset=" ++ dq ++ "utf-8" ++ dq ++ ">";
     "        <title>Error response</title>";
     "    </head>";
     "    <body>";
     "        <h1>Error response</h1>";
     "        <p>Error code: " ++ str_of_Z code ++ "</p>";
     "        <p>Message: " ++ message ++ ".</p>";
     "        <p>Error code explanation: " ++ str_of_Z code ++ " - "
       ++ explain ++ ".</p>";
     "    </body>";
     "</html>";
     ""].

Definition sample_lib : Lib :=
  mkLib
    (fun s => s)
    (fun s => option_map Z.of_int (NilZero.int_of_string s))
    (fun s => "'" ++ s ++ "'")
    sample_responses
    "SimpleHTTP/0.6 Python/3.11.2"
    sample_date
    sample_error_body
    (fun p => if String.eqb (SimpleHTTPRequestHandler.splitext_ext p) ".html"
              then Some "text/html" else None)
    (fun p => Some (fst (split1 "?"%char (fst (split1 "#"%char p)))))
    (fun p => p ++ "/")
    (fun s => if String.eqb s "Thu, 01 Jan 1970 00:00:10 GMT"
              then Some (mkDatetime 10 (Some tz_utc)) else None)
    "utf-8"
    (fun p entries =>
       Some ("Directory listing for " ++ p ++ LF
             ++ String.concat LF (map (fun e => fst (fst e)) entries))).

(** The checkout /home/dev/repo with the script in app/ and, when [dist] is
    given, the directory dist holding a page, a file that cannot be read
    and a file with a [#] in its name; [busy] tells whether another
    process listens on port 8000 at the address of the server, so that the
    bind is refused. *)
Definition sample_world (dist : option node) (busy : bool) : World :=
  mkWorld
    "/home/dev/repo/app/devserver.py"
    "/home/dev/repo"
    [] []
    (fun p =>
       if String.eqb p "/home/dev/repo/app/../dist"
          || String.eqb p "/home/dev/repo/dist"
          || String.eqb p "/home/dev/repo/dist/"
       then dist
       else match dist with
            | Some (Dir _ true _) =>
                if String.eqb p "/home/dev/repo/dist/index.html"
                then Some (File true "<h1>hi</h1>" 5000000)
                else if String.eqb p "/home/dev/repo/dist/secret.txt"
                then Some (File false "s3cret" 5000000)
                else if String.eqb p "/home/dev/repo/dist/notes#1.txt"
                then Some (File true "notes" 5000000)
                else None
            | _ => None
            end)
    (fun _ => false)
    posixpath.normpath
    (fun _ => true)
    (fun _ => Some "0.0.0.0")
    (fun port => busy && (port =? 8000)%Z)
    (fun port => busy && (port =? 8000)%Z)
    (fun _ => false).

Definition sample_dist : node :=
  Dir true true ["index.html"; "notes#1.txt"; "secret.txt"].

Definition sample_handler : handler :=
  SimpleHTTPRequestHandler.init "/home/dev/repo/dist" "HTTP/1.0" 0.

(** A request line with its line end, and the header fields parsed. *)
Definition sample_request (line : string) (hs : list (string * string))
  : request :=
  mkRequest (line ++ CRLF) (HeadersOk hs).

(** ** Vocabulary of the request line, of the connection and of the run *)

(** The path [parse_request] stores for the path [p] of the request line:
    two or more slashes at its start are reduced to one. *)
Definition collapse_slashes (p : string) : string :=
  if startswith p "//" then "/" ++ lstrip (fun a => Ascii.eqb a slash) p
  else p.

(** The handler once [parse_request] has accepted, on a server that speaks
    HTTP/1.0, a request line of the words [cmd], [p] and [v] and the
    header fields [hs]. *)
Definition parsed_request (h : handler) (cmd p v : string)
    (hs : list (string * string)) : handler :=
  mkHandler (directory h) (protocol_version h) (time_now h) v (Some cmd)
    (collapse_slashes p) hs true (_headers_buffer h) (wfile h).

(** A handler of a server that speaks HTTP/1.0 whose connection is to be
    closed after the request at hand. *)
Definition closing (h : handler) : Prop :=
  close_connection h = true /\ protocol_version h = "HTTP/1.0".

(** A method under which [I] stays true of the handler, however the method
    ends. *)
Definition preserves {A} (I : handler -> Prop) (m : M handler A) : Prop :=
  forall h, I h -> I (snd (m h)).

(** The bytes the process writes to a connection accepted while its
    working directory is [root]. *)
Definition response_of (L : Lib) (W : World) (root : string) (now : Z)
    (reqs : list request) : string :=
  wfile (snd (RequestHandler.handle L W reqs
                (SimpleHTTPRequestHandler.init root "HTTP/1.0" now))).

(** The events of the accept loop of a process in [root], up to the first
    interrupt. *)
Fixpoint served_events (L : Lib) (W : World) (root : string)
    (inputs : list input) : list event :=
  match inputs with
  | [] => []
  | Conn now reqs :: inputs' =>
      EvAccept :: EvSend (response_of L W root now reqs)
      :: served_events L W root inputs'
  | Interrupt :: _ => []
  end.

(** An interrupt arrives. *)
Fixpoint interrupted (inputs : list input) : bool :=
  match inputs with
  | [] => false
  | Conn _ _ :: inputs' => interrupted inputs'
  | Interrupt :: _ => true
  end.

(** The events of a run up to the line [test] prints, the socket listening
    on [host]. *)
Definition listening_trace (W : World) (host : string) : list event :=
  app (trace (started W))
    [EvSocket; EvBind host 8000; EvListen; EvPrint (serving_message host 8000)].

(** A request line longer than the 65536 bytes [handle_one_request]
    reads. *)
Definition sample_long_line : string :=
  string_of_list_ascii (repeat "a"%char (Z.to_nat 65537)).

(** The checkout of the sample installation with a site in dist: a page,
    the directory assets without an index file, the directory docs with
    both index files and the directory private, which cannot be read. *)
Definition sample_site : World :=
  let dist := "/home/dev/repo/dist" in
  let inside p q := String.eqb p (dist ++ q) in
  mkWorld
    "/home/dev/repo/app/devserver.py"
    "/home/dev/repo"
    [] []
    (fun p =>
       if String.eqb p "/home/dev/repo/app/../dist" || inside p "" || inside p "/"
       then Some (Dir true true ["assets"; "docs"; "index.html"; "private"])
       else if inside p "/index.html" then Some (File true "<h1>hi</h1>" 5000000)
       else if inside p "/assets" || inside p "/assets/"
       then Some (Dir true true ["app.js"])
       else if inside p "/assets/app.js" then Some (File true "run()" 5000000)
       else if inside p "/docs" || inside p "/docs/"
       then Some (Dir true true ["index.htm"; "index.html"])
       else if inside p "/docs/index.html"
       then Some (File true "<p>docs</p>" 5000000)
       else if inside p "/docs/index.htm" then Some (File true "<p>old</p>" 5000000)
       else if inside p "/private" || inside p "/private/"
       then Some (Dir false true ["key"])
       else None)
    (fun _ => false)
    posixpath.normpath
    (fun _ => true)
    (fun _ => Some "0.0.0.0")
    (fun _ => false)
    (fun _ => false)
    (fun _ => false).

(** The handler of a request on the sample installation, its line
    parsed. *)
Definition sample_parsed (cmd p : string) : handler :=
  set_path p
    (set_command (Some cmd) (set_request_version "HTTP/1.0" sample_handler)).

(** The sample installation on a machine where no address to listen on
    can be found. *)
Definition sample_world_without_address : World :=
  let W := sample_world (Some sample_dist) false in
  mkWorld (w_file W) (w_cwd W) (w_argv W) (w_environ W) (lookup W) (islink W)
    (w_realpath W) (w_fsencodable W) (fun _ => None) (w_port_held W)
    (w_bind_refused W) (w_listen_refused W).

(** How [send_head] ends on a request that is not HTTP/0.9: with a whole
    response written and nothing to copy; with the header section of a
    response written, whose body is the content of the file it hands
    back; or with an exception and nothing written. *)
Definition head_sent (L : Lib) (W : World) (h : handler)
    (rh : result (option fileobj) * handler) : Prop :=
  match fst rh with
  | Ok None => exists out, framed L W h out /\ wfile (snd rh) = wfile h ++ out
  | Ok (Some f) =>
      exists out,
        framed L W h out /\ framed L W h (out ++ f_content f)
        /\ wfile (snd rh) = wfile h ++ out
  | Raise _ => wfile (snd rh) = wfile h
  | Pending => False
  end.

(** How [parse_request] ends on a request line whose version [v] it
    records, on a server that speaks HTTP/1.0: the request is accepted and
    nothing has been written, or it is refused and answered. *)
Definition parse_outcome (L : Lib) (W : World) (h : handler) (v : string)
    (rh : result bool * handler) : Prop :=
  request_version (snd rh) = v
  /\ match fst rh with
     | Ok true =>
         idle (snd rh) /\ wfile (snd rh) = wfile h
         /\ time_now (snd rh) = time_now h
         /\ protocol_version (snd rh) = protocol_version h
     | Ok false => one_response L W h (snd rh)
     | _ => False
     end.

(** A request that [parse_request] accepts on a server that speaks
    HTTP/1.0, as sent by the client: its line, of 65536 bytes at most,
    has the three words [cmd], [p] and [v], the version [v] is well formed
    and below 2.0, and the header fields parse to [hs]. *)
Definition accepted_request (L : Lib) (req : request) (cmd p v : string)
    (hs : list (string * string)) : Prop :=
  (Z.of_nat (String.length (raw_requestline req)) <= 65536)%Z
  /\ py_split (rstrip is_crlf (raw_requestline req)) = [cmd; p; v]
  /\ match BaseHTTPRequestHandler.version_number L v with
     | Some (_, vn) => BaseHTTPRequestHandler.pair_geb vn 2 0 = false
     | None => False
     end
  /\ parsed_headers req = HeadersOk hs.

(** [needle in s]. *)
Fixpoint occurs (needle s : string) : bool :=
  match s with
  | EmptyString => startswith s needle
  | String _ s' => startswith s needle || occurs needle s'
  end.

(** The sample installation with one more entry in dist: link.html, a
    symbolic link to the file outside.html of the checkout, next to dist.
    The system follows the link when the path is opened. *)
Definition sample_world_with_link : World :=
  let W :=
    sample_world
      (Some (Dir true true
               ["index.html"; "link.html"; "notes#1.txt"; "secret.txt"]))
      false in
  let link := "/home/dev/repo/dist/link.html" in
  let target := "/home/dev/repo/outside.html" in
  mkWorld (w_file W) (w_cwd W) (w_argv W) (w_environ W)
    (fun p =>
       if String.eqb p link || String.eqb p target
       then Some (File true "outside" 5000000)
       else lookup W p)
    (fun p => String.eqb p link)
    (fun p => if String.eqb p link then target else w_realpath W p)
    (w_fsencodable W) (w_getaddrinfo W) (w_port_held W) (w_bind_refused W)
    (w_listen_refused W).

(** The sample installation while another process holds port 8000 with a
    socket that is bound and does not listen: the socket of the server
    has SO_REUSEADDR set ([allow_reuse_address] of [HTTPServer]), so the
    system accepts its bind. *)
Definition sample_world_port_held : World :=
  let W := sample_world (Some sample_dist) false in
  mkWorld (w_file W) (w_cwd W) (w_argv W) (w_environ W) (lookup W) (islink W)
    (w_realpath W) (w_fsencodable W) (w_getaddrinfo W)
    (fun port => (port =? 8000)%Z) (fun _ => false) (fun _ => false).



(** * Properties *)

(** ** Strings *)

Lemma append_nil_r (s : string) : s ++ "" = s.
Proof. induction s as [|a s IH]; simpl; [reflexivity | now rewrite IH]. Qed.

Lemma append_assoc (a b c : string) : (a ++ b) ++ c = a ++ b ++ c.
Proof. induction a as [|x a IH]; simpl; [reflexivity | now rewrite IH]. Qed.

Lemma length_append (a b : string) :
  String.length (a ++ b) = (String.length a + String.length b)%nat.
Proof. induction a as [|x a IH]; simpl; [reflexivity | now rewrite IH]. Qed.

Lemma isempty_true (s : string) : isempty s = true -> s = "".
Proof. destruct s; [reflexivity | discriminate]. Qed.

Lemma split_on_nonnil (c : ascii) (s : string) : split_on c s <> [].
Proof.
  induction s as [|a s IH]; simpl; [discriminate|].
  destruct (Ascii.eqb a c); [discriminate|].
  destruct (split_on c s); discriminate.
Qed.

(** No word of [s.split(c)] holds the separator. *)
Lemma split_on_no_sep (c : ascii) (s w : string) :
  In w (split_on c s) -> contains_char c w = false.
Proof.
  revert w; induction s as [|a s IH]; simpl; intros w Hin.
  - destruct Hin as [<-|[]]; reflexivity.
  - destruct (Ascii.eqb a c) eqn:E.
    + destruct Hin as [<-|Hin]; [reflexivity | now apply IH].
    + destruct (split_on c s) as [|w0 ws] eqn:Es.
      * destruct Hin as [<-|[]]; simpl; now rewrite E.
      * destruct Hin as [<-|Hin].
        -- simpl; rewrite E; apply IH; now left.
        -- apply IH; now right.
Qed.

Lemma split_on_app_sep (c : ascii) (a b : string) :
  split_on c (a ++ String c b) = (split_on c a ++ split_on c b)%list.
Proof.
  induction a as [|x a IH]; simpl.
  - now rewrite Ascii.eqb_refl.
  - destruct (Ascii.eqb x c); [now rewrite IH|].
    rewrite IH.
    destruct (split_on c a) as [|w ws] eqn:E; [|reflexivity].
    now destruct (split_on_nonnil c a).
Qed.

Lemma split_on_plain (c : ascii) (b : string) :
  contains_char c b = false -> split_on c b = [b].
Proof.
  induction b as [|x b IH]; simpl; intros H; [reflexivity|].
  apply orb_false_iff in H as [Hx Hb].
  rewrite Hx, (IH Hb); reflexivity.
Qed.

Lemma split_on_app_plain (c : ascii) (a b : string) :
  contains_char c b = false ->
  split_on c (a ++ b)
  = app (removelast (split_on c a)) [last (split_on c a) "" ++ b].
Proof.
  intros Hb; induction a as [|x a IH]; simpl.
  - now apply split_on_plain.
  - destruct (Ascii.eqb x c).
    + rewrite IH.
      destruct (split_on c a) as [|w ws] eqn:E;
        [now destruct (split_on_nonnil c a) | reflexivity].
    + rewrite IH.
      destruct (split_on c a) as [|w ws] eqn:E;
        [now destruct (split_on_nonnil c a)|].
      destruct ws; reflexivity.
Qed.

Lemma endswith_char_last (c : ascii) (s : string) :
  endswith_char s c = true -> last (split_on c s) "" = "".
Proof.
  induction s as [|x s IH]; simpl; [discriminate|].
  destruct s as [|y s'].
  - intros H; rewrite H; reflexivity.
  - intros H; specialize (IH H).
    destruct (Ascii.eqb x c).
    + remember (split_on c (String y s')) as l eqn:El.
      destruct l; [now destruct (split_on_nonnil c (String y s'))|exact IH].
    + remember (split_on c (String y s')) as l eqn:El.
      destruct l as [|w ws]; [now destruct (split_on_nonnil c (String y s'))|].
      destruct ws; [|exact IH].
      simpl in IH; subst w.
      (* the only word is empty, yet the string is not *)
      exfalso.
      assert (Hlen : forall t, split_on c t = [""] -> t = "").
      { clear; induction t as [|z t IHt]; simpl; [reflexivity|].
        destruct (Ascii.eqb z c); [intros H; inversion H as [H1];
          now destruct (split_on_nonnil c t)|].
        destruct (split_on c t); discriminate. }
      now specialize (Hlen _ (eq_sym El)).
Qed.

Lemma endswith_char_app (c : ascii) (a b : string) :
  b <> "" -> endswith_char (a ++ b) c = endswith_char b c.
Proof.
  intros Hb; induction a as [|x a IH]; simpl; [reflexivity|].
  destruct (a ++ b) eqn:E; [|exact IH].
  destruct a; simpl in E; [now subst | discriminate].
Qed.

(** ** Path translation stays under the serving directory *)

Lemma simple_name_not_abs (n : string) :
  simple_name n -> startswith n "/" = false.
Proof.
  intros (Hne & _ & _ & Hs).
  destruct n as [|a n]; [reflexivity|].
  simpl in Hs. apply orb_false_iff in Hs as [Ha _].
  simpl. fold slash. now rewrite Ha.
Qed.

Lemma head_upto_last_slash_plain (w : string) :
  contains_char slash w = false -> posixpath.head_upto_last_slash w = "".
Proof.
  destruct w as [|a w]; [reflexivity|].
  intros H; unfold posixpath.head_upto_last_slash; now rewrite H.
Qed.

Lemma dirname_plain (w : string) :
  contains_char slash w = false -> posixpath.dirname w = "".
Proof.
  intros H; unfold posixpath.dirname.
  now rewrite (head_upto_last_slash_plain w H).
Qed.

(** One turn of the loop of [translate_path] keeps the path under [d]. *)
Lemma translate_step_under (d q w : string) :
  under d q -> w <> "" -> contains_char slash w = false ->
  under d (SimpleHTTPRequestHandler.translate_step q w).
Proof.
  intros Hq Hne Hs; unfold SimpleHTTPRequestHandler.translate_step.
  rewrite (dirname_plain w Hs); simpl.
  destruct (String.eqb_spec w ".") as [|Hdot]; [assumption|].
  destruct (String.eqb_spec w "..") as [|Hdd]; [assumption|].
  simpl; apply under_join; [assumption|].
  repeat split; assumption.
Qed.

Lemma translate_loop_under (d : string) (words : list string) :
  forall q, under d q ->
  Forall (fun w => w <> "" /\ contains_char slash w = false) words ->
  under d (fold_left SimpleHTTPRequestHandler.translate_step words q).
Proof.
  induction words as [|w ws IH]; simpl; intros q Hq Hall; [assumption|].
  inversion Hall as [|? ? [Hne Hs] Hrest]; subst.
  apply IH; [|assumption].
  now apply translate_step_under.
Qed.

Lemma translate_path_under (L : Lib) (d p : string) :
  under d (SimpleHTTPRequestHandler.translate_path L d p).
Proof.
  unfold SimpleHTTPRequestHandler.translate_path.
  set (q := posixpath.normpath _).
  assert (Hloop : under d
    (fold_left SimpleHTTPRequestHandler.translate_step
       (filter (fun w => negb (isempty w)) (split_on slash q)) d)).
  { apply translate_loop_under; [apply under_root|].
    apply Forall_forall; intros w Hin.
    apply filter_In in Hin as [Hin Hne]; split.
    - intros ->; discriminate.
    - now apply split_on_no_sep in Hin. }
  destruct (endswith_char _ slash); [now apply under_slash | assumption].
Qed.

(** What [under] means for the text of the path: it is [d] followed by
    components that are empty or simple names, so none of them is [..]. *)
Lemma under_lexical (d q : string) :
  under d q ->
  exists rest, q = d ++ rest
    /\ Forall (fun c => c = "" \/ simple_name c) (split_on slash rest).
Proof.
  induction 1 as [|q n Hq (rest & -> & Hall) Hn|q Hq (rest & -> & Hall)].
  - exists ""; split; [now rewrite append_nil_r|].
    simpl; constructor; [now left|constructor].
  - pose proof (simple_name_not_abs n Hn) as Habs.
    assert (Hplain : contains_char slash n = false) by apply Hn.
    unfold posixpath.join; rewrite Habs.
    destruct (isempty (d ++ rest) || endswith_char (d ++ rest) slash) eqn:E.
    + exists (rest ++ n); split; [now rewrite append_assoc|].
      rewrite (split_on_app_plain slash rest n Hplain).
      assert (Hlast : last (split_on slash rest) "" = "").
      { destruct rest as [|x rest']; [reflexivity|].
        apply endswith_char_last.
        apply orb_true_iff in E as [E|E].
        - apply isempty_true in E. destruct d; discriminate.
        - rewrite endswith_char_app in E by discriminate. exact E. }
      rewrite Hlast; simpl.
      apply Forall_app; split.
      * apply Forall_forall; intros c Hc.
        rewrite Forall_forall in Hall; apply Hall.
        clear - Hc. induction (split_on slash rest) as [|y l IHl];
          [destruct Hc|].
        destruct l; [destruct Hc|].
        destruct Hc as [<-|Hc]; [now left | right; now apply IHl].
      * constructor; [now right | constructor].
    + exists (rest ++ "/" ++ n); split; [now rewrite append_assoc|].
      change ("/" ++ n) with (String slash n).
      rewrite split_on_app_sep, (split_on_plain slash n Hplain).
      apply Forall_app; split; [assumption|].
      constructor; [now right | constructor].
  - exists (rest ++ "/"); split; [now rewrite append_assoc|].
    change "/" with (String slash "").
    rewrite split_on_app_sep; simpl.
    apply Forall_app; split; [assumption|].
    constructor; [now left | constructor].
Qed.

(** ** Running the methods *)

Lemma bind_run {S A B} (m : M S A) (k : A -> M S B) (s s' : S) (a : A) :
  m s = (Ok a, s') -> bind m k s = k a s'.
Proof. intros H; unfold bind; now rewrite H. Qed.

Lemma version_eqb (h : handler) :
  request_version h <> "HTTP/0.9" ->
  String.eqb (request_version h) "HTTP/0.9" = false.
Proof. intros H; now apply String.eqb_neq. Qed.

(** Simplification of the attributes of a handler after updates. *)
Ltac hsimp :=
  cbn [buffer_of _headers_buffer request_version protocol_version time_now
       command path headers close_connection wfile directory
       set_headers_buffer set_wfile set_close_connection set_request_version
       set_command set_path set_headers fst snd app].

(** One statement of a method: [lem] gives its result. *)
Ltac step lem :=
  erewrite bind_run by (apply lem; hsimp; solve [assumption | reflexivity]);
  cbv beta; hsimp.

(** ** The header buffer *)

Lemma send_response_only_run (L : Lib) (code : Z) (message : option string)
    (h : handler) :
  request_version h <> "HTTP/0.9" ->
  BaseHTTPRequestHandler.send_response_only L code message h
  = (Ok tt,
     set_headers_buffer
       (Some (app (buffer_of h)
                [status_line (protocol_version h) code (reason L code message)]))
       h).
Proof.
  intros Hv; apply version_eqb in Hv.
  unfold BaseHTTPRequestHandler.send_response_only, bind, get, modify.
  now rewrite Hv.
Qed.

Lemma send_header_run (keyword value : string) (h : handler) :
  request_version h <> "HTTP/0.9" ->
  String.eqb (lower keyword) "connection" = false ->
  BaseHTTPRequestHandler.send_header keyword value h
  = (Ok tt,
     set_headers_buffer
       (Some (app (buffer_of h) [header_line (keyword, value)])) h).
Proof.
  intros Hv Hk; apply version_eqb in Hv.
  unfold BaseHTTPRequestHandler.send_header, bind, get, when, modify, ret.
  now rewrite Hv, Hk.
Qed.

Lemma send_header_close_run (h : handler) :
  request_version h <> "HTTP/0.9" ->
  BaseHTTPRequestHandler.send_header "Connection" "close" h
  = (Ok tt,
     set_close_connection true
       (set_headers_buffer
          (Some (app (buffer_of h) [header_line ("Connection", "close")])) h)).
Proof.
  intros Hv; apply version_eqb in Hv.
  unfold BaseHTTPRequestHandler.send_header, bind, get, when, modify, ret.
  now rewrite Hv.
Qed.

Lemma send_response_run (L : Lib) (code : Z) (message : option string)
    (h : handler) :
  request_version h <> "HTTP/0.9" ->
  BaseHTTPRequestHandler.send_response L code message h
  = (Ok tt,
     set_headers_buffer
       (Some (app (buffer_of h)
                (status_line (protocol_version h) code (reason L code message)
                 :: map header_line (standard_headers L h))))
       h).
Proof.
  intros Hv; unfold BaseHTTPRequestHandler.send_response.
  step send_response_only_run.
  step send_header_run.
  unfold bind at 1, get at 1; hsimp.
  rewrite send_header_run by (hsimp; solve [assumption | reflexivity]).
  hsimp. unfold standard_headers; cbn [map].
  now rewrite <- !app_assoc.
Qed.

(** [RequestHandler.end_headers] on a request that is not HTTP/0.9: the
    buffered lines, the two isolation headers and the blank line are
    written, and the buffer is left empty. *)
Lemma end_headers_run (h : handler) :
  request_version h <> "HTTP/0.9" ->
  RequestHandler.end_headers h
  = (Ok tt,
     set_headers_buffer (Some [])
       (set_wfile
          (wfile h ++ join_bytes (app (buffer_of h)
                                    (app (map header_line isolation_headers) [CRLF])))
          h)).
Proof.
  intros Hv.
  unfold RequestHandler.end_headers, SimpleHTTPRequestHandler.end_headers,
    SimpleHTTPRequestHandler.send_header.
  step send_header_run.
  step send_header_run.
  apply version_eqb in Hv.
  unfold BaseHTTPRequestHandler.end_headers, BaseHTTPRequestHandler.flush_headers,
    bind, get, modify, wfile_write; hsimp.
  rewrite Hv; hsimp.
  unfold isolation_headers; cbn [map].
  now rewrite <- !app_assoc.
Qed.

(** On an HTTP/0.9 request it writes nothing. *)
Lemma end_headers_legacy (h : handler) :
  request_version h = "HTTP/0.9" ->
  RequestHandler.end_headers h = (Ok tt, h).
Proof.
  intros Hv.
  destruct h as [d pv tn rv c p hs cc hb w]; simpl in *; subst rv.
  reflexivity.
Qed.

Lemma bind_assoc {S A B C} (m : M S A) (f : A -> M S B) (g : B -> M S C)
    (s : S) :
  bind (bind m f) g s = bind m (fun x => bind (f x) g) s.
Proof. unfold bind; destruct (m s) as [[a| |] s']; reflexivity. Qed.

Lemma bind_ret {S A B} (a : A) (k : A -> M S B) (s : S) :
  bind (ret a) k s = k a s.
Proof. reflexivity. Qed.

Lemma bind_get {S B} (k : S -> M S B) (s : S) : bind get k s = k s s.
Proof. reflexivity. Qed.

Lemma bind_modify {S B} (f : S -> S) (k : unit -> M S B) (s : S) :
  bind (modify f) k s = k tt (f s).
Proof. reflexivity. Qed.

Lemma header_block_eq (status : string) (kvs : list (string * string)) :
  join_bytes (app (status :: map header_line kvs)
                (app (map header_line isolation_headers) [CRLF]))
  = header_block status kvs.
Proof.
  unfold header_block; rewrite map_app; cbn [app].
  now rewrite <- app_assoc.
Qed.

(** With the status line and the headers [kvs] in the buffer,
    [end_headers] completes the header section. *)
Lemma end_headers_block (h : handler) (status : string)
    (kvs : list (string * string)) :
  request_version h <> "HTTP/0.9" ->
  buffer_of h = status :: map header_line kvs ->
  RequestHandler.end_headers h = (Ok tt, responded status kvs "" h).
Proof.
  intros Hv Hb; rewrite (end_headers_run h Hv), Hb, header_block_eq.
  unfold responded; now rewrite append_nil_r.
Qed.

(** [self.wfile.write(b)] when [c] holds. *)
Lemma when_write_run (c : bool) (b : string) (h : handler) :
  when c (wfile_write b) h
  = (Ok tt, set_wfile (wfile h ++ (if c then b else "")) h).
Proof.
  destruct c; [reflexivity|].
  destruct h; unfold when, ret, set_wfile; hsimp.
  now rewrite append_nil_r.
Qed.

Lemma nonempty_payload (c : bool) (b : string) :
  (if c && negb (isempty b) then b else "") = (if c then b else "").
Proof. destruct c, b; reflexivity. Qed.

(** The state reached is the one stated, field by field. *)
Ltac finish_response h :=
  unfold responded, header_block, standard_headers, isolation_headers, ret;
  cbn [map app]; destruct h; hsimp;
  rewrite ?append_assoc, ?append_nil_r; reflexivity.

(** ** The responses of the handler *)

(** [send_error] on a request that is not HTTP/0.9. *)
Lemma send_error_spec (L : Lib) (code : Z) (message explain : option string)
    (h : handler) :
  request_version h <> "HTTP/0.9" -> idle h ->
  RequestHandler.send_error L code message explain h
  = (Ok tt,
     set_close_connection true
       (responded
          (status_line (protocol_version h) code (error_message L code message))
          (error_headers L code message explain h)
          (error_payload L code message explain h) h)).
Proof.
  intros Hv Hidle; unfold idle in Hidle.
  unfold RequestHandler.send_error, SimpleHTTPRequestHandler.send_error,
    BaseHTTPRequestHandler.send_error, error_headers, error_payload, error_page,
    error_message, error_explain.
  destruct (BaseHTTPRequestHandler.responses_or_unknown L code) as [s l].
  step send_response_run. rewrite Hidle; cbn [app].
  step send_header_close_run.
  unfold BaseHTTPRequestHandler.not_head.
  destruct (BaseHTTPRequestHandler.error_has_body code); cbn [andb].
  - rewrite !bind_assoc. step send_header_run.
    rewrite !bind_assoc. step send_header_run.
    rewrite bind_ret.
    step end_headers_run. rewrite bind_get, when_write_run, nonempty_payload.
    finish_response h.
  - rewrite bind_ret. step end_headers_run. rewrite bind_get.
    finish_response h.
Qed.

(** ** The version of the request is settled before anything is sent *)

Lemma keeps_version_bind {A B} (m : M handler A) (k : A -> M handler B) :
  keeps_version m -> (forall a, keeps_version (k a)) ->
  keeps_version (bind m k).
Proof.
  intros Hm Hk h; unfold bind.
  specialize (Hm h); destruct (m h) as [[a| |] h1]; cbn [snd] in *;
    [now rewrite Hk | assumption | assumption].
Qed.

Lemma keeps_version_ret {A} (a : A) : keeps_version (ret a).
Proof. intros h; reflexivity. Qed.

Lemma keeps_version_get : keeps_version get.
Proof. intros h; reflexivity. Qed.

Lemma keeps_version_modify (f : handler -> handler) :
  (forall h, request_version (f h) = request_version h) ->
  keeps_version (modify f).
Proof. intros Hf h; apply Hf. Qed.

Lemma keeps_version_when (c : bool) (m : M handler unit) :
  keeps_version m -> keeps_version (when c m).
Proof. destruct c; [trivial | intros _; apply keeps_version_ret]. Qed.

Lemma keeps_version_raise {A} (e : exn) : keeps_version (@raise handler A e).
Proof. intros h; reflexivity. Qed.

Lemma keeps_version_try_finally {A} (m : M handler A) (fin : M handler unit) :
  keeps_version m -> keeps_version fin -> keeps_version (try_finally m fin).
Proof.
  intros Hm Hf h; unfold try_finally.
  specialize (Hm h); destruct (m h) as [[a| |] h1]; cbn [snd] in *;
    try assumption;
    specialize (Hf h1); destruct (fin h1) as [[[]| |] h2]; cbn [snd] in *;
    congruence.
Qed.

Create HintDb keeps.

(** The rules above, applied as far as the shape of the method goes. *)
Ltac keeps_version_tac :=
  repeat first
    [ solve [auto with keeps]
    | apply keeps_version_ret
    | apply keeps_version_get
    | apply keeps_version_raise
    | apply keeps_version_modify; intros; reflexivity
    | apply keeps_version_when
    | apply keeps_version_try_finally
    | apply keeps_version_bind; [|intros]
    | match goal with
      | |- keeps_version (if ?c then _ else _) => destruct c
      | |- keeps_version (match ?o with Some _ => _ | None => _ end) =>
          destruct o
      | |- keeps_version (let (_, _) := ?p in _) => destruct p
      | |- keeps_version (match ?o with _ => _ end) => destruct o
      end ].

Lemma send_response_only_keeps (L : Lib) code message :
  keeps_version (BaseHTTPRequestHandler.send_response_only L code message).
Proof. unfold BaseHTTPRequestHandler.send_response_only; keeps_version_tac. Qed.
#[local] Hint Resolve send_response_only_keeps : keeps.

Lemma send_header_keeps keyword value :
  keeps_version (BaseHTTPRequestHandler.send_header keyword value).
Proof. unfold BaseHTTPRequestHandler.send_header; keeps_version_tac. Qed.
#[local] Hint Resolve send_header_keeps : keeps.

Lemma wfile_write_keeps b : keeps_version (wfile_write b).
Proof. unfold wfile_write; keeps_version_tac. Qed.
#[local] Hint Resolve wfile_write_keeps : keeps.

Lemma flush_headers_keeps : keeps_version BaseHTTPRequestHandler.flush_headers.
Proof. unfold BaseHTTPRequestHandler.flush_headers; keeps_version_tac. Qed.
#[local] Hint Resolve flush_headers_keeps : keeps.

Lemma base_end_headers_keeps : keeps_version BaseHTTPRequestHandler.end_headers.
Proof. unfold BaseHTTPRequestHandler.end_headers; keeps_version_tac. Qed.
#[local] Hint Resolve base_end_headers_keeps : keeps.

Lemma end_headers_keeps : keeps_version RequestHandler.end_headers.
Proof.
  unfold RequestHandler.end_headers, SimpleHTTPRequestHandler.send_header,
    SimpleHTTPRequestHandler.end_headers; keeps_version_tac.
Qed.
#[local] Hint Resolve end_headers_keeps : keeps.

Lemma send_response_keeps (L : Lib) code message :
  keeps_version (BaseHTTPRequestHandler.send_response L code message).
Proof. unfold BaseHTTPRequestHandler.send_response; keeps_version_tac. Qed.
#[local] Hint Resolve send_response_keeps : keeps.

Lemma send_error_keeps (L : Lib) code message explain :
  keeps_version (RequestHandler.send_error L code message explain).
Proof.
  unfold RequestHandler.send_error, SimpleHTTPRequestHandler.send_error,
    BaseHTTPRequestHandler.send_error; keeps_version_tac.
Qed.
#[local] Hint Resolve send_error_keeps : keeps.

Lemma list_directory_keeps (L : Lib) (W : World) p :
  keeps_version
    (SimpleHTTPRequestHandler.list_directory L W RequestHandler.end_headers p).
Proof.
  unfold SimpleHTTPRequestHandler.list_directory,
    SimpleHTTPRequestHandler.send_response, SimpleHTTPRequestHandler.send_header.
  fold (RequestHandler.send_error L); keeps_version_tac.
Qed.
#[local] Hint Resolve list_directory_keeps : keeps.

Lemma send_head_file_keeps (L : Lib) (W : World) p :
  keeps_version
    (SimpleHTTPRequestHandler.send_head_file L W RequestHandler.end_headers p).
Proof.
  unfold SimpleHTTPRequestHandler.send_head_file,
    SimpleHTTPRequestHandler.send_response, SimpleHTTPRequestHandler.send_header,
    SimpleHTTPRequestHandler.last_modified.
  fold (RequestHandler.send_error L); keeps_version_tac.
Qed.
#[local] Hint Resolve send_head_file_keeps : keeps.

Lemma send_head_keeps (L : Lib) (W : World) :
  keeps_version (RequestHandler.send_head L W).
Proof.
  unfold RequestHandler.send_head, SimpleHTTPRequestHandler.send_head,
    SimpleHTTPRequestHandler.send_response, SimpleHTTPRequestHandler.send_header.
  keeps_version_tac.
Qed.
#[local] Hint Resolve send_head_keeps : keeps.

Lemma do_GET_keeps (L : Lib) (W : World) :
  keeps_version (RequestHandler.do_GET L W).
Proof.
  unfold RequestHandler.do_GET, SimpleHTTPRequestHandler.do_GET,
    SimpleHTTPRequestHandler.copyfile.
  fold (RequestHandler.send_head L W); keeps_version_tac.
Qed.

Lemma do_HEAD_keeps (L : Lib) (W : World) :
  keeps_version (RequestHandler.do_HEAD L W).
Proof.
  unfold RequestHandler.do_HEAD, SimpleHTTPRequestHandler.do_HEAD.
  fold (RequestHandler.send_head L W); keeps_version_tac.
Qed.

(** ** The responses of [send_head] on a request that is not HTTP/0.9 *)

Section SendHead.
Variable L : Lib.
Variable W : World.


Lemma send_head_file_slash (p : string) (h : handler) :
  request_version h <> "HTTP/0.9" -> idle h ->
  endswith_char p slash = true ->
  RequestHandler.send_head_file L W p h = (Ok None, not_found L "File not found" h).
Proof.
  intros Hv Hidle Hs.
  unfold RequestHandler.send_head_file, SimpleHTTPRequestHandler.send_head_file.
  rewrite Hs. step send_error_spec. reflexivity.
Qed.

Lemma send_head_file_missing (p : string) (h : handler) :
  request_version h <> "HTTP/0.9" -> idle h ->
  py_open W p = OpenOSError ->
  RequestHandler.send_head_file L W p h = (Ok None, not_found L "File not found" h).
Proof.
  intros Hv Hidle Ho.
  unfold RequestHandler.send_head_file, SimpleHTTPRequestHandler.send_head_file.
  destruct (endswith_char p slash); rewrite ?Ho;
    step send_error_spec; reflexivity.
Qed.

Lemma send_head_file_not_modified (p : string) (f : fileobj) (h : handler) :
  request_version h <> "HTTP/0.9" -> idle h ->
  endswith_char p slash = false ->
  py_open W p = Opened f ->
  SimpleHTTPRequestHandler.not_modified L (headers h) (f_mtime_us f)
  = Some true ->
  RequestHandler.send_head_file L W p h
  = (Ok None,
     responded (status_line (protocol_version h) 304 (reason L 304 None))
       (standard_headers L h) "" h).
Proof.
  intros Hv Hidle Hs Ho Hnm.
  unfold RequestHandler.send_head_file, SimpleHTTPRequestHandler.send_head_file,
    SimpleHTTPRequestHandler.send_response.
  rewrite Hs, Ho, bind_get, Hnm.
  step send_response_run. rewrite Hidle; cbn [app].
  step end_headers_run.
  finish_response h.
Qed.

Lemma send_head_file_ok (p : string) (f : fileobj) (h : handler) :
  request_version h <> "HTTP/0.9" -> idle h ->
  endswith_char p slash = false ->
  py_open W p = Opened f ->
  SimpleHTTPRequestHandler.not_modified L (headers h) (f_mtime_us f)
  = Some false ->
  representable (f_mtime_us f) = true ->
  RequestHandler.send_head_file L W p h
  = (Ok (Some f),
     responded (status_line (protocol_version h) 200 (reason L 200 None))
       (file_headers L h p f) "" h).
Proof.
  intros Hv Hidle Hs Ho Hnm Hrep.
  unfold RequestHandler.send_head_file, SimpleHTTPRequestHandler.send_head_file,
    SimpleHTTPRequestHandler.send_response,
    SimpleHTTPRequestHandler.send_header,
    SimpleHTTPRequestHandler.last_modified, file_headers.
  rewrite Hs, Ho, bind_get, Hnm, Hrep.
  step send_response_run. rewrite Hidle; cbn [app].
  step send_header_run. step send_header_run.
  rewrite bind_ret. step send_header_run.
  step end_headers_run.
  finish_response h.
Qed.

(** The exceptions of [send_head] on a file: nothing has been written
    when they are raised. *)
Lemma send_head_file_value_error (p : string) (h : handler) :
  endswith_char p slash = false ->
  py_open W p = OpenValueError ->
  RequestHandler.send_head_file L W p h = (Raise ValueError, h).
Proof.
  intros Hs Ho.
  unfold RequestHandler.send_head_file, SimpleHTTPRequestHandler.send_head_file.
  now rewrite Hs, Ho.
Qed.

Lemma send_head_file_cache_raises (p : string) (f : fileobj) (h : handler) :
  endswith_char p slash = false ->
  py_open W p = Opened f ->
  SimpleHTTPRequestHandler.not_modified L (headers h) (f_mtime_us f) = None ->
  RequestHandler.send_head_file L W p h = (Raise ValueError, h).
Proof.
  intros Hs Ho Hnm.
  unfold RequestHandler.send_head_file, SimpleHTTPRequestHandler.send_head_file.
  now rewrite Hs, Ho, bind_get, Hnm.
Qed.

Lemma send_head_file_date_raises (p : string) (f : fileobj) (h : handler) :
  request_version h <> "HTTP/0.9" ->
  endswith_char p slash = false ->
  py_open W p = Opened f ->
  SimpleHTTPRequestHandler.not_modified L (headers h) (f_mtime_us f)
  = Some false ->
  representable (f_mtime_us f) = false ->
  exists h',
    RequestHandler.send_head_file L W p h = (Raise ValueError, h')
    /\ wfile h' = wfile h.
Proof.
  intros Hv Hs Ho Hnm Hrep.
  unfold RequestHandler.send_head_file, SimpleHTTPRequestHandler.send_head_file,
    SimpleHTTPRequestHandler.send_response,
    SimpleHTTPRequestHandler.send_header,
    SimpleHTTPRequestHandler.last_modified.
  rewrite Hs, Ho, bind_get, Hnm, Hrep.
  step send_response_run.
  step send_header_run. step send_header_run.
  eexists; split; reflexivity.
Qed.

Lemma list_directory_raises (p : string) (list : list string) (h : handler) :
  os_listdir W p = Some list ->
  listing_page L W h p list = None ->
  RequestHandler.list_directory L W p h = (Raise ValueError, h).
Proof.
  intros Hl Hpage.
  unfold RequestHandler.list_directory, SimpleHTTPRequestHandler.list_directory.
  rewrite Hl, bind_get. fold (listing_page L W h p list). now rewrite Hpage.
Qed.

Lemma list_directory_denied (p : string) (h : handler) :
  request_version h <> "HTTP/0.9" -> idle h ->
  os_listdir W p = None ->
  RequestHandler.list_directory L W p h
  = (Ok None, not_found L "No permission to list directory" h).
Proof.
  intros Hv Hidle Hl.
  unfold RequestHandler.list_directory, SimpleHTTPRequestHandler.list_directory.
  rewrite Hl. step send_error_spec. reflexivity.
Qed.

Lemma list_directory_ok (p : string) (list : list string) (page : string)
    (h : handler) :
  request_version h <> "HTTP/0.9" -> idle h ->
  os_listdir W p = Some list ->
  listing_page L W h p list = Some page ->
  RequestHandler.list_directory L W p h
  = (Ok (Some (mkFileobj None page 0)),
     responded (status_line (protocol_version h) 200 (reason L 200 None))
       (listing_headers L h page) "" h).
Proof.
  intros Hv Hidle Hl Hpage.
  unfold RequestHandler.list_directory, SimpleHTTPRequestHandler.list_directory,
    SimpleHTTPRequestHandler.send_response,
    SimpleHTTPRequestHandler.send_header, listing_headers.
  rewrite Hl, bind_get. fold (listing_page L W h p list). rewrite Hpage.
  step send_response_run. rewrite Hidle; cbn [app].
  step send_header_run. step send_header_run.
  step end_headers_run.
  finish_response h.
Qed.

End SendHead.

(** ** The files [send_head] opens *)

Lemma returns_bind {A B} (m : M handler A) (k : A -> M handler B)
    (P : B -> Prop) :
  (forall a, returns (k a) P) -> returns (bind m k) P.
Proof.
  intros Hk h b h'; unfold bind.
  destruct (m h) as [[a| |] h1]; [apply Hk | discriminate | discriminate].
Qed.

Lemma returns_ret {A} (a : A) (P : A -> Prop) :
  P a -> returns (@ret handler A a) P.
Proof. intros Ha h b h' H; inversion H; now subst. Qed.

Section OpenedFiles.
Variable L : Lib.
Variable W : World.

Lemma py_open_name (p : string) (f : fileobj) :
  py_open W p = Opened f ->
  f_name f = Some p
  /\ lookup W p = Some (File true (f_content f) (f_mtime_us f)).
Proof.
  unfold py_open.
  destruct (lookup W p) as [[r x es|[|] c m]|]; try discriminate.
  - intros H; inversion H; subst; split; reflexivity.
  - destruct (unusable_path W p); discriminate.
Qed.

(** The file [send_head_file] hands back is the one it opened at [p]. *)
Lemma send_head_file_returns (p : string) :
  returns
    (SimpleHTTPRequestHandler.send_head_file L W RequestHandler.end_headers p)
    (fun r => forall f, r = Some f -> py_open W p = Opened f).
Proof.
  unfold SimpleHTTPRequestHandler.send_head_file.
  destruct (endswith_char p slash).
  { apply returns_bind; intros _; apply returns_ret; discriminate. }
  destruct (py_open W p) as [f0| |].
  2:{ apply returns_bind; intros _; apply returns_ret; discriminate. }
  2:{ intros h a h' H; discriminate. }
  apply returns_bind; intros h0.
  destruct (SimpleHTTPRequestHandler.not_modified L _ _) as [[|]|];
    [| |intros h a h' H; discriminate];
    repeat (apply returns_bind; intros ?); apply returns_ret;
    [discriminate | congruence].
Qed.

(** The listing [list_directory] hands back is a buffer in memory. *)
Lemma list_directory_returns (p : string) :
  returns
    (SimpleHTTPRequestHandler.list_directory L W RequestHandler.end_headers p)
    (fun r => forall f, r = Some f -> f_name f = None).
Proof.
  unfold SimpleHTTPRequestHandler.list_directory.
  destruct (os_listdir W p) as [list|].
  - apply returns_bind; intros h0.
    destruct (render_listing L _ _); [|intros h a h' H; discriminate].
    repeat (apply returns_bind; intros ?); apply returns_ret.
    intros f Hf; inversion Hf; reflexivity.
  - apply returns_bind; intros _; apply returns_ret; discriminate.
Qed.

Lemma simple_index_html : simple_name "index.html".
Proof. repeat split; discriminate. Qed.

Lemma simple_index_htm : simple_name "index.htm".
Proof. repeat split; discriminate. Qed.

(** A file [send_head] hands back was opened at a path under the
    directory of the handler. *)
Lemma send_head_opens_under (h h' : handler) (f : fileobj) (fp : string) :
  RequestHandler.send_head L W h = (Ok (Some f), h') ->
  f_name f = Some fp ->
  under (directory h) fp /\ py_open W fp = Opened f.
Proof.
  unfold RequestHandler.send_head, SimpleHTTPRequestHandler.send_head.
  rewrite bind_get; cbv zeta.
  pose proof (translate_path_under L (directory h) (path h)) as Hu.
  set (p := SimpleHTTPRequestHandler.translate_path L (directory h) (path h))
    in *.
  assert (Hfile : forall q, under (directory h) q ->
    SimpleHTTPRequestHandler.send_head_file L W RequestHandler.end_headers q h
    = (Ok (Some f), h') ->
    f_name f = Some fp ->
    under (directory h) fp /\ py_open W fp = Opened f).
  { intros q Hq Hrun Hname.
    pose proof (send_head_file_returns q h _ h' Hrun f eq_refl) as Ho.
    destruct (py_open_name q f Ho) as [Hn _].
    assert (q = fp) by congruence; subst q; now split. }
  destruct (os_path_isdir W p); [|now apply Hfile].
  destruct (urlsplit_path L (path h)) as [parts_path|]; [|discriminate].
  destruct (negb _).
  { intros Hrun _.
    assert (Hret : returns
      (SimpleHTTPRequestHandler.send_response L 301 None;;
       SimpleHTTPRequestHandler.send_header "Location"
         (redirect_url L (path h));;
       SimpleHTTPRequestHandler.send_header "Content-Length" "0";;
       RequestHandler.end_headers;; ret None)
      (fun r : option fileobj => r = None)).
    { repeat (apply returns_bind; intros ?); now apply returns_ret. }
    specialize (Hret _ _ _ Hrun); discriminate. }
  destruct (os_path_isfile W _).
  { apply Hfile, under_join; [assumption | apply simple_index_html]. }
  destruct (os_path_isfile W _).
  { apply Hfile, under_join; [assumption | apply simple_index_htm]. }
  intros Hrun Hname.
  pose proof (list_directory_returns p h _ h' Hrun f eq_refl); congruence.
Qed.

End OpenedFiles.

(** ** The request path of a file under the serving directory *)





Lemma concat_cons_cons (sep x y : string) (l : list string) :
  String.concat sep (x :: y :: l) = x ++ sep ++ String.concat sep (y :: l).
Proof. reflexivity. Qed.




Lemma endswith_char_plain (c : ascii) (n : string) :
  contains_char c n = false -> endswith_char n c = false.
Proof.
  induction n as [|a n IH]; simpl; [reflexivity|].
  intros H; apply orb_false_iff in H as [Ha Hn].
  destruct n; [assumption | now apply IH].
Qed.

(** [s.split('/')] gives back the names joined with slashes. *)
Lemma split_on_concat (names : list string) :
  names <> [] ->
  Forall (fun n => contains_char slash n = false) names ->
  split_on slash (String.concat "/" names) = names.
Proof.
  induction names as [|n [|n' l] IH]; intros Hne Hall.
  - now destruct Hne.
  - inversion Hall; subst; now apply split_on_plain.
  - inversion Hall as [|? ? Hn Hrest]; subst.
    rewrite concat_cons_cons.
    change ("/" ++ String.concat "/" (n' :: l))
      with (String slash (String.concat "/" (n' :: l))).
    rewrite split_on_app_sep, (split_on_plain slash n Hn), IH;
      [reflexivity | discriminate | assumption].
Qed.

(** The request path ends with its last name. *)
Lemma endswith_concat (names : list string) :
  names <> [] ->
  Forall (fun n => n <> "" /\ contains_char slash n = false) names ->
  endswith_char (String.concat "/" names) slash = false.
Proof.
  induction names as [|n [|n' l] IH]; intros Hne Hall.
  - now destruct Hne.
  - inversion Hall as [|? ? [_ Hn] _]; subst; now apply endswith_char_plain.
  - inversion Hall as [|? ? _ Hrest]; subst.
    rewrite concat_cons_cons, <- append_assoc.
    assert (Hnz : String.concat "/" (n' :: l) <> "").
    { inversion Hrest as [|? ? [Hn' _] _]; subst.
      destruct l; simpl; destruct n'; try discriminate; now destruct Hn'. }
    rewrite endswith_char_app by assumption.
    apply IH; [discriminate | assumption].
Qed.

Lemma normpath_loop_plain (k : nat) (names : list string) :
  Forall simple_name names ->
  forall acc,
    fold_left (posixpath.normpath_step k) names acc = app acc names.
Proof.
  induction 1 as [|n l (Hne & Hdot & Hdd & Hs) Hall IH]; intros acc; simpl.
  - now rewrite app_nil_r.
  - unfold posixpath.normpath_step at 2.
    apply String.eqb_neq in Hne, Hdot, Hdd.
    rewrite Hne, Hdot, Hdd; cbn [orb negb].
    rewrite IH, <- app_assoc; reflexivity.
Qed.



Lemma initial_slashes_one (s : string) :
  startswith s "/" = false ->
  (if startswith (String slash s) "/" then
     if startswith (String slash s) "//"
        && negb (startswith (String slash s) "///")
     then 2%nat else 1%nat
   else 0%nat) = 1%nat.
Proof.
  intros H; destruct s as [|a s]; [reflexivity|].
  cbn [startswith] in *. rewrite Ascii.eqb_refl, H. reflexivity.
Qed.

(** [normpath] leaves the request path of simple names as it is. *)
Lemma normpath_url (names : list string) :
  names <> [] -> Forall simple_name names ->
  posixpath.normpath (url_of names) = url_of names.
Proof.
  intros Hne Hall; unfold posixpath.normpath, url_of.
  assert (Hslash : Forall (fun n => contains_char slash n = false) names).
  { eapply Forall_impl; [|exact Hall]. intros n Hn; apply Hn. }
  assert (H2 : startswith (String.concat "/" names) "/" = false).
  { destruct names as [|n l]; [now destruct Hne|].
    inversion Hall as [|? ? Hn _]; subst.
    pose proof (simple_name_not_abs n Hn) as Habs.
    destruct l; [exact Habs|].
    rewrite concat_cons_cons.
    destruct n as [|a n]; [now destruct Hn|].
    cbn [startswith append] in *; exact Habs. }
  change ("/" ++ String.concat "/" names)
    with (String slash (String.concat "/" names)).
  cbn [isempty]. rewrite (initial_slashes_one _ H2).
  cbn [split_on]. rewrite Ascii.eqb_refl.
  rewrite (split_on_concat names Hne Hslash).
  cbn [fold_left].
  change (posixpath.normpath_step 1 [] "") with (@nil string).
  rewrite (normpath_loop_plain 1 names Hall); cbn [app].
  reflexivity.
Qed.


(** A path that ends with a name does not end with a slash. *)
Lemma join_all_no_slash (d : string) (names : list string) :
  names <> [] -> Forall simple_name names ->
  endswith_char (join_all d names) slash = false.
Proof.
  intros Hne Hall; unfold join_all.
  destruct (exists_last Hne) as (l & n & ->).
  rewrite fold_left_app; cbn [fold_left].
  apply Forall_app in Hall as [_ Hn]; inversion Hn as [|? ? Hs _]; subst.
  pose proof (simple_name_not_abs n Hs) as Habs.
  destruct Hs as (Hnz & _ & _ & Hs).
  unfold posixpath.join; rewrite Habs.
  destruct (_ || _).
  - rewrite endswith_char_app by assumption. now apply endswith_char_plain.
  - rewrite endswith_char_app.
    + rewrite endswith_char_app by assumption. now apply endswith_char_plain.
    + destruct n; [now destruct Hnz | discriminate].
Qed.

(** ** [send_head] on directories, [do_GET] and [do_HEAD] *)

Section Directories.
Variable L : Lib.
Variable W : World.

Lemma index_no_slash (p name : string) :
  simple_name name -> endswith_char (posixpath.join p name) slash = false.
Proof.
  intros Hn; apply (join_all_no_slash p [name]); [discriminate|].
  now constructor.
Qed.

(** [send_head] on a path that names no directory. *)
Lemma send_head_not_dir (h : handler) :
  os_path_isdir W
    (SimpleHTTPRequestHandler.translate_path L (directory h) (path h))
  = false ->
  RequestHandler.send_head L W h
  = RequestHandler.send_head_file L W
      (SimpleHTTPRequestHandler.translate_path L (directory h) (path h)) h.
Proof.
  intros Hd.
  unfold RequestHandler.send_head, SimpleHTTPRequestHandler.send_head.
  rewrite bind_get; cbv zeta. now rewrite Hd.
Qed.

(** [send_head] on a directory when [urlsplit] raises. *)
Lemma send_head_urlsplit_raises (h : handler) :
  os_path_isdir W
    (SimpleHTTPRequestHandler.translate_path L (directory h) (path h))
  = true ->
  urlsplit_path L (path h) = None ->
  RequestHandler.send_head L W h = (Raise ValueError, h).
Proof.
  intros Hd Hu.
  unfold RequestHandler.send_head, SimpleHTTPRequestHandler.send_head.
  rewrite bind_get; cbv zeta. now rewrite Hd, Hu.
Qed.

(** [send_head] on a directory whose request path lacks the final
    slash. *)
Lemma send_head_redirect (h : handler) (parts_path : string) :
  request_version h <> "HTTP/0.9" -> idle h ->
  os_path_isdir W
    (SimpleHTTPRequestHandler.translate_path L (directory h) (path h))
  = true ->
  urlsplit_path L (path h) = Some parts_path ->
  endswith_char parts_path slash = false ->
  RequestHandler.send_head L W h
  = (Ok None,
     responded (status_line (protocol_version h) 301 (reason L 301 None))
       (redirect_headers L h) "" h).
Proof.
  intros Hv Hidle Hd Hu Hs.
  unfold RequestHandler.send_head, SimpleHTTPRequestHandler.send_head.
  rewrite bind_get; cbv zeta. rewrite Hd, Hu, Hs; cbn [negb].
  unfold SimpleHTTPRequestHandler.send_response,
    SimpleHTTPRequestHandler.send_header, redirect_headers.
  step send_response_run. rewrite Hidle; cbn [app].
  step send_header_run. step send_header_run.
  step end_headers_run.
  finish_response h.
Qed.

(** [send_head] on a directory asked for with its final slash: the
    index file when there is one, the listing otherwise. *)
Lemma send_head_directory (h : handler) (parts_path : string) :
  os_path_isdir W
    (SimpleHTTPRequestHandler.translate_path L (directory h) (path h))
  = true ->
  urlsplit_path L (path h) = Some parts_path ->
  endswith_char parts_path slash = true ->
  let p := SimpleHTTPRequestHandler.translate_path L (directory h) (path h) in
  RequestHandler.send_head L W h
  = if os_path_isfile W (posixpath.join p "index.html") then
      RequestHandler.send_head_file L W (posixpath.join p "index.html") h
    else if os_path_isfile W (posixpath.join p "index.htm") then
      RequestHandler.send_head_file L W (posixpath.join p "index.htm") h
    else RequestHandler.list_directory L W p h.
Proof.
  intros Hd Hu Hs p.
  unfold RequestHandler.send_head, SimpleHTTPRequestHandler.send_head.
  rewrite bind_get; cbv zeta. rewrite Hd, Hu, Hs; cbn [negb].
  subst p; do 2 (destruct (os_path_isfile W _); [reflexivity|]).
  reflexivity.
Qed.

Lemma do_GET_of_send_head (h h1 : handler) (r : option fileobj) :
  RequestHandler.send_head L W h = (Ok r, h1) ->
  RequestHandler.do_GET L W h
  = (Ok tt,
     match r with
     | Some f => set_wfile (wfile h1 ++ f_content f) h1
     | None => h1
     end).
Proof.
  intros Hr.
  unfold RequestHandler.do_GET, SimpleHTTPRequestHandler.do_GET.
  fold (RequestHandler.send_head L W).
  rewrite (bind_run _ _ _ _ _ Hr).
  destruct r; reflexivity.
Qed.

Lemma do_HEAD_of_send_head (h h1 : handler) (r : option fileobj) :
  RequestHandler.send_head L W h = (Ok r, h1) ->
  RequestHandler.do_HEAD L W h = (Ok tt, h1).
Proof.
  intros Hr.
  unfold RequestHandler.do_HEAD, SimpleHTTPRequestHandler.do_HEAD.
  fold (RequestHandler.send_head L W).
  now rewrite (bind_run _ _ _ _ _ Hr).
Qed.

(** An exception of [send_head] leaves [do_GET] and [do_HEAD] as it
    is. *)
Lemma do_GET_of_send_head_raise (h h1 : handler) (e : exn) :
  RequestHandler.send_head L W h = (Raise e, h1) ->
  RequestHandler.do_GET L W h = (Raise e, h1)
  /\ RequestHandler.do_HEAD L W h = (Raise e, h1).
Proof.
  intros Hr.
  unfold RequestHandler.do_GET, SimpleHTTPRequestHandler.do_GET,
    RequestHandler.do_HEAD, SimpleHTTPRequestHandler.do_HEAD.
  fold (RequestHandler.send_head L W).
  unfold bind; now rewrite Hr.
Qed.

Lemma responded_body status kvs body (h : handler) :
  set_wfile (wfile (responded status kvs "" h) ++ body)
    (responded status kvs "" h)
  = responded status kvs body h.
Proof.
  unfold responded; destruct h; hsimp.
  now rewrite append_nil_r, !append_assoc.
Qed.

End Directories.

(** ** Every request is answered with one response, or with none *)

Section Replied.
Variable L : Lib.
Variable W : World.

Lemma one_response_here (h h' : handler) (out : string) :
  framed L W h out -> wfile h' = wfile h ++ out -> one_response L W h h'.
Proof. intros Hf Hw; exists h, out; auto. Qed.

(** The request has been read into the handler in between. *)
Lemma replied_from {A} (h0 h : handler) (rh : result A * handler) :
  wfile h = wfile h0 -> time_now h = time_now h0 ->
  protocol_version h = protocol_version h0 ->
  replied L W h rh -> replied L W h0 rh.
Proof.
  intros Hw Ht Hp; unfold replied.
  destruct (fst rh) as [a|e|]; [|congruence|trivial].
  intros (hx & out & Htx & Hpx & Hf & Hout).
  exists hx, out; repeat split; congruence.
Qed.

(** The headers the handler sends before the isolation headers are
    named otherwise. *)
Lemma framed_headers (h : handler) (out : string) :
  framed L W h out ->
  exists status kvs body,
    out = header_block status kvs ++ body
    /\ forallb base_header kvs = true.
Proof.
  intros [code message explain _|p f body _ _ _| | |p list page body _ _ _];
    do 3 eexists; (split; [reflexivity|]);
    try reflexivity.
  unfold error_headers.
  destruct (BaseHTTPRequestHandler.error_has_body code); reflexivity.
Qed.

Lemma not_found_framed (message : string) (h : handler) :
  refusal L 404 (Some message) None ->
  exists out,
    framed L W h out /\ wfile (not_found L message h) = wfile h ++ out.
Proof.
  intros Hr.
  eexists; split; [now apply (framed_error L W h 404 (Some message) None)|].
  reflexivity.
Qed.

Lemma send_error_replied code message explain (h : handler) :
  refusal L code message explain ->
  request_version h <> "HTTP/0.9" -> idle h ->
  replied L W h (RequestHandler.send_error L code message explain h).
Proof.
  intros Hr Hv Hidle; rewrite send_error_spec by assumption.
  unfold replied; cbn [fst snd].
  eapply one_response_here;
    [now apply (framed_error L W h code message explain)|].
  reflexivity.
Qed.

Lemma responded_wfile status kvs body (h : handler) :
  wfile (responded status kvs body h)
  = wfile h ++ header_block status kvs ++ body.
Proof. reflexivity. Qed.

Lemma send_head_file_sent (p : string) (h : handler) :
  request_version h <> "HTTP/0.9" -> idle h ->
  head_sent L W h (RequestHandler.send_head_file L W p h).
Proof.
  intros Hv Hidle; unfold head_sent.
  destruct (endswith_char p slash) eqn:Hs.
  { rewrite send_head_file_slash by assumption; cbn [fst snd].
    apply not_found_framed; constructor. }
  destruct (py_open W p) as [f| |] eqn:Ho.
  2:{ rewrite send_head_file_missing by assumption; cbn [fst snd].
      apply not_found_framed; constructor. }
  2:{ now rewrite send_head_file_value_error. }
  destruct (SimpleHTTPRequestHandler.not_modified L (headers h) (f_mtime_us f))
    as [[|]|] eqn:Hnm.
  - rewrite (send_head_file_not_modified L W p f) by assumption.
    cbn [fst snd]; eexists; split; [apply framed_not_modified|].
    reflexivity.
  - destruct (representable (f_mtime_us f)) eqn:Hrep.
    + rewrite (send_head_file_ok L W p f) by assumption; cbn [fst snd].
      eexists; split; [|split]; [| |apply responded_wfile].
      * apply (framed_file L W h p f ""); auto.
      * rewrite append_assoc; cbn [append].
        apply (framed_file L W h p f (f_content f)); auto.
    + destruct (send_head_file_date_raises L W p f h Hv Hs Ho Hnm Hrep)
        as (h' & -> & Hw); exact Hw.
  - now rewrite (send_head_file_cache_raises L W p f).
Qed.

Lemma list_directory_sent (p : string) (h : handler) :
  request_version h <> "HTTP/0.9" -> idle h ->
  head_sent L W h (RequestHandler.list_directory L W p h).
Proof.
  intros Hv Hidle; unfold head_sent.
  destruct (os_listdir W p) as [list|] eqn:Hl.
  - destruct (listing_page L W h p list) as [page|] eqn:Hpage.
    + rewrite (list_directory_ok L W p list page) by assumption.
      cbn [fst snd f_content]; eexists; split; [|split];
        [| |apply responded_wfile].
      * apply (framed_listing L W h p list page ""); auto.
      * rewrite append_assoc; cbn [append].
        apply (framed_listing L W h p list page page); auto.
    + now rewrite (list_directory_raises L W p list).
  - rewrite list_directory_denied by assumption; cbn [fst snd].
    apply not_found_framed; constructor.
Qed.

Lemma send_head_sent (h : handler) :
  request_version h <> "HTTP/0.9" -> idle h ->
  head_sent L W h (RequestHandler.send_head L W h).
Proof.
  intros Hv Hidle.
  destruct (os_path_isdir W
              (SimpleHTTPRequestHandler.translate_path L (directory h)
                 (path h))) eqn:Hd.
  2:{ rewrite send_head_not_dir by assumption.
      now apply send_head_file_sent. }
  destruct (urlsplit_path L (path h)) as [parts_path|] eqn:Hu.
  2:{ now rewrite send_head_urlsplit_raises. }
  destruct (endswith_char parts_path slash) eqn:Hs.
  - rewrite (send_head_directory L W h parts_path Hd Hu Hs); cbv zeta.
    destruct (os_path_isfile W _); [now apply send_head_file_sent|].
    destruct (os_path_isfile W _); [now apply send_head_file_sent|].
    now apply list_directory_sent.
  - rewrite (send_head_redirect L W h parts_path) by assumption.
    unfold head_sent; cbn [fst snd].
    eexists; split; [apply framed_redirect | apply responded_wfile].
Qed.

(** [do_GET] and [do_HEAD] send one response, or raise with nothing
    sent. *)
Lemma do_GET_replied (h : handler) :
  request_version h <> "HTTP/0.9" -> idle h ->
  replied L W h (RequestHandler.do_GET L W h).
Proof.
  intros Hv Hidle.
  pose proof (send_head_sent h Hv Hidle) as Hs; unfold head_sent in Hs.
  destruct (RequestHandler.send_head L W h) as [[[f|]|e|] h1] eqn:Hr;
    cbn [fst snd] in Hs.
  - rewrite (do_GET_of_send_head L W h h1 _ Hr); unfold replied; cbn [fst snd].
    destruct Hs as (out & _ & Hf & Hw).
    eapply one_response_here; [exact Hf|].
    cbn [wfile set_wfile]. now rewrite Hw, append_assoc.
  - rewrite (do_GET_of_send_head L W h h1 _ Hr); unfold replied; cbn [fst snd].
    destruct Hs as (out & Hf & Hw). now apply (one_response_here h h1 out).
  - now rewrite (proj1 (do_GET_of_send_head_raise L W h h1 e Hr)).
  - destruct Hs.
Qed.

Lemma do_HEAD_replied (h : handler) :
  request_version h <> "HTTP/0.9" -> idle h ->
  replied L W h (RequestHandler.do_HEAD L W h).
Proof.
  intros Hv Hidle.
  pose proof (send_head_sent h Hv Hidle) as Hs; unfold head_sent in Hs.
  destruct (RequestHandler.send_head L W h) as [[[f|]|e|] h1] eqn:Hr;
    cbn [fst snd] in Hs.
  - rewrite (do_HEAD_of_send_head L W h h1 _ Hr); unfold replied; cbn [fst snd].
    destruct Hs as (out & Hf & _ & Hw). now apply (one_response_here h h1 out).
  - rewrite (do_HEAD_of_send_head L W h h1 _ Hr); unfold replied; cbn [fst snd].
    destruct Hs as (out & Hf & Hw). now apply (one_response_here h h1 out).
  - now rewrite (proj2 (do_GET_of_send_head_raise L W h h1 e Hr)).
  - destruct Hs.
Qed.

End Replied.

Lemma proto_10 : BaseHTTPRequestHandler.str_geb "HTTP/1.0" "HTTP/1.1" = false.
Proof. reflexivity. Qed.

(** ** One request on each connection *)

Lemma preserves_bind {A B} (I : handler -> Prop) (m : M handler A)
    (k : A -> M handler B) :
  preserves I m -> (forall a, preserves I (k a)) -> preserves I (bind m k).
Proof.
  intros Hm Hk h Hh; unfold bind.
  specialize (Hm h Hh); destruct (m h) as [[a| |] h1]; cbn [snd] in *;
    [now apply Hk | assumption | assumption].
Qed.

Lemma preserves_ret {A} (I : handler -> Prop) (a : A) : preserves I (ret a).
Proof. intros h Hh; exact Hh. Qed.

Lemma preserves_get (I : handler -> Prop) : preserves I get.
Proof. intros h Hh; exact Hh. Qed.

Lemma preserves_modify (I : handler -> Prop) (f : handler -> handler) :
  (forall h, I h -> I (f h)) -> preserves I (modify f).
Proof. intros Hf h Hh; now apply Hf. Qed.

Lemma preserves_when (I : handler -> Prop) (c : bool) (m : M handler unit) :
  preserves I m -> preserves I (when c m).
Proof. destruct c; [trivial | intros _; apply preserves_ret]. Qed.

Lemma preserves_try_finally {A} (I : handler -> Prop) (m : M handler A)
    (fin : M handler unit) :
  preserves I m -> preserves I fin -> preserves I (try_finally m fin).
Proof.
  intros Hm Hf h Hh; unfold try_finally.
  specialize (Hm h Hh); destruct (m h) as [[a| |] h1]; cbn [snd] in *;
    try assumption;
    specialize (Hf h1 Hm); destruct (fin h1) as [[[]| |] h2]; cbn [snd] in *;
    assumption.
Qed.

(** [send_header] leaves the connection to be closed unless it is given
    Connection: keep-alive. *)
Lemma send_header_closing (keyword value : string) :
  String.eqb (lower keyword) "connection"
  && String.eqb (lower value) "keep-alive" = false ->
  preserves closing (BaseHTTPRequestHandler.send_header keyword value).
Proof.
  intros Hkv h [Hc Hp].
  unfold BaseHTTPRequestHandler.send_header, bind, get, when, modify, ret.
  destruct (negb _); cbn [fst snd];
    destruct (String.eqb (lower keyword) "connection"); cbn [andb] in Hkv;
    try (destruct (String.eqb (lower value) "close"));
    rewrite ?Hkv; cbn [snd]; split; cbn; assumption || reflexivity.
Qed.

Create HintDb closing.

(** The rules above, applied as far as the shape of the method goes. *)
Ltac closing_tac :=
  repeat first
    [ solve [auto with closing]
    | apply send_header_closing; reflexivity
    | apply preserves_ret
    | apply preserves_get
    | apply preserves_modify; intros ? [? ?]; split; assumption
    | apply preserves_when
    | apply preserves_try_finally
    | apply preserves_bind; [|intros]
    | match goal with
      | |- preserves _ (if ?c then _ else _) => destruct c
      | |- preserves _ (match ?o with Some _ => _ | None => _ end) =>
          destruct o
      | |- preserves _ (let (_, _) := ?p in _) => destruct p
      | |- preserves _ (match ?o with _ => _ end) => destruct o
      end ].

Lemma send_response_closing (L : Lib) code message :
  preserves closing (BaseHTTPRequestHandler.send_response L code message).
Proof.
  unfold BaseHTTPRequestHandler.send_response,
    BaseHTTPRequestHandler.send_response_only; closing_tac.
Qed.
#[local] Hint Resolve send_response_closing : closing.

Lemma end_headers_closing : preserves closing RequestHandler.end_headers.
Proof.
  unfold RequestHandler.end_headers, SimpleHTTPRequestHandler.send_header,
    SimpleHTTPRequestHandler.end_headers, BaseHTTPRequestHandler.end_headers,
    BaseHTTPRequestHandler.flush_headers, wfile_write, raise.
  closing_tac.
Qed.
#[local] Hint Resolve end_headers_closing : closing.

Lemma send_error_closing (L : Lib) code message explain :
  preserves closing (RequestHandler.send_error L code message explain).
Proof.
  unfold RequestHandler.send_error, SimpleHTTPRequestHandler.send_error,
    BaseHTTPRequestHandler.send_error, wfile_write; closing_tac.
Qed.
#[local] Hint Resolve send_error_closing : closing.

Lemma send_head_closing (L : Lib) (W : World) :
  preserves closing (RequestHandler.send_head L W).
Proof.
  unfold RequestHandler.send_head, SimpleHTTPRequestHandler.send_head,
    SimpleHTTPRequestHandler.send_head_file,
    SimpleHTTPRequestHandler.list_directory,
    SimpleHTTPRequestHandler.send_response, SimpleHTTPRequestHandler.send_header,
    SimpleHTTPRequestHandler.last_modified.
  fold (RequestHandler.send_error L); closing_tac.
Qed.
#[local] Hint Resolve send_head_closing : closing.

Lemma do_GET_closing (L : Lib) (W : World) :
  preserves closing (RequestHandler.do_GET L W).
Proof.
  unfold RequestHandler.do_GET, SimpleHTTPRequestHandler.do_GET,
    SimpleHTTPRequestHandler.copyfile, wfile_write.
  fold (RequestHandler.send_head L W); closing_tac.
Qed.

Lemma do_HEAD_closing (L : Lib) (W : World) :
  preserves closing (RequestHandler.do_HEAD L W).
Proof.
  unfold RequestHandler.do_HEAD, SimpleHTTPRequestHandler.do_HEAD.
  fold (RequestHandler.send_head L W); closing_tac.
Qed.

Section OneRequest.
Variable L : Lib.
Variable W : World.

Lemma parse_request_headers_closing (req : request) (h : handler) :
  closing h ->
  closing
    (snd (BaseHTTPRequestHandler.parse_request_headers L
            RequestHandler.end_headers req h)).
Proof.
  intros Hh.
  unfold BaseHTTPRequestHandler.parse_request_headers.
  destruct (parsed_headers req) as [hs|err|err];
    try (apply preserves_bind;
         [apply send_error_closing | intros; apply preserves_ret | exact Hh]).
  destruct Hh as [Hc Hp].
  rewrite bind_modify, bind_get; hsimp.
  rewrite Hp, proto_10, !andb_false_r; cbn [andb].
  destruct (String.eqb _ "close"); unfold bind, modify, ret;
    cbn [fst snd]; split; hsimp; assumption || reflexivity.
Qed.

Lemma parse_request_words_closing (req : request) requestline words
    (h : handler) :
  closing h ->
  closing
    (snd (BaseHTTPRequestHandler.parse_request_words L
            RequestHandler.end_headers req requestline words h)).
Proof.
  intros Hh.
  unfold BaseHTTPRequestHandler.parse_request_words.
  destruct (negb _).
  { apply preserves_bind;
      [apply send_error_closing | intros; apply preserves_ret | exact Hh]. }
  assert (Hrest : forall h1, closing h1 ->
    closing
      (snd ((modify (set_command (Some (nth 0 words "")));;
             modify (set_path (nth 1 words ""));;
             when (startswith (nth 1 words "") "//")
               (modify
                  (set_path
                     ("/" ++ lstrip (fun a => Ascii.eqb a slash)
                               (nth 1 words ""))));;
             BaseHTTPRequestHandler.parse_request_headers L
               RequestHandler.end_headers req) h1))).
  { intros h1 [Hc1 Hp1]. rewrite !bind_modify.
    destruct (startswith _ "//"); unfold when;
      rewrite ?bind_modify, ?bind_ret;
      apply parse_request_headers_closing; split; assumption. }
  destruct (length words =? 2)%nat.
  - rewrite bind_assoc, bind_modify.
    assert (Hh1 : closing (set_close_connection true h))
      by (destruct Hh; split; [reflexivity | assumption]).
    destruct (negb (String.eqb _ "GET")).
    + rewrite bind_assoc.
      apply preserves_bind;
        [apply send_error_closing | intros; apply preserves_ret | exact Hh1].
    + rewrite bind_ret. now apply Hrest.
  - rewrite bind_ret. now apply Hrest.
Qed.

Lemma parse_request_closing (req : request) (h : handler) :
  protocol_version h = "HTTP/1.0" ->
  closing
    (snd (BaseHTTPRequestHandler.parse_request L RequestHandler.end_headers
            req h)).
Proof.
  intros Hp.
  unfold BaseHTTPRequestHandler.parse_request.
  rewrite !bind_modify.
  set (h1 := set_close_connection true _).
  assert (Hh1 : closing h1) by (split; [reflexivity | exact Hp]).
  destruct (length _ =? 0)%nat; [exact Hh1|].
  destruct (3 <=? _)%nat; [|now apply parse_request_words_closing].
  destruct (BaseHTTPRequestHandler.version_number L _) as [[bvn vn]|].
  2:{ apply preserves_bind;
        [apply send_error_closing | intros; apply preserves_ret | exact Hh1]. }
  rewrite bind_get. change (protocol_version h1) with (protocol_version h).
  rewrite Hp, proto_10, andb_false_r.
  unfold when; rewrite bind_ret.
  destruct (BaseHTTPRequestHandler.pair_geb vn 2 0).
  { apply preserves_bind;
      [apply send_error_closing | intros; apply preserves_ret | exact Hh1]. }
  rewrite bind_modify.
  apply parse_request_words_closing.
  destruct Hh1; split; assumption.
Qed.

(** On a server that speaks HTTP/1.0 every request leaves the connection
    to be closed. *)
Lemma handle_one_request_closing (req : request) (h : handler) :
  closing h ->
  closing (snd (RequestHandler.handle_one_request L W req h)).
Proof.
  intros Hh.
  unfold RequestHandler.handle_one_request,
    SimpleHTTPRequestHandler.handle_one_request,
    BaseHTTPRequestHandler.handle_one_request.
  destruct (65536 <? _)%Z.
  { rewrite !bind_modify. apply send_error_closing.
    destruct Hh; split; assumption. }
  destruct (isempty _).
  { destruct Hh; split; [reflexivity | assumption]. }
  pose proof (parse_request_closing req h (proj2 Hh)) as Hparse.
  unfold bind at 1.
  destruct (BaseHTTPRequestHandler.parse_request L _ req h)
    as [[[|]| |] h1]; cbn [fst snd negb] in *; try exact Hparse.
  rewrite bind_get.
  unfold SimpleHTTPRequestHandler.self_do.
  destruct (String.eqb _ "GET"); [now apply do_GET_closing|].
  destruct (String.eqb _ "HEAD"); [now apply do_HEAD_closing|].
  now apply send_error_closing.
Qed.

(** [handle] on a connection that carries a request: the first request
    is handled and the loop ends. *)
Lemma handle_first_request (r : request) (rest : list request)
    (h : handler) :
  protocol_version h = "HTTP/1.0" ->
  RequestHandler.handle L W (r :: rest) h
  = (fst (RequestHandler.handle_one_request L W r
            (set_close_connection true h)),
     snd (RequestHandler.handle_one_request L W r
            (set_close_connection true h))).
Proof.
  intros Hp.
  unfold RequestHandler.handle, SimpleHTTPRequestHandler.handle,
    BaseHTTPRequestHandler.handle.
  rewrite !bind_modify.
  cbn [BaseHTTPRequestHandler.handle_loop].
  fold (SimpleHTTPRequestHandler.handle_one_request L W
          RequestHandler.end_headers).
  fold (RequestHandler.handle_one_request L W).
  assert (Hh : closing (set_close_connection true h))
    by (split; [reflexivity | exact Hp]).
  pose proof (handle_one_request_closing r _ Hh) as [Hc _].
  unfold bind at 1.
  destruct (RequestHandler.handle_one_request L W r
              (set_close_connection true h)) as [[[]| |] h1];
    cbn [fst snd] in *; [|reflexivity|reflexivity].
  rewrite bind_get, Hc. reflexivity.
Qed.

End OneRequest.

(** ** From the request line to the method *)

Lemma lstrip_slashes_head (s : string) :
  startswith (lstrip (fun a => Ascii.eqb a slash) s) "/" = false.
Proof.
  induction s as [|a s IH]; [reflexivity|]; cbn [lstrip].
  destruct (Ascii.eqb a slash) eqn:E; [exact IH|].
  cbn [startswith]; fold slash; now rewrite E.
Qed.

Lemma startswith_cons (a b : ascii) (s pre : string) :
  startswith (String a s) (String b pre) = Ascii.eqb a b && startswith s pre.
Proof. reflexivity. Qed.

Lemma collapse_slashes_single (p : string) :
  startswith (collapse_slashes p) "//" = false.
Proof.
  unfold collapse_slashes.
  destruct (startswith p "//") eqn:E; [|exact E].
  change ("/" ++ lstrip (fun a => Ascii.eqb a slash) p)
    with (String slash (lstrip (fun a => Ascii.eqb a slash) p)).
  change "//" with (String slash "/"); rewrite startswith_cons.
  now rewrite lstrip_slashes_head, andb_false_r.
Qed.

(** A method that ends with [return False] does not return True. *)
Lemma bind_never_true {A} (m : M handler A) (k : A -> M handler bool)
    (h h' : handler) :
  (forall a s, fst (k a s) <> Ok true) -> bind m k h <> (Ok true, h').
Proof.
  intros Hk; unfold bind.
  destruct (m h) as [[a| |] h1]; try discriminate.
  intros H; apply (Hk a h1); now rewrite H.
Qed.

Section RequestLine.
Variable L : Lib.
Variable W : World.

(** The request line of three words, the version below 2.0, and the
    header fields are accepted. *)
Lemma parse_request_accepts (req : request) (h : handler)
    (cmd p v bvn : string) (vn : Z * Z) (hs : list (string * string)) :
  protocol_version h = "HTTP/1.0" ->
  py_split (rstrip is_crlf (raw_requestline req)) = [cmd; p; v] ->
  BaseHTTPRequestHandler.version_number L v = Some (bvn, vn) ->
  BaseHTTPRequestHandler.pair_geb vn 2 0 = false ->
  parsed_headers req = HeadersOk hs ->
  BaseHTTPRequestHandler.parse_request L RequestHandler.end_headers req h
  = (Ok true, parsed_request h cmd p v hs).
Proof.
  intros Hp Hw Hver Hvn Hhs.
  unfold BaseHTTPRequestHandler.parse_request.
  rewrite !bind_modify, Hw; cbn [length Nat.eqb Nat.leb last].
  rewrite Hver, bind_get; hsimp.
  rewrite Hp, proto_10, andb_false_r.
  unfold when at 1; rewrite bind_ret, Hvn, bind_modify.
  unfold BaseHTTPRequestHandler.parse_request_words.
  cbn [length Nat.eqb Nat.leb negb andb nth].
  rewrite bind_ret, !bind_modify.
  unfold BaseHTTPRequestHandler.parse_request_headers; rewrite Hhs.
  unfold parsed_request, collapse_slashes.
  destruct (startswith p "//"); unfold when;
    rewrite ?bind_modify, ?bind_ret, ?bind_modify, bind_get; hsimp;
    rewrite Hp, proto_10, !andb_false_r; cbn [andb];
    destruct (String.eqb _ "close"); unfold bind, modify, ret;
    destruct h; cbn [protocol_version] in Hp; subst; reflexivity.
Qed.

(** What [handle_one_request] does with an accepted request line:
    the method of the command, on the handler [parse_request] leaves. *)
Lemma handle_one_request_accepted (req : request) (h : handler)
    (cmd p v bvn : string) (vn : Z * Z) (hs : list (string * string)) :
  protocol_version h = "HTTP/1.0" ->
  (Z.of_nat (String.length (raw_requestline req)) <= 65536)%Z ->
  py_split (rstrip is_crlf (raw_requestline req)) = [cmd; p; v] ->
  BaseHTTPRequestHandler.version_number L v = Some (bvn, vn) ->
  BaseHTTPRequestHandler.pair_geb vn 2 0 = false ->
  parsed_headers req = HeadersOk hs ->
  RequestHandler.handle_one_request L W req h
  = match SimpleHTTPRequestHandler.self_do L W RequestHandler.end_headers cmd
    with
    | Some method => method (parsed_request h cmd p v hs)
    | None =>
        RequestHandler.send_error L 501
          (Some ("Unsupported method (" ++ py_repr L cmd ++ ")")) None
          (parsed_request h cmd p v hs)
    end.
Proof.
  intros Hp Hlen Hw Hver Hvn Hhs.
  unfold RequestHandler.handle_one_request,
    SimpleHTTPRequestHandler.handle_one_request,
    BaseHTTPRequestHandler.handle_one_request.
  apply Z.ltb_ge in Hlen; rewrite Hlen.
  assert (Hne : isempty (raw_requestline req) = false).
  { destruct (raw_requestline req); [discriminate Hw | reflexivity]. }
  rewrite Hne.
  rewrite (bind_run _ _ _ _ _
             (parse_request_accepts req h cmd p v bvn vn hs
                Hp Hw Hver Hvn Hhs)).
  cbn [negb]; rewrite bind_get.
  unfold parsed_request at 1; cbn [command].
  destruct (SimpleHTTPRequestHandler.self_do L W _ cmd); reflexivity.
Qed.

Lemma parse_request_headers_path (req : request) (h h' : handler) :
  protocol_version h = "HTTP/1.0" ->
  BaseHTTPRequestHandler.parse_request_headers L RequestHandler.end_headers
    req h = (Ok true, h') ->
  path h' = path h.
Proof.
  intros Hp.
  unfold BaseHTTPRequestHandler.parse_request_headers.
  destruct (parsed_headers req) as [hs|err|err];
    try (intros H; now apply bind_never_true in H).
  rewrite bind_modify, bind_get; hsimp.
  rewrite Hp, proto_10, !andb_false_r; cbn [andb].
  destruct (String.eqb _ "close"); unfold bind, modify, ret;
    intros H; inversion H; reflexivity.
Qed.

Lemma parse_request_words_path (req : request) requestline words
    (h h' : handler) :
  protocol_version h = "HTTP/1.0" ->
  BaseHTTPRequestHandler.parse_request_words L RequestHandler.end_headers
    req requestline words h = (Ok true, h') ->
  path h' = collapse_slashes (nth 1 words "").
Proof.
  intros Hp.
  unfold BaseHTTPRequestHandler.parse_request_words.
  destruct (negb _); [intros H; now apply bind_never_true in H|].
  assert (Hrest : forall h1, protocol_version h1 = "HTTP/1.0" ->
    (modify (set_command (Some (nth 0 words "")));;
     modify (set_path (nth 1 words ""));;
     when (startswith (nth 1 words "") "//")
       (modify
          (set_path
             ("/" ++ lstrip (fun a => Ascii.eqb a slash) (nth 1 words ""))));;
     BaseHTTPRequestHandler.parse_request_headers L
       RequestHandler.end_headers req) h1 = (Ok true, h') ->
    path h' = collapse_slashes (nth 1 words "")).
  { intros h1 Hp1. rewrite !bind_modify. unfold collapse_slashes.
    destruct (startswith _ "//"); unfold when;
      rewrite ?bind_modify, ?bind_ret; intros H;
      apply parse_request_headers_path in H; try exact Hp1; exact H. }
  destruct (length words =? 2)%nat.
  - rewrite bind_assoc, bind_modify.
    destruct (negb (String.eqb _ "GET")).
    + rewrite bind_assoc. intros H; apply bind_never_true in H; [easy|].
      intros a s; rewrite bind_ret; discriminate.
    + rewrite bind_ret. now apply Hrest.
  - rewrite bind_ret. now apply Hrest.
Qed.

Lemma parse_request_path (req : request) (h h' : handler) :
  protocol_version h = "HTTP/1.0" ->
  BaseHTTPRequestHandler.parse_request L RequestHandler.end_headers req h
  = (Ok true, h') ->
  exists p, path h' = collapse_slashes p.
Proof.
  intros Hp.
  unfold BaseHTTPRequestHandler.parse_request.
  rewrite !bind_modify.
  destruct (length _ =? 0)%nat; [discriminate|].
  destruct (3 <=? _)%nat.
  2:{ intros H; eexists; eapply parse_request_words_path; [|exact H].
      exact Hp. }
  destruct (BaseHTTPRequestHandler.version_number L _) as [[bvn vn]|];
    [|intros H; now apply bind_never_true in H].
  rewrite bind_get; hsimp. rewrite Hp, proto_10, andb_false_r.
  unfold when; rewrite bind_ret.
  destruct (BaseHTTPRequestHandler.pair_geb vn 2 0);
    [intros H; now apply bind_never_true in H|].
  rewrite bind_modify.
  intros H; eexists; eapply parse_request_words_path; [|exact H].
  exact Hp.
Qed.

End RequestLine.

(** ** What a request with a version is answered *)

Section Answered.
Variable L : Lib.
Variable W : World.

(** [send_error(...); return False]. *)
Lemma send_error_refuses code message explain (k : unit -> M handler bool)
    (h0 h : handler) :
  refusal L code message explain ->
  (forall s, k tt s = (Ok false, s)) ->
  request_version h <> "HTTP/0.9" -> idle h ->
  wfile h = wfile h0 -> time_now h = time_now h0 ->
  protocol_version h = protocol_version h0 ->
  parse_outcome L W h0 (request_version h)
    (bind (RequestHandler.send_error L code message explain) k h).
Proof.
  intros Hr Hk Hv Hidle Hw Ht Hp.
  rewrite (bind_run _ _ _ _ _ (send_error_spec L code message explain h Hv Hidle)).
  rewrite Hk; split; [reflexivity|]; cbn [fst snd].
  exists h; eexists; repeat split; try assumption.
  - now apply (framed_error L W h code message explain).
  - cbn [wfile set_close_connection]. rewrite responded_wfile. now rewrite Hw.
Qed.

Lemma parse_request_headers_outcome (req : request) (h0 h : handler)
    (v : string) :
  request_version h = v -> v <> "HTTP/0.9" -> idle h ->
  wfile h = wfile h0 -> time_now h = time_now h0 ->
  protocol_version h = protocol_version h0 ->
  protocol_version h = "HTTP/1.0" ->
  parse_outcome L W h0 v
    (BaseHTTPRequestHandler.parse_request_headers L RequestHandler.end_headers
       req h).
Proof.
  intros <- Hv Hidle Hw Ht Hp Hp10.
  unfold BaseHTTPRequestHandler.parse_request_headers.
  destruct (parsed_headers req) as [hs|err|err];
    try (apply send_error_refuses; (assumption || reflexivity || constructor)).
  rewrite bind_modify, bind_get; hsimp.
  rewrite Hp10, proto_10, !andb_false_r; cbn [andb].
  destruct (String.eqb _ "close"); unfold parse_outcome, bind, modify, ret;
    cbn [fst snd]; hsimp; repeat split; assumption.
Qed.

Lemma parse_request_words_outcome (req : request) requestline words
    (h0 h : handler) (v : string) :
  (length words =? 2)%nat = false ->
  request_version h = v -> v <> "HTTP/0.9" -> idle h ->
  wfile h = wfile h0 -> time_now h = time_now h0 ->
  protocol_version h = protocol_version h0 ->
  protocol_version h = "HTTP/1.0" ->
  parse_outcome L W h0 v
    (BaseHTTPRequestHandler.parse_request_words L RequestHandler.end_headers
       req requestline words h).
Proof.
  intros H2 Hrv Hv Hidle Hw Ht Hp Hp10.
  unfold BaseHTTPRequestHandler.parse_request_words.
  destruct (negb _);
    [subst v;
     apply send_error_refuses; (assumption || reflexivity || constructor)|].
  rewrite H2, bind_ret, !bind_modify.
  destruct (startswith _ "//"); unfold when;
    rewrite ?bind_modify, ?bind_ret;
    now apply (parse_request_headers_outcome req h0).
Qed.

(** What the version recorded tells of the request line. *)
Lemma recorded_version_words (req : request) :
  recorded_version L req <> "HTTP/0.9" ->
  (65536 <? Z.of_nat (String.length (raw_requestline req)))%Z = false ->
  let words := py_split (rstrip is_crlf (raw_requestline req)) in
  (3 <=? length words)%nat = true
  /\ exists bvn vn,
       BaseHTTPRequestHandler.version_number L (last words "")
       = Some (bvn, vn)
       /\ BaseHTTPRequestHandler.pair_geb vn 2 0 = false
       /\ recorded_version L req = last words "".
Proof.
  intros Hv Hlen words; unfold recorded_version in *; rewrite Hlen in *.
  fold words in Hv |- *.
  destruct (3 <=? length words)%nat; [|now destruct Hv].
  split; [reflexivity|].
  destruct (BaseHTTPRequestHandler.version_number L (last words ""))
    as [[bvn vn]|]; [|now destruct Hv].
  exists bvn, vn.
  destruct (BaseHTTPRequestHandler.pair_geb vn 2 0); [now destruct Hv|].
  repeat split.
Qed.

Lemma parse_request_outcome (req : request) (h : handler) :
  idle h -> protocol_version h = "HTTP/1.0" ->
  recorded_version L req <> "HTTP/0.9" ->
  (65536 <? Z.of_nat (String.length (raw_requestline req)))%Z = false ->
  parse_outcome L W h (recorded_version L req)
    (BaseHTTPRequestHandler.parse_request L RequestHandler.end_headers req h).
Proof.
  intros Hidle Hp Hv Hlen.
  destruct (recorded_version_words req Hv Hlen)
    as (H3 & bvn & vn & Hver & Hvn & Hrec).
  cbv zeta in *. rewrite Hrec in Hv |- *.
  unfold BaseHTTPRequestHandler.parse_request.
  rewrite !bind_modify.
  set (words := py_split (rstrip is_crlf (raw_requestline req))) in *.
  assert (H0 : (length words =? 0)%nat = false).
  { apply Nat.leb_le in H3; apply Nat.eqb_neq; lia. }
  assert (H2 : (length words =? 2)%nat = false).
  { apply Nat.leb_le in H3; apply Nat.eqb_neq; lia. }
  rewrite H0, H3, Hver, bind_get; hsimp.
  rewrite Hp, proto_10, andb_false_r.
  unfold when; rewrite bind_ret, Hvn, bind_modify.
  apply (parse_request_words_outcome req _ words h
           (set_request_version (last words "") _) (last words ""));
    try assumption; reflexivity.
Qed.

(** The request line is too long. *)
Lemma handle_one_request_too_long (req : request) (h : handler) :
  idle h ->
  (65536 <? Z.of_nat (String.length (raw_requestline req)))%Z = true ->
  RequestHandler.handle_one_request L W req h
  = RequestHandler.send_error L 414 None None
      (set_command (Some "") (set_request_version "" h)).
Proof.
  intros Hidle Hlen.
  unfold RequestHandler.handle_one_request,
    SimpleHTTPRequestHandler.handle_one_request,
    BaseHTTPRequestHandler.handle_one_request.
  now rewrite Hlen, !bind_modify.
Qed.

(** A request line that is not empty and from which a version other
    than HTTP/0.9 is recorded is answered with one response, unless the
    method raises, and then nothing has been written. *)
Lemma handle_one_request_replied (req : request) (h : handler) :
  idle h -> protocol_version h = "HTTP/1.0" ->
  isempty (raw_requestline req) = false ->
  recorded_version L req <> "HTTP/0.9" ->
  request_version (snd (RequestHandler.handle_one_request L W req h))
  = recorded_version L req
  /\ replied L W h (RequestHandler.handle_one_request L W req h).
Proof.
  intros Hidle Hp Hne Hv.
  destruct (65536 <? Z.of_nat (String.length (raw_requestline req)))%Z
    eqn:Hlen.
  { rewrite (handle_one_request_too_long req h Hidle Hlen).
    split.
    - rewrite (send_error_keeps L 414 None None).
      unfold recorded_version; now rewrite Hlen.
    - eapply replied_from; [| | |apply send_error_replied];
        try reflexivity; [constructor | discriminate | exact Hidle]. }
  pose proof (parse_request_outcome req h Hidle Hp Hv Hlen) as Hparse.
  remember (RequestHandler.handle_one_request L W req h) as rh eqn:Hrh.
  unfold RequestHandler.handle_one_request,
    SimpleHTTPRequestHandler.handle_one_request,
    BaseHTTPRequestHandler.handle_one_request in Hrh.
  rewrite Hlen, Hne in Hrh. unfold bind at 1 in Hrh.
  destruct (BaseHTTPRequestHandler.parse_request L _ req h)
    as [[[|]|e|] h1]; destruct Hparse as [Hrv Hout]; cbn [fst snd negb] in *;
    try (now destruct Hout).
  2:{ subst rh; split; [exact Hrv | exact Hout]. }
  destruct Hout as (Hidle1 & Hw1 & Ht1 & Hp1).
  assert (Hv1 : request_version h1 <> "HTTP/0.9") by now rewrite Hrv.
  rewrite bind_get in Hrh; subst rh.
  unfold SimpleHTTPRequestHandler.self_do.
  destruct (String.eqb _ "GET").
  { split; [etransitivity; [exact (do_GET_keeps L W h1) | exact Hrv]|].
    eapply replied_from; [exact Hw1|exact Ht1|exact Hp1|].
    exact (do_GET_replied L W h1 Hv1 Hidle1). }
  destruct (String.eqb _ "HEAD").
  { split; [etransitivity; [exact (do_HEAD_keeps L W h1) | exact Hrv]|].
    eapply replied_from; [exact Hw1|exact Ht1|exact Hp1|].
    exact (do_HEAD_replied L W h1 Hv1 Hidle1). }
  split; [etransitivity; [exact (send_error_keeps L 501 _ None h1) | exact Hrv]|].
  eapply replied_from; [exact Hw1|exact Ht1|exact Hp1|].
  exact (send_error_replied L W 501 _ None h1 (refusal_method L _) Hv1 Hidle1).
Qed.

End Answered.

(** ** The run of the script *)

Section Run.
Variable L : Lib.
Variable W : World.

Lemma os_chdir_error_not_exit (p : string) (e : exn) :
  os_chdir_error W p = Some e -> forall code, e <> SystemExit code.
Proof.
  unfold os_chdir_error.
  destruct (lookup W p) as [[r [|] es|r c m]|]; intros H code;
    inversion H; discriminate.
Qed.

(** When [os.chdir] raises, nothing else has happened. *)
Lemma main_chdir_fails (inputs : list input) (e : exn) :
  os_chdir_error W (dist_path W) = Some e ->
  main L W inputs = (Exited 1, initial_process W).
Proof.
  intros He; pose proof (os_chdir_error_not_exit _ _ He) as Hne.
  unfold main, module_body, os_chdir, bind; rewrite He; unfold raise.
  destruct e; try reflexivity.
  now destruct (Hne code).
Qed.

Lemma main_no_address (inputs : list input) :
  os_chdir_error W (dist_path W) = None ->
  w_getaddrinfo W 8000 = None ->
  main L W inputs = (Exited 1, started W).
Proof.
  intros Hc Ha.
  unfold main, module_body, os_chdir, test, _get_best_family.
  rewrite Hc, Ha. reflexivity.
Qed.

(** The bind is refused: the socket is closed again. *)
Lemma main_bind_refused (inputs : list input) (host : string) :
  os_chdir_error W (dist_path W) = None ->
  w_getaddrinfo W 8000 = Some host ->
  w_bind_refused W 8000 = true ->
  main L W inputs
  = (Exited 1,
     mkProcess (cwd (started W)) None
       (app (trace (started W)) [EvSocket; EvClose])).
Proof.
  intros Hc Ha Hb.
  unfold main, module_body, os_chdir, test, _get_best_family, HTTPServer.init,
    HTTPServer.server_bind.
  rewrite Hc, Ha, Hb. reflexivity.
Qed.

(** The bind is accepted and the listen refused: the socket is closed
    as well. *)
Lemma main_listen_refused (inputs : list input) (host : string) :
  os_chdir_error W (dist_path W) = None ->
  w_getaddrinfo W 8000 = Some host ->
  w_bind_refused W 8000 = false ->
  w_listen_refused W 8000 = true ->
  main L W inputs
  = (Exited 1,
     mkProcess (cwd (started W)) None
       (app (trace (started W)) [EvSocket; EvBind host 8000; EvClose])).
Proof.
  intros Hc Ha Hb Hl.
  unfold main, module_body, os_chdir, test, _get_best_family, HTTPServer.init,
    HTTPServer.server_bind, HTTPServer.server_activate.
  rewrite Hc, Ha, Hb.
  cbv beta iota zeta delta
    [bind emit print set_cwd set_server_socket modify ret get raise
     cwd server_socket trace try_finally on_exception
     HTTPServer.server_close started initial_process].
  rewrite String.eqb_refl, Hl. reflexivity.
Qed.

(** The accept loop: every connection is handled by a new handler in
    the working directory of the process, which the loop leaves as it
    is, as it does the socket. *)
Lemma serve_forever_run (inputs : list input) :
  forall p,
    HTTPServer.serve_forever "HTTP/1.0" (RequestHandler.handle L W) inputs p
    = (if interrupted inputs then Raise KeyboardInterrupt else Pending,
       mkProcess (cwd p) (server_socket p)
         (app (trace p) (served_events L W (cwd p) inputs))).
Proof.
  induction inputs as [|[now reqs|] inputs IH]; intros p;
    cbn [HTTPServer.serve_forever interrupted served_events].
  - rewrite app_nil_r; destruct p; reflexivity.
  - unfold bind at 1, emit at 1, modify; cbn [fst snd].
    unfold bind at 1, HTTPServer.process_request at 1, bind at 1, get.
    cbn [cwd]; unfold response_of.
    destruct (RequestHandler.handle L W reqs _) as [r0 self'].
    unfold emit at 1, modify; cbn [cwd server_socket trace snd wfile].
    rewrite IH; cbn [cwd server_socket trace].
    now rewrite <- !app_assoc.
  - rewrite app_nil_r; destruct p; reflexivity.
Qed.

Lemma served_events_serving (root : string) (inputs : list input) :
  Forall serving_event (served_events L W root inputs).
Proof.
  induction inputs as [|[now reqs|] inputs IH]; cbn [served_events];
    repeat constructor; assumption.
Qed.

Lemma served_events_interrupt (conns rest : list input) (root : string) :
  served_events L W root (app conns (Interrupt :: rest))
  = served_events L W root (app conns [Interrupt])
  /\ interrupted (app conns (Interrupt :: rest)) = true
  /\ interrupted (app conns [Interrupt]) = true.
Proof.
  induction conns as [|[now reqs|] conns [IH1 [IH2 IH3]]];
    cbn [app served_events interrupted]; repeat split; auto.
  now rewrite IH1.
Qed.

Ltac rstep :=
  cbv beta iota zeta delta
    [bind emit print set_cwd set_server_socket modify ret get raise
     cwd server_socket trace try_finally on_exception
     except_KeyboardInterrupt HTTPServer.server_activate
     HTTPServer.server_close started initial_process];
  cbn [app].

(** The run of the script once the directory is entered and the bind
    and the listen are accepted. *)
Lemma main_run (inputs : list input) (host : string) :
  os_chdir_error W (dist_path W) = None ->
  w_getaddrinfo W 8000 = Some host ->
  w_bind_refused W 8000 = false ->
  w_listen_refused W 8000 = false ->
  let root := w_realpath W (dist_path W) in
  let up := app (listening_trace W host) (served_events L W root inputs) in
  main L W inputs
  = if interrupted inputs then
      (Exited 0,
       mkProcess root None (app up [EvPrint interrupt_message; EvClose]))
    else (Waiting, mkProcess root (Some (Listening host 8000)) up).
Proof.
  intros Hc Ha Hb Hl root up.
  unfold main, module_body, os_chdir, test, _get_best_family.
  rewrite Hc, Ha. rstep. rewrite String.eqb_refl. rstep.
  unfold HTTPServer.init, HTTPServer.server_bind; rewrite Hb. rstep.
  rewrite Hl. rstep.
  rewrite serve_forever_run; cbn [cwd server_socket trace].
  subst up root; unfold listening_trace, started; cbn [trace app].
  destruct (interrupted inputs); rstep; rewrite <- ?app_assoc; reflexivity.
Qed.

(** The five ways the run of the script can go. *)
Lemma main_cases (inputs : list input) :
  (exists e, os_chdir_error W (dist_path W) = Some e
             /\ main L W inputs = (Exited 1, initial_process W))
  \/ (os_chdir_error W (dist_path W) = None
      /\ w_getaddrinfo W 8000 = None
      /\ main L W inputs = (Exited 1, started W))
  \/ (os_chdir_error W (dist_path W) = None
      /\ w_bind_refused W 8000 = true
      /\ main L W inputs
         = (Exited 1,
            mkProcess (cwd (started W)) None
              (app (trace (started W)) [EvSocket; EvClose])))
  \/ (os_chdir_error W (dist_path W) = None
      /\ w_bind_refused W 8000 = false
      /\ w_listen_refused W 8000 = true
      /\ exists host,
           main L W inputs
           = (Exited 1,
              mkProcess (cwd (started W)) None
                (app (trace (started W))
                   [EvSocket; EvBind host 8000; EvClose])))
  \/ (os_chdir_error W (dist_path W) = None
      /\ w_bind_refused W 8000 = false
      /\ w_listen_refused W 8000 = false
      /\ exists host served tail,
           Forall serving_event served
           /\ ((tail = [] /\ fst (main L W inputs) = Waiting
                /\ server_socket (snd (main L W inputs))
                   = Some (Listening host 8000))
               \/ (tail = [EvPrint interrupt_message; EvClose]
                   /\ fst (main L W inputs) = Exited 0
                   /\ server_socket (snd (main L W inputs)) = None))
           /\ cwd (snd (main L W inputs)) = cwd (started W)
           /\ trace (snd (main L W inputs))
              = app (trace (started W))
                  (app [EvSocket; EvBind host 8000; EvListen;
                        EvPrint (serving_message host 8000)]
                     (app served tail))).
Proof.
  destruct (os_chdir_error W (dist_path W)) as [e|] eqn:Hc.
  { left; exists e; split; [reflexivity|]. now apply (main_chdir_fails inputs e). }
  right.
  destruct (w_getaddrinfo W 8000) as [host|] eqn:Ha.
  2:{ left; repeat split. now apply main_no_address. }
  right.
  destruct (w_bind_refused W 8000) eqn:Hb.
  { left; repeat split. now apply (main_bind_refused inputs host). }
  right.
  destruct (w_listen_refused W 8000) eqn:Hl.
  { left; repeat split. exists host. now apply main_listen_refused. }
  right; repeat split.
  pose proof (main_run inputs host Hc Ha Hb Hl) as Hm; cbv zeta in Hm.
  exists host, (served_events L W (w_realpath W (dist_path W)) inputs).
  destruct (interrupted inputs); rewrite Hm; cbn [fst snd cwd server_socket trace].
  - exists [EvPrint interrupt_message; EvClose].
    split; [apply served_events_serving|].
    split; [right; repeat split|].
    split; [reflexivity|].
    unfold listening_trace, started; cbn [trace app].
    now rewrite <- ?app_assoc.
  - exists []; split; [apply served_events_serving|].
    split; [left; repeat split|].
    split; [reflexivity|].
    unfold listening_trace, started; cbn [trace app].
    now rewrite app_nil_r.
Qed.

End Run.

(** ** The bytes of a header section *)

Lemma join_bytes_cons (x : string) (l : list string) :
  join_bytes (x :: l) = x ++ join_bytes l.
Proof. destruct l; simpl; [now rewrite append_nil_r | reflexivity]. Qed.

Lemma join_bytes_app (a b : list string) :
  join_bytes (app a b) = join_bytes a ++ join_bytes b.
Proof.
  induction a as [|x a IH]; [reflexivity|].
  cbn [app]; now rewrite !join_bytes_cons, IH, append_assoc.
Qed.

(** A header section is at least as long as the two isolation headers. *)
Lemma header_block_length (status : string) (kvs : list (string * string)) :
  (85 <= String.length (header_block status kvs))%nat.
Proof.
  unfold header_block.
  rewrite join_bytes_cons, map_app, !join_bytes_app, !length_append.
  change (String.length (join_bytes (map header_line isolation_headers)))
    with 85%nat.
  lia.
Qed.

(** ** Paths *)

Lemma split1_app_sep (c : ascii) (p x : string) :
  fst (split1 c (p ++ String c x)) = fst (split1 c p).
Proof.
  induction p as [|a p IH]; cbn [append split1].
  - now rewrite Ascii.eqb_refl.
  - destruct (Ascii.eqb a c); [reflexivity|].
    destruct (split1 c (p ++ String c x)) as [w r].
    destruct (split1 c p) as [w' r']; cbn [fst] in *; now subst.
Qed.

Lemma split1_cons (c a : ascii) (s : string) :
  fst (split1 c (String a s))
  = if Ascii.eqb a c then "" else String a (fst (split1 c s)).
Proof.
  cbn [split1]. destruct (Ascii.eqb a c); [reflexivity|].
  now destruct (split1 c s).
Qed.

(** The text before the first [c2] of the text before the first [c1] is
    not changed by what follows a [c2]. *)
Lemma split1_split1_app (c1 c2 : ascii) (p x : string) :
  fst (split1 c2 (fst (split1 c1 (p ++ String c2 x))))
  = fst (split1 c2 (fst (split1 c1 p))).
Proof.
  induction p as [|a p IH]; cbn [append].
  - rewrite split1_cons.
    destruct (Ascii.eqb c2 c1); [reflexivity|].
    now rewrite split1_cons, Ascii.eqb_refl.
  - rewrite !(split1_cons c1 a).
    destruct (Ascii.eqb a c1); [reflexivity|].
    rewrite !(split1_cons c2 a), IH. reflexivity.
Qed.


Lemma Forall_removelast {A} (P : A -> Prop) (l : list A) :
  Forall P l -> Forall P (removelast l).
Proof.
  induction 1 as [|x l Hx Hl IH]; [constructor|].
  destruct l; [constructor|]. cbn [removelast]; now constructor.
Qed.

Lemma Forall_last (P : string -> Prop) (l : list string) :
  l <> [] -> Forall P l -> P (last l "").
Proof.
  intros Hne Hall.
  rewrite (app_removelast_last "" Hne) in Hall.
  apply Forall_app in Hall as [_ Hl]. now inversion Hl.
Qed.

(** One turn of the loop of [normpath] on an absolute path keeps the
    components simple names. *)
Lemma normpath_step_clean (k : nat) (acc : list string) (comp : string) :
  k <> 0%nat -> contains_char slash comp = false ->
  Forall simple_name acc ->
  Forall simple_name (posixpath.normpath_step k acc comp).
Proof.
  intros Hk Hs Hacc; unfold posixpath.normpath_step.
  destruct (String.eqb_spec comp ""); [exact Hacc|].
  destruct (String.eqb_spec comp "."); [exact Hacc|]; cbn [orb].
  destruct (String.eqb_spec comp "..") as [->|Hdd]; cbn [negb orb].
  - apply Nat.eqb_neq in Hk; rewrite Hk; cbn [andb orb].
    destruct acc as [|w ws]; [constructor|]; cbn [andb].
    assert (Hl : simple_name (last (w :: ws) ""))
      by (apply Forall_last; [discriminate | exact Hacc]).
    destruct (String.eqb_spec (last (w :: ws) "") "..") as [E|_].
    + destruct Hl as (_ & _ & Hl & _); now destruct Hl.
    + now apply Forall_removelast.
  - apply Forall_app; split; [exact Hacc|].
    repeat constructor; assumption.
Qed.

Lemma normpath_loop_clean (k : nat) (comps : list string) :
  k <> 0%nat ->
  Forall (fun c => contains_char slash c = false) comps ->
  forall acc, Forall simple_name acc ->
    Forall simple_name (fold_left (posixpath.normpath_step k) comps acc).
Proof.
  intros Hk; induction 1 as [|c comps Hc Hall IH]; intros acc Hacc;
    cbn [fold_left]; [exact Hacc|].
  apply IH. now apply normpath_step_clean.
Qed.


(** ** The directory of the script *)

Lemma concat_snoc (names : list string) (n : string) :
  names <> [] ->
  String.concat "/" (app names [n]) = String.concat "/" names ++ "/" ++ n.
Proof.
  induction names as [|w [|w' l] IH]; intros Hne.
  - now destruct Hne.
  - reflexivity.
  - change (app (w :: w' :: l) [n]) with (w :: w' :: app l [n]).
    rewrite !concat_cons_cons.
    change (w' :: app l [n]) with (app (w' :: l) [n]).
    rewrite IH by discriminate.
    now rewrite !append_assoc.
Qed.

Lemma contains_char_app_sep (c : ascii) (a b : string) :
  contains_char c (a ++ String c b) = true.
Proof.
  induction a as [|x a IH]; cbn [append contains_char].
  - now rewrite Ascii.eqb_refl.
  - now rewrite IH, orb_true_r.
Qed.

Lemma head_upto_last_slash_app (a n : string) :
  contains_char slash n = false ->
  posixpath.head_upto_last_slash (a ++ String slash n) = a ++ "/".
Proof.
  intros Hn; induction a as [|x a IH].
  - cbn [append posixpath.head_upto_last_slash contains_char].
    rewrite Ascii.eqb_refl; cbn [orb].
    now rewrite (head_upto_last_slash_plain n Hn).
  - change (String x a ++ String slash n) with (String x (a ++ String slash n)).
    cbn [posixpath.head_upto_last_slash contains_char].
    rewrite contains_char_app_sep, orb_true_r, IH. reflexivity.
Qed.

Lemma all_slashes_endswith (a : string) :
  a <> "" -> posixpath.all_slashes a = true -> endswith_char a slash = true.
Proof.
  induction a as [|x a IH]; intros Hne H; [now destruct Hne|].
  cbn [posixpath.all_slashes] in H; apply andb_true_iff in H as [Hx Ha].
  destruct a as [|y a]; [exact Hx|].
  apply IH; [discriminate | exact Ha].
Qed.

Lemma all_slashes_app (a b : string) :
  posixpath.all_slashes (a ++ b)
  = posixpath.all_slashes a && posixpath.all_slashes b.
Proof.
  induction a as [|x a IH]; [reflexivity|].
  cbn [append posixpath.all_slashes]; now rewrite IH, andb_assoc.
Qed.

Lemma rstrip_trailing_slash (a : string) :
  a <> "" -> endswith_char a slash = false ->
  rstrip (fun c => Ascii.eqb c slash) (a ++ "/") = a.
Proof.
  induction a as [|x a IH]; intros Hne He; [now destruct Hne|].
  change (String x a ++ "/") with (String x (a ++ "/")); cbn [rstrip].
  destruct a as [|y a].
  - cbn [endswith_char] in He. cbn. now rewrite He.
  - rewrite IH; [reflexivity | discriminate | exact He].
Qed.

(** [dirname] of a path whose last component is [n]. *)
Lemma dirname_app (a n : string) :
  a <> "" -> endswith_char a slash = false ->
  contains_char slash n = false ->
  posixpath.dirname (a ++ "/" ++ n) = a.
Proof.
  intros Hne He Hn; unfold posixpath.dirname.
  change ("/" ++ n) with (String slash n).
  rewrite (head_upto_last_slash_app a n Hn).
  assert (Hall : posixpath.all_slashes (a ++ "/") = false).
  { rewrite all_slashes_app.
    destruct (posixpath.all_slashes a) eqn:E; [|reflexivity].
    rewrite (all_slashes_endswith a Hne E) in He; discriminate. }
  rewrite Hall.
  destruct (a ++ "/") eqn:E; [destruct a; discriminate|]; cbn [isempty negb andb].
  rewrite <- E. now apply rstrip_trailing_slash.
Qed.

Lemma url_of_shape (names : list string) :
  names <> [] -> Forall simple_name names ->
  url_of names <> "" /\ endswith_char (url_of names) slash = false
  /\ posixpath.isabs (url_of names) = true.
Proof.
  intros Hne Hall; unfold url_of; split; [discriminate|]; split.
  - assert (Hnz : String.concat "/" names <> "").
    { destruct names as [|w [|w' l]]; [now destruct Hne| |].
      - inversion Hall as [|? ? (Hw & _) _]; subst; exact Hw.
      - rewrite concat_cons_cons.
        inversion Hall as [|? ? (Hw & _) _]; subst.
        destruct w; [now destruct Hw | discriminate]. }
    rewrite endswith_char_app by exact Hnz.
    apply endswith_concat; [exact Hne|].
    eapply Forall_impl; [|exact Hall].
    intros w (Hw & _ & _ & Hs); now split.
  - reflexivity.
Qed.





(** ** Requests without a version *)

Section Legacy.
Variable L : Lib.
Variable W : World.

Lemma send_response_legacy code message (h : handler) :
  request_version h = "HTTP/0.9" ->
  BaseHTTPRequestHandler.send_response L code message h = (Ok tt, h).
Proof.
  intros Hv.
  destruct h as [d pv tn rv c p hs cc hb w]; cbn [request_version] in Hv.
  subst rv; reflexivity.
Qed.

Lemma send_header_legacy keyword value (h : handler) :
  request_version h = "HTTP/0.9" ->
  String.eqb (lower keyword) "connection" = false ->
  BaseHTTPRequestHandler.send_header keyword value h = (Ok tt, h).
Proof.
  intros Hv Hk.
  unfold BaseHTTPRequestHandler.send_header.
  rewrite bind_get, Hv, Hk. reflexivity.
Qed.

Lemma send_header_close_legacy (h : handler) :
  request_version h = "HTTP/0.9" ->
  BaseHTTPRequestHandler.send_header "Connection" "close" h
  = (Ok tt, set_close_connection true h).
Proof.
  intros Hv.
  unfold BaseHTTPRequestHandler.send_header.
  rewrite bind_get, Hv. reflexivity.
Qed.

Ltac legacy lem :=
  erewrite bind_run by (apply lem; hsimp; solve [assumption | reflexivity]);
  cbv beta; hsimp.

(** [send_error] on an HTTP/0.9 request: the page alone. *)
Lemma send_error_legacy code message explain (h : handler) :
  request_version h = "HTTP/0.9" ->
  RequestHandler.send_error L code message explain h
  = (Ok tt,
     set_close_connection true
       (set_wfile (wfile h ++ error_payload L code message explain h) h)).
Proof.
  intros Hv.
  unfold RequestHandler.send_error, SimpleHTTPRequestHandler.send_error,
    BaseHTTPRequestHandler.send_error, error_payload, error_page,
    error_message, error_explain.
  destruct (BaseHTTPRequestHandler.responses_or_unknown L code) as [s l].
  legacy send_response_legacy.
  legacy send_header_close_legacy.
  unfold BaseHTTPRequestHandler.not_head.
  destruct (BaseHTTPRequestHandler.error_has_body code); cbn [andb].
  - rewrite !bind_assoc. legacy send_header_legacy.
    rewrite !bind_assoc. legacy send_header_legacy.
    rewrite bind_ret.
    legacy end_headers_legacy.
    rewrite bind_get, when_write_run, nonempty_payload.
    destruct h; reflexivity.
  - rewrite bind_ret. legacy end_headers_legacy.
    rewrite bind_get. unfold ret.
    destruct h; hsimp; now rewrite append_nil_r.
Qed.

(** [send_head] on an HTTP/0.9 request for a file: nothing is written
    before the content. *)
Lemma send_head_file_legacy (p : string) (f : fileobj) (h : handler) :
  request_version h = "HTTP/0.9" ->
  endswith_char p slash = false ->
  py_open W p = Opened f ->
  RequestHandler.send_head_file L W p h
  = (match
       SimpleHTTPRequestHandler.not_modified L (headers h) (f_mtime_us f)
     with
     | Some true => Ok None
     | Some false =>
         if representable (f_mtime_us f) then Ok (Some f)
         else Raise ValueError
     | None => Raise ValueError
     end, h).
Proof.
  intros Hv Hs Ho.
  unfold RequestHandler.send_head_file, SimpleHTTPRequestHandler.send_head_file,
    SimpleHTTPRequestHandler.send_response,
    SimpleHTTPRequestHandler.send_header,
    SimpleHTTPRequestHandler.last_modified.
  rewrite Hs, Ho, bind_get.
  destruct (SimpleHTTPRequestHandler.not_modified L _ _) as [[|]|];
    [| |reflexivity].
  - legacy send_response_legacy. legacy end_headers_legacy. reflexivity.
  - legacy send_response_legacy.
    legacy send_header_legacy. legacy send_header_legacy.
    destruct (representable (f_mtime_us f)); [|reflexivity].
    rewrite bind_ret.
    legacy send_header_legacy. legacy end_headers_legacy. reflexivity.
Qed.

End Legacy.

(** ** A request for a file, from the line to the response *)


Section AcceptedRequest.
Variable L : Lib.
Variable W : World.

(** An accepted request is handled by the method of its command. *)
Lemma handle_one_request_method (req : request) (h : handler)
    (cmd p v : string) (hs : list (string * string)) :
  protocol_version h = "HTTP/1.0" ->
  accepted_request L req cmd p v hs ->
  RequestHandler.handle_one_request L W req h
  = match SimpleHTTPRequestHandler.self_do L W RequestHandler.end_headers cmd
    with
    | Some method => method (parsed_request h cmd p v hs)
    | None =>
        RequestHandler.send_error L 501
          (Some ("Unsupported method (" ++ py_repr L cmd ++ ")")) None
          (parsed_request h cmd p v hs)
    end.
Proof.
  intros Hp (Hlen & Hw & Hver & Hhs).
  destruct (BaseHTTPRequestHandler.version_number L v) as [[bvn vn]|] eqn:Hv;
    [|contradiction].
  exact (handle_one_request_accepted L W req h cmd p v bvn vn hs
           Hp Hlen Hw Hv Hver Hhs).
Qed.

(** [send_head] on a path that names a file that can be read, the
    browser cache not in play. *)
Lemma send_head_file_found (h : handler) (content : string) (mtime : Z) :
  request_version h <> "HTTP/0.9" -> idle h ->
  let p := SimpleHTTPRequestHandler.translate_path L (directory h) (path h) in
  lookup W p = Some (File true content mtime) ->
  endswith_char p slash = false ->
  SimpleHTTPRequestHandler.not_modified L (headers h) mtime = Some false ->
  representable mtime = true ->
  RequestHandler.send_head L W h
  = (Ok (Some (mkFileobj (Some p) content mtime)),
     responded (status_line (protocol_version h) 200 (reason L 200 None))
       (file_headers L h p (mkFileobj (Some p) content mtime)) "" h).
Proof.
  intros Hv Hidle p Hl Hs Hnm Hrep.
  assert (Ho : py_open W p = Opened (mkFileobj (Some p) content mtime))
    by (unfold py_open; now rewrite Hl).
  rewrite send_head_not_dir by (unfold os_path_isdir; fold p; now rewrite Hl).
  fold p.
  now apply (send_head_file_ok L W p (mkFileobj (Some p) content mtime)).
Qed.

(** [send_head] on a path that names nothing the system can find. *)
Lemma send_head_nothing (h : handler) :
  request_version h <> "HTTP/0.9" -> idle h ->
  let p := SimpleHTTPRequestHandler.translate_path L (directory h) (path h) in
  lookup W p = None -> unusable_path W p = false ->
  RequestHandler.send_head L W h
  = (Ok None, not_found L "File not found" h).
Proof.
  intros Hv Hidle p Hl Hu.
  rewrite send_head_not_dir by (unfold os_path_isdir; fold p; now rewrite Hl).
  fold p.
  apply send_head_file_missing; try assumption.
  unfold py_open; now rewrite Hl, Hu.
Qed.

End AcceptedRequest.

(** * The properties of the specification *)

(** ** The isolation headers (C1) *)

(** C1, as amended.  On a server that speaks HTTP/1.0 (the protocol
    [test] sets), take a request line that is not empty and from which
    [parse_request] records a version other than HTTP/0.9: a line of
    three words or more whose last word is a well-formed version below
    2.0, or a line that is too long.  Handling it ends in one of two
    ways.  Either the method raises, and nothing has been written; or it
    returns, and exactly one response [out] has been written, one of the
    five the handler makes (error, file, not modified, redirection,
    listing), whose header section is the status line, the headers [kvs]
    of the base handler, none of them named like an isolation header,
    then Cross-Origin-Opener-Policy: same-origin, then
    Cross-Origin-Embedder-Policy: require-corp, then the blank line. *)
Theorem isolation_headers_on_every_response
    (L : Lib) (W : World) (req : request) (h h' : handler) (r : result unit) :
  idle h -> protocol_version h = "HTTP/1.0" ->
  isempty (raw_requestline req) = false ->
  recorded_version L req <> "HTTP/0.9" ->
  RequestHandler.handle_one_request L W req h = (r, h') ->
  request_version h' = recorded_version L req
  /\ ((exists e, r = Raise e /\ wfile h' = wfile h)
      \/ (r = Ok tt
          /\ exists hx out,
               time_now hx = time_now h
               /\ protocol_version hx = "HTTP/1.0"
               /\ framed L W hx out
               /\ wfile h' = wfile h ++ out
               /\ exists status kvs body,
                    out = header_block status kvs ++ body
                    /\ forallb base_header kvs = true)).
Proof.
  intros Hidle Hp Hne Hv Hrun.
  destruct (handle_one_request_replied L W req h Hidle Hp Hne Hv) as [Hrv Hrep].
  rewrite Hrun in Hrv, Hrep; unfold replied in Hrep; cbn [fst snd] in Hrv, Hrep.
  split; [exact Hrv|].
  destruct r as [[]|e|].
  - right; split; [reflexivity|].
    destruct Hrep as (hx & out & Ht & Hpx & Hf & Hw).
    exists hx, out.
    split; [exact Ht|]. split; [congruence|]. split; [exact Hf|].
    split; [exact Hw|]. exact (framed_headers L W hx out Hf).
  - left; exists e; split; [reflexivity | exact Hrep].
  - destruct Hrep.
Qed.

(** The theorem at the request GET /index.html HTTP/1.1 of the sample
    installation. *)
Lemma isolation_headers_on_every_response_witness :
  let W := sample_world (Some sample_dist) false in
  let req := sample_request "GET /index.html HTTP/1.1" [] in
  let h := sample_handler in
  let r := fst (RequestHandler.handle_one_request sample_lib W req h) in
  let h' := snd (RequestHandler.handle_one_request sample_lib W req h) in
  request_version h' = "HTTP/1.1"
  /\ ((exists e, r = Raise e /\ wfile h' = wfile h)
      \/ (r = Ok tt
          /\ exists hx out,
               time_now hx = time_now h
               /\ protocol_version hx = "HTTP/1.0"
               /\ framed sample_lib W hx out
               /\ wfile h' = wfile h ++ out
               /\ exists status kvs body,
                    out = header_block status kvs ++ body
                    /\ forallb base_header kvs = true)).
Proof.
  cbv zeta.
  apply (isolation_headers_on_every_response sample_lib
           (sample_world (Some sample_dist) false)
           (sample_request "GET /index.html HTTP/1.1" []) sample_handler);
    [reflexivity | reflexivity | reflexivity | vm_compute; discriminate
    | apply surjective_pairing].
Defined.

(** C1 as stated fails on the requests from which no version is
    recorded.  On the sample installation the request line
    GET /index.html, without a version, is answered with the bytes of the
    file alone; the request line GET /index.html HTTP/2.0 is refused with
    the page of error 505 alone, the version of the request still being
    the default HTTP/0.9 when the error is sent.  Neither response has a
    status line or a header, so neither has an isolation header. *)
Lemma http09_response_has_no_headers :
  let W := sample_world (Some sample_dist) false in
  let run line :=
    wfile (snd (RequestHandler.handle_one_request sample_lib W
                  (sample_request line []) sample_handler)) in
  run "GET /index.html" = "<h1>hi</h1>"
  /\ (forall status kvs body,
        run "GET /index.html" <> header_block status kvs ++ body)
  /\ run "GET /index.html HTTP/2.0"
     = sample_error_body 505 "Invalid HTTP version (2.0)"
         "Cannot fulfill request"
  /\ occurs "Cross-Origin-Opener-Policy" (run "GET /index.html HTTP/2.0")
     = false
  /\ occurs "Cross-Origin-Embedder-Policy" (run "GET /index.html HTTP/2.0")
     = false.
Proof.
  cbv zeta.
  assert (Hw : wfile (snd (RequestHandler.handle_one_request sample_lib
                 (sample_world (Some sample_dist) false)
                 (sample_request "GET /index.html" []) sample_handler))
               = "<h1>hi</h1>") by (vm_compute; reflexivity).
  split; [exact Hw|]. split.
  - intros status kvs body Hone.
    rewrite Hw in Hone.
    apply (f_equal String.length) in Hone.
    rewrite length_append in Hone.
    pose proof (header_block_length status kvs).
    change (String.length "<h1>hi</h1>") with 11%nat in Hone. lia.
  - repeat split; vm_compute; reflexivity.
Qed.

(** ** Path traversal (C2) *)

(** The request path of the classic traversal, on the sample
    installation. *)
Example translate_path_of_traversal :
  SimpleHTTPRequestHandler.translate_path sample_lib "/home/dev/repo/dist"
    "/../../etc/passwd"
  = "/home/dev/repo/dist/etc/passwd".
Proof. reflexivity. Qed.

(** C2, as amended.  Whatever the request path, [translate_path] gives a
    path that is written under the serving directory, and a file that
    [send_head] hands to [do_GET] to be copied to the client was opened
    at a path [fp] written under the serving directory: [fp] is the
    directory followed by components that are empty or simple names, none
    of them [..], and the content is what the system keeps at [fp].  The
    guarantee is about the path as written: where the system resolves
    [fp] to is not looked at. *)
Theorem traversal_stays_under_root
    (L : Lib) (W : World) (h h' : handler) (f : fileobj) (fp : string) :
  RequestHandler.send_head L W h = (Ok (Some f), h') ->
  f_name f = Some fp ->
  under (directory h)
    (SimpleHTTPRequestHandler.translate_path L (directory h) (path h))
  /\ under (directory h) fp
  /\ lookup W fp = Some (File true (f_content f) (f_mtime_us f))
  /\ exists rest,
       fp = directory h ++ rest
       /\ Forall (fun c => c = "" \/ simple_name c) (split_on slash rest).
Proof.
  intros Hrun Hname.
  destruct (send_head_opens_under L W h h' f fp Hrun Hname) as [Hu Ho].
  split; [apply translate_path_under|].
  split; [exact Hu|].
  split; [apply (py_open_name W fp f Ho)|].
  now apply under_lexical.
Qed.

(** The theorem at the request path /../../index.html of the sample
    installation. *)
Lemma traversal_stays_under_root_witness :
  let W := sample_world (Some sample_dist) false in
  let h := set_path "/../../index.html"
             (set_command (Some "GET")
                (set_request_version "HTTP/1.0" sample_handler)) in
  let fp := "/home/dev/repo/dist/index.html" in
  under (directory h)
    (SimpleHTTPRequestHandler.translate_path sample_lib (directory h) (path h))
  /\ under (directory h) fp
  /\ lookup W fp = Some (File true "<h1>hi</h1>" 5000000)
  /\ exists rest,
       fp = directory h ++ rest
       /\ Forall (fun c => c = "" \/ simple_name c) (split_on slash rest).
Proof.
  cbv zeta.
  apply (traversal_stays_under_root sample_lib
           (sample_world (Some sample_dist) false)
           (set_path "/../../index.html"
              (set_command (Some "GET")
                 (set_request_version "HTTP/1.0" sample_handler)))
           (snd (RequestHandler.send_head sample_lib
                   (sample_world (Some sample_dist) false)
                   (set_path "/../../index.html"
                      (set_command (Some "GET")
                         (set_request_version "HTTP/1.0" sample_handler)))))
           (mkFileobj (Some "/home/dev/repo/dist/index.html")
              "<h1>hi</h1>" 5000000)
           "/home/dev/repo/dist/index.html");
    [vm_compute; reflexivity | reflexivity].
Defined.

(** C2 as stated fails where the root directory holds a symbolic link
    that leads out of it.  On the sample installation with the link
    dist/link.html to the file outside.html, the request
    GET /../link.html HTTP/1.0 is answered with the content of that file,
    which is located outside the root directory. *)
Lemma symlink_serves_file_outside_root :
  let W := sample_world_with_link in
  let root := w_realpath W (dist_path W) in
  let fp :=
    SimpleHTTPRequestHandler.translate_path sample_lib root "/../link.html" in
  root = "/home/dev/repo/dist"
  /\ fp = "/home/dev/repo/dist/link.html"
  /\ islink W fp = true
  /\ w_realpath W fp = "/home/dev/repo/outside.html"
  /\ lookup W (w_realpath W fp) = Some (File true "outside" 5000000)
  /\ wfile (snd (RequestHandler.handle_one_request sample_lib W
                   (sample_request "GET /../link.html HTTP/1.0" [])
                   (SimpleHTTPRequestHandler.init root "HTTP/1.0" 0)))
     = header_block (status_line "HTTP/1.0" 200 "OK")
         [("Server", "SimpleHTTP/0.6 Python/3.11.2");
          ("Date", "Thu, 01 Jan 1970 00:00:00 GMT");
          ("Content-type", "text/html");
          ("Content-Length", "7");
          ("Last-Modified", "Thu, 01 Jan 1970 00:00:05 GMT")]
       ++ "outside".
Proof. cbv zeta; repeat split; vm_compute; reflexivity. Qed.

(** ** A missing root directory (C3) *)

(** C3.  The root is the directory of the program joined with [..] and
    [dist]; when that path names no directory, [os.chdir] raises, the
    process ends with status 1, and nothing else has happened: nothing
    printed, no socket created or bound, nothing served, the working
    directory unchanged. *)
Theorem missing_root_fails_before_bind
    (L : Lib) (W : World) (inputs : list input) :
  os_path_isdir W (dist_path W) = false ->
  dist_path W
  = posixpath.join
      (posixpath.join
         (posixpath.dirname (posixpath.abspath (w_cwd W) (w_file W))) "..")
      "dist"
  /\ main L W inputs = (Exited 1, mkProcess (w_cwd W) None []).
Proof.
  intros Hdir; split; [reflexivity|].
  assert (He : exists e, os_chdir_error W (dist_path W) = Some e).
  { unfold os_path_isdir in Hdir; unfold os_chdir_error.
    destruct (lookup W (dist_path W)) as [[r x es|r c m]|];
      [discriminate | eauto | eauto]. }
  destruct He as [e He].
  exact (main_chdir_fails L W inputs e He).
Qed.

(** The theorem on the sample checkout without its dist directory. *)
Lemma missing_root_fails_before_bind_witness :
  dist_path (sample_world None false) = "/home/dev/repo/app/../dist"
  /\ main sample_lib (sample_world None false) []
     = (Exited 1, mkProcess "/home/dev/repo" None []).
Proof.
  apply (missing_root_fails_before_bind sample_lib (sample_world None false) []).
  reflexivity.
Defined.

(** ** An existing file (C4) *)




(** ** A path that names nothing (C5) *)

(** C5, as amended.  On a server that speaks HTTP/1.0, a request whose
    line is GET, a path and a version [v] below 2.0 other than HTTP/0.9,
    and whose path translates to a path [fp] that the system can be given
    and at which it finds neither a file nor a directory, is answered with
    the status line 404 File not found, the headers of an error response
    and the error page. *)
Theorem get_missing_path_is_404
    (L : Lib) (W : World) (req : request) (h : handler) (p v : string)
    (hs : list (string * string)) :
  idle h -> protocol_version h = "HTTP/1.0" ->
  accepted_request L req "GET" p v hs -> v <> "HTTP/0.9" ->
  let fp :=
    SimpleHTTPRequestHandler.translate_path L (directory h)
      (collapse_slashes p) in
  lookup W fp = None -> unusable_path W fp = false ->
  exists h',
    RequestHandler.handle_one_request L W req h = (Ok tt, h')
    /\ wfile h'
       = wfile h
         ++ header_block (status_line "HTTP/1.0" 404 "File not found")
              (error_headers L 404 (Some "File not found") None h)
         ++ error_page L 404 (Some "File not found") None.
Proof.
  intros Hidle Hp Hreq Hv fp Hl Hu.
  set (h1 := parsed_request h "GET" p v hs).
  assert (Hhead := send_head_nothing L W h1 Hv Hidle Hl Hu).
  eexists; split.
  - rewrite (handle_one_request_method L W req h "GET" p v hs Hp Hreq).
    exact (do_GET_of_send_head L W h1 _ _ Hhead).
  - unfold not_found, responded, h1, parsed_request;
      cbn [wfile set_close_connection set_headers_buffer set_wfile
           protocol_version].
    now rewrite Hp.
Qed.

(** The theorem at GET /nope HTTP/1.0 on the sample installation. *)
Lemma get_missing_path_is_404_witness :
  let W := sample_world (Some sample_dist) false in
  let h := sample_handler in
  exists h',
    RequestHandler.handle_one_request sample_lib W
      (sample_request "GET /nope HTTP/1.0" []) h
    = (Ok tt, h')
    /\ wfile h'
       = wfile h
         ++ header_block (status_line "HTTP/1.0" 404 "File not found")
              (error_headers sample_lib 404 (Some "File not found") None h)
         ++ error_page sample_lib 404 (Some "File not found") None.
Proof.
  cbv zeta.
  apply (get_missing_path_is_404 sample_lib
           (sample_world (Some sample_dist) false)
           (sample_request "GET /nope HTTP/1.0" []) sample_handler
           "/nope" "HTTP/1.0" []);
    [reflexivity | reflexivity
    | split; [vm_compute; discriminate|];
      split; [reflexivity|]; split; [vm_compute; reflexivity | reflexivity]
    | discriminate | reflexivity | reflexivity].
Defined.

(** C5 as stated fails in two ways on the sample installation.  The
    HTTP/0.9 request line GET /nope is answered with the error page
    alone; no status line precedes it.  And a GET whose path holds a NUL
    character, which names nothing, gets no response: [open] raises
    ValueError, which [send_head] does not catch. *)
Lemma http09_missing_path_has_no_status :
  let W := sample_world (Some sample_dist) false in
  let run line :=
    RequestHandler.handle_one_request sample_lib W (sample_request line [])
      sample_handler in
  let out := wfile (snd (run "GET /nope")) in
  let odd := "GET /a" ++ String nul "b HTTP/1.0" in
  lookup W "/home/dev/repo/dist/nope" = None
  /\ out = sample_error_body 404 "File not found"
             "Nothing matches the given URI"
  /\ startswith out "HTTP/" = false
  /\ lookup W ("/home/dev/repo/dist/a" ++ String nul "b") = None
  /\ fst (run odd) = Raise ValueError
  /\ wfile (snd (run odd)) = "".
Proof. cbv zeta; repeat split; vm_compute; reflexivity. Qed.

(** ** The order of startup (C6) *)

(** C6, as amended.  Once [os.chdir] has succeeded the script prints its
    message first; the socket is created and bound to port 8000 after
    that, and it listens before any connection is accepted.  The events
    after the message are none (no address to bind), or a socket opened
    and closed (the bind is refused), or a socket opened, bound and
    closed (the listen is refused), or: socket, bind to port 8000,
    listen, the line of [test], then accepted connections and their
    responses, then possibly the interrupt. *)
Theorem startup_message_precedes_bind
    (L : Lib) (W : World) (inputs : list input) (o : outcome) (p : process) :
  main L W inputs = (o, p) ->
  os_chdir_error W (dist_path W) = None ->
  exists rest,
    trace p = EvChdir (dist_path W) :: EvPrint startup_message :: rest
    /\ (rest = []
        \/ rest = [EvSocket; EvClose]
        \/ (exists host, rest = [EvSocket; EvBind host 8000; EvClose])
        \/ exists host served tail,
             rest = app [EvSocket; EvBind host 8000; EvListen;
                         EvPrint (serving_message host 8000)]
                      (app served tail)
             /\ Forall serving_event served
             /\ (tail = [] \/ tail = [EvPrint interrupt_message; EvClose])).
Proof.
  intros Hm Hc.
  destruct (main_cases L W inputs)
    as [(e & He & _)|[(_ & _ & H)|[(_ & _ & H)|[(_ & _ & _ & H)|(_ & _ & _ & H)]]]].
  - congruence.
  - rewrite Hm in H; inversion H; subst. exists []; split; [reflexivity|auto].
  - rewrite Hm in H; inversion H; subst.
    exists [EvSocket; EvClose]; split; [reflexivity|auto].
  - destruct H as (host & H). rewrite Hm in H; inversion H; subst.
    exists [EvSocket; EvBind host 8000; EvClose]; split; [reflexivity|].
    right; right; left; now exists host.
  - destruct H as (host & served & tail & Hall & Htail & _ & Htr).
    rewrite Hm in Htr, Htail; cbn [fst snd] in Htr, Htail.
    eexists; split; [exact Htr|].
    right; right; right; exists host, served, tail.
    split; [reflexivity|]. split; [assumption|].
    destruct Htail as [(-> & _)|(-> & _)]; auto.
Qed.

(** The theorem on the sample installation, one connection arriving. *)
Lemma startup_message_precedes_bind_witness :
  let W := sample_world (Some sample_dist) false in
  let inputs := [Conn 0 [sample_request "GET /index.html HTTP/1.0" []]] in
  exists rest,
    trace (snd (main sample_lib W inputs))
    = EvChdir (dist_path W) :: EvPrint startup_message :: rest
    /\ (rest = []
        \/ rest = [EvSocket; EvClose]
        \/ (exists host, rest = [EvSocket; EvBind host 8000; EvClose])
        \/ exists host served tail,
             rest = app [EvSocket; EvBind host 8000; EvListen;
                         EvPrint (serving_message host 8000)]
                      (app served tail)
             /\ Forall serving_event served
             /\ (tail = [] \/ tail = [EvPrint interrupt_message; EvClose])).
Proof.
  cbv zeta.
  apply (startup_message_precedes_bind sample_lib
           (sample_world (Some sample_dist) false)
           [Conn 0 [sample_request "GET /index.html HTTP/1.0" []]]
           (fst (main sample_lib (sample_world (Some sample_dist) false)
                   [Conn 0 [sample_request "GET /index.html HTTP/1.0" []]])));
    [apply surjective_pairing | reflexivity].
Defined.

(** C6 as stated fails: on the sample installation the message is printed
    before the socket exists, and it is printed as well when the bind is
    refused and the server never gets ready. *)
Lemma message_printed_before_bind :
  main sample_lib (sample_world (Some sample_dist) false) []
  = (Waiting,
     mkProcess "/home/dev/repo/dist" (Some (Listening "0.0.0.0" 8000))
       [EvChdir "/home/dev/repo/app/../dist";
        EvPrint "===> Open your browser at http://localhost:8000/";
        EvSocket; EvBind "0.0.0.0" 8000; EvListen;
        EvPrint "Serving HTTP on 0.0.0.0 port 8000 (http://0.0.0.0:8000/) ..."])
  /\ main sample_lib (sample_world (Some sample_dist) true) []
     = (Exited 1,
        mkProcess "/home/dev/repo/dist" None
          [EvChdir "/home/dev/repo/app/../dist";
           EvPrint "===> Open your browser at http://localhost:8000/";
           EvSocket; EvClose]).
Proof. split; vm_compute; reflexivity. Qed.

(** ** A root directory without permissions (C7) *)

(** C7, as amended.  When the root directory exists and the process has
    no search permission on it, [os.chdir] raises and the process ends
    with status 1 before anything else happens. *)
Theorem unsearchable_root_fails_fast
    (L : Lib) (W : World) (inputs : list input)
    (readable : bool) (entries : list string) :
  lookup W (dist_path W) = Some (Dir readable false entries) ->
  main L W inputs = (Exited 1, mkProcess (w_cwd W) None []).
Proof.
  intros Hl.
  apply (main_chdir_fails L W inputs (PermissionError (dist_path W))).
  unfold os_chdir_error; now rewrite Hl.
Qed.

(** The theorem on the sample checkout, dist readable and not
    searchable. *)
Lemma unsearchable_root_fails_fast_witness :
  main sample_lib (sample_world (Some (Dir true false [])) false) []
  = (Exited 1, mkProcess "/home/dev/repo" None []).
Proof.
  apply (unsearchable_root_fails_fast sample_lib
           (sample_world (Some (Dir true false [])) false) [] true []).
  reflexivity.
Defined.

(** C7 as stated fails: with a dist directory that cannot be read but can
    be searched the server starts, listens, and serves the page in it. *)
Lemma unreadable_root_still_serves :
  let W := sample_world (Some (Dir false true ["index.html"])) false in
  lookup W (dist_path W) = Some (Dir false true ["index.html"])
  /\ fst (main sample_lib W
            [Conn 0 [sample_request "GET /index.html HTTP/1.0" []]])
     = Waiting
  /\ server_socket
       (snd (main sample_lib W
               [Conn 0 [sample_request "GET /index.html HTTP/1.0" []]]))
     = Some (Listening "0.0.0.0" 8000)
  /\ last (trace
             (snd (main sample_lib W
                     [Conn 0 [sample_request "GET /index.html HTTP/1.0" []]])))
       EvClose
     = EvSend
         (header_block (status_line "HTTP/1.0" 200 "OK")
            [("Server", "SimpleHTTP/0.6 Python/3.11.2");
             ("Date", "Thu, 01 Jan 1970 00:00:00 GMT");
             ("Content-type", "text/html");
             ("Content-Length", "11");
             ("Last-Modified", "Thu, 01 Jan 1970 00:00:05 GMT")]
          ++ "<h1>hi</h1>").
Proof. cbv zeta; repeat split; vm_compute; reflexivity. Qed.

(** ** A port that is taken (C8) *)

(** C8, as amended.  When the system refuses the bind of the socket of
    the server to port 8000, or the listen on it, the run ends with
    status 1 and no server socket of the process is open at that point;
    the process has not listened, and after a refused bind it has not
    bound either. *)
Theorem port_in_use_fails_startup
    (L : Lib) (W : World) (inputs : list input) :
  w_bind_refused W 8000 = true \/ w_listen_refused W 8000 = true ->
  exists p,
    main L W inputs = (Exited 1, p)
    /\ server_socket p = None
    /\ ~ In EvListen (trace p)
    /\ (w_bind_refused W 8000 = true ->
        forall host port, ~ In (EvBind host port) (trace p)).
Proof.
  intros Hb.
  destruct (main_cases L W inputs)
    as [(e & _ & H)|[(_ & _ & H)|[(_ & _ & H)
        |[(_ & Hfree & _ & host & H)|(_ & Hfree & Hl & _)]]]];
    [| | | |destruct Hb; congruence];
    eexists; (split; [exact H|]); cbn [server_socket trace started app];
    (split; [reflexivity|]); split.
  all: try (intros Hr host' port; try congruence).
  all: cbn [In]; intros Hin; repeat destruct Hin as [Hin|Hin];
    try discriminate Hin; assumption.
Qed.

(** The theorem on the sample installation when the bind is refused, as
    it is while another process listens on port 8000 at the address of
    the server. *)
Lemma port_in_use_fails_startup_witness :
  exists p,
    main sample_lib (sample_world (Some sample_dist) true) [] = (Exited 1, p)
    /\ server_socket p = None
    /\ ~ In EvListen (trace p)
    /\ (w_bind_refused (sample_world (Some sample_dist) true) 8000 = true ->
        forall host port, ~ In (EvBind host port) (trace p)).
Proof.
  apply (port_in_use_fails_startup sample_lib
           (sample_world (Some sample_dist) true) []).
  left; reflexivity.
Defined.

(** C8 as stated fails: a port that another process has bound does not
    by that make the startup fail.  [HTTPServer] sets SO_REUSEADDR on its
    socket, and the system accepts the bind when the other socket is
    bound and does not listen (or listens at an address of the other
    family).  On the sample installation in that situation the server
    comes up and listens on port 8000. *)
Lemma held_port_can_still_be_bound :
  let W := sample_world_port_held in
  w_port_held W 8000 = true
  /\ main sample_lib W []
     = (Waiting,
        mkProcess "/home/dev/repo/dist" (Some (Listening "0.0.0.0" 8000))
          [EvChdir "/home/dev/repo/app/../dist";
           EvPrint "===> Open your browser at http://localhost:8000/";
           EvSocket; EvBind "0.0.0.0" 8000; EvListen;
           EvPrint
             "Serving HTTP on 0.0.0.0 port 8000 (http://0.0.0.0:8000/) ..."]).
Proof. cbv zeta; split; vm_compute; reflexivity. Qed.

(** ** Arguments and environment (C9) *)

(** C9.  The run does not depend on the arguments or the environment of
    the invocation: started with others on the same machine it does the
    same things and reaches the same state, the same serving directory
    included; the only port the process ever binds is 8000; and whenever
    the directory can be entered, an address is found and the system
    accepts the bind and the listen, the process, whatever its arguments
    and environment, binds port 8000, listens on it and serves the
    connections from the real path of dist, until it is interrupted. *)
Theorem port_and_root_ignore_invocation
    (L : Lib) (W : World) (inputs : list input)
    (argv : list string) (environ : list (string * string)) :
  main L (with_invocation W argv environ) inputs = main L W inputs
  /\ Forall (fun e => match e with
                      | EvBind _ port => port = 8000%Z
                      | _ => True
                      end)
       (trace (snd (main L W inputs)))
  /\ forall host,
       os_chdir_error W (dist_path W) = None ->
       w_getaddrinfo W 8000 = Some host ->
       w_bind_refused W 8000 = false ->
       w_listen_refused W 8000 = false ->
       let root := w_realpath W (dist_path W) in
       let up := app (listening_trace W host) (served_events L W root inputs) in
       main L (with_invocation W argv environ) inputs
       = if interrupted inputs then
           (Exited 0,
            mkProcess root None (app up [EvPrint interrupt_message; EvClose]))
         else (Waiting, mkProcess root (Some (Listening host 8000)) up).
Proof.
  split; [reflexivity|]. split.
  - destruct (main_cases L W inputs)
      as [(e & _ & H)|[(_ & _ & H)|[(_ & _ & H)
          |[(_ & _ & _ & host & H)|(_ & _ & _ & H)]]]].
    1-4: rewrite H; cbn [snd trace started app]; repeat constructor.
    destruct H as (host & served & tail & Hall & Htail & _ & ->).
    cbn [trace started app]. repeat constructor.
    apply Forall_app; split.
    + eapply Forall_impl; [|exact Hall]. intros [] He; try exact I; destruct He.
    + destruct Htail as [(-> & _)|(-> & _)]; repeat constructor.
  - intros host Hc Ha Hb Hl.
    exact (main_run L W inputs host Hc Ha Hb Hl).
Qed.

(** The theorem on the sample installation, started with the arguments
    --port 9000 and with PORT=9000 in the environment, one connection
    arriving: the process listens on port 8000 and serves the page of
    dist. *)
Lemma port_and_root_ignore_invocation_witness :
  let W := sample_world (Some sample_dist) false in
  let inputs := [Conn 0 [sample_request "GET /index.html HTTP/1.0" []]] in
  main sample_lib (with_invocation W ["--port"; "9000"] [("PORT", "9000")])
    inputs
  = (Waiting,
     mkProcess "/home/dev/repo/dist" (Some (Listening "0.0.0.0" 8000))
       (app (listening_trace W "0.0.0.0")
          (served_events sample_lib W "/home/dev/repo/dist" inputs))).
Proof.
  cbv zeta.
  apply (proj2 (proj2 (port_and_root_ignore_invocation sample_lib
                         (sample_world (Some sample_dist) false)
                         [Conn 0 [sample_request "GET /index.html HTTP/1.0" []]]
                         ["--port"; "9000"] [("PORT", "9000")])) "0.0.0.0");
    reflexivity.
Defined.

(** ** The change of directory at import (C10) *)




(** * Further properties of the script *)

(** ** The method [end_headers] of [RequestHandler] *)

(** X1.  [RequestHandler.end_headers] returns whatever the state of the
    handler: also when no header has been buffered since the handler was
    created, where the inherited [end_headers], called alone on a request
    that is not HTTP/0.9, raises AttributeError. *)
Theorem end_headers_never_raises (h : handler) :
  fst (RequestHandler.end_headers h) = Ok tt
  /\ (request_version h <> "HTTP/0.9" -> _headers_buffer h = None ->
      fst (SimpleHTTPRequestHandler.end_headers h)
      = Raise (AttributeError "_headers_buffer")).
Proof.
  split.
  - destruct (String.eqb_spec (request_version h) "HTTP/0.9") as [Hv|Hv].
    + now rewrite end_headers_legacy.
    + now rewrite end_headers_run.
  - intros Hv Hb; apply version_eqb in Hv.
    unfold SimpleHTTPRequestHandler.end_headers,
      BaseHTTPRequestHandler.end_headers, bind, get.
    now rewrite Hv, Hb.
Qed.

(** The theorem at a handler that has just been created for an HTTP/1.0
    request. *)
Lemma end_headers_never_raises_witness :
  let h := set_request_version "HTTP/1.0" sample_handler in
  fst (RequestHandler.end_headers h) = Ok tt
  /\ fst (SimpleHTTPRequestHandler.end_headers h)
     = Raise (AttributeError "_headers_buffer").
Proof.
  cbv zeta.
  destruct (end_headers_never_raises
              (set_request_version "HTTP/1.0" sample_handler)) as [H1 H2].
  split; [exact H1 | apply H2; [discriminate | reflexivity]].
Defined.

(** X2.  On a request that is not HTTP/0.9, [RequestHandler.end_headers]
    writes the lines waiting in the buffer, then the line
    Cross-Origin-Opener-Policy: same-origin, then the line
    Cross-Origin-Embedder-Policy: require-corp, then the blank line; it
    leaves the buffer empty and every other attribute of the handler, the
    flag [close_connection] among them, as it was. *)
Theorem end_headers_completes_header_section (h : handler) :
  request_version h <> "HTTP/0.9" ->
  RequestHandler.end_headers h
  = (Ok tt,
     set_headers_buffer (Some [])
       (set_wfile
          (wfile h ++ join_bytes (buffer_of h)
           ++ "Cross-Origin-Opener-Policy: same-origin" ++ CRLF
           ++ "Cross-Origin-Embedder-Policy: require-corp" ++ CRLF
           ++ CRLF) h)).
Proof.
  intros Hv; rewrite (end_headers_run h Hv).
  now rewrite join_bytes_app.
Qed.

(** The theorem at a handler with a status line in its buffer. *)
Lemma end_headers_completes_header_section_witness :
  let h := set_headers_buffer (Some ["HTTP/1.0 200 OK" ++ CRLF])
             (set_request_version "HTTP/1.0" sample_handler) in
  RequestHandler.end_headers h
  = (Ok tt,
     set_headers_buffer (Some [])
       (set_wfile
          (wfile h ++ join_bytes (buffer_of h)
           ++ "Cross-Origin-Opener-Policy: same-origin" ++ CRLF
           ++ "Cross-Origin-Embedder-Policy: require-corp" ++ CRLF
           ++ CRLF) h)).
Proof.
  cbv zeta.
  apply (end_headers_completes_header_section
           (set_headers_buffer (Some ["HTTP/1.0 200 OK" ++ CRLF])
              (set_request_version "HTTP/1.0" sample_handler))).
  discriminate.
Defined.

(** X3.  On an HTTP/0.9 request [RequestHandler.end_headers] does
    nothing: no byte is written, the buffer is not flushed and no
    attribute of the handler changes. *)
Theorem end_headers_silent_on_http09 (h : handler) :
  request_version h = "HTTP/0.9" ->
  RequestHandler.end_headers h = (Ok tt, h).
Proof.
  intros Hv.
  destruct h as [d pv tn rv c p hs cc hb w]; cbn [request_version] in Hv.
  subst rv; reflexivity.
Qed.

(** The theorem at the handler of a request line without a version. *)
Lemma end_headers_silent_on_http09_witness :
  let h := set_request_version "HTTP/0.9" sample_handler in
  RequestHandler.end_headers h = (Ok tt, h).
Proof.
  cbv zeta.
  apply (end_headers_silent_on_http09
           (set_request_version "HTTP/0.9" sample_handler)).
  reflexivity.
Defined.

(** ** HEAD requests and directories *)

(** X4.  A HEAD request that is not HTTP/0.9, for a path that names a
    file that can be read, last modified in the years 1 to 9999, the
    browser cache not in play, is answered with status 200 and the headers
    a GET gets, Content-Length the length of the file, the two isolation
    headers last, and no body. *)
Theorem head_sends_headers_only
    (L : Lib) (W : World) (h : handler) (content : string) (mtime : Z) :
  idle h -> request_version h <> "HTTP/0.9" ->
  let p := SimpleHTTPRequestHandler.translate_path L (directory h) (path h) in
  lookup W p = Some (File true content mtime) ->
  endswith_char p slash = false ->
  representable mtime = true ->
  SimpleHTTPRequestHandler.not_modified L (headers h) mtime = Some false ->
  exists h',
    RequestHandler.do_HEAD L W h = (Ok tt, h')
    /\ wfile h'
       = wfile h
         ++ header_block
              (status_line (protocol_version h) 200 (reason L 200 None))
              [("Server", version_string L);
               ("Date", date_time_string L (time_now h));
               ("Content-type", SimpleHTTPRequestHandler.guess_type L p);
               ("Content-Length", str_of_nat (String.length content));
               ("Last-Modified", date_time_string L (mtime / 1000000)%Z)].
Proof.
  intros Hidle Hv p Hl Hs Hrep Hnm.
  eexists; split.
  - apply (do_HEAD_of_send_head L W h _
             (Some (mkFileobj (Some p) content mtime))).
    now apply send_head_file_found.
  - rewrite responded_wfile. now rewrite append_nil_r.
Qed.

(** The theorem at HEAD /index.html HTTP/1.0 on the sample installation. *)
Lemma head_sends_headers_only_witness :
  let W := sample_world (Some sample_dist) false in
  let h := set_path "/index.html"
             (set_command (Some "HEAD")
                (set_request_version "HTTP/1.0" sample_handler)) in
  exists h',
    RequestHandler.do_HEAD sample_lib W h = (Ok tt, h')
    /\ wfile h'
       = header_block (status_line "HTTP/1.0" 200 "OK")
           [("Server", "SimpleHTTP/0.6 Python/3.11.2");
            ("Date", "Thu, 01 Jan 1970 00:00:00 GMT");
            ("Content-type", "text/html");
            ("Content-Length", "11");
            ("Last-Modified", "Thu, 01 Jan 1970 00:00:05 GMT")].
Proof.
  cbv zeta.
  apply (head_sends_headers_only sample_lib
           (sample_world (Some sample_dist) false)
           (set_path "/index.html"
              (set_command (Some "HEAD")
                 (set_request_version "HTTP/1.0" sample_handler)))
           "<h1>hi</h1>" 5000000);
    [reflexivity | discriminate | reflexivity | reflexivity | reflexivity
    | reflexivity].
Defined.

(** X5.  A GET or HEAD request that is not HTTP/0.9, for a path that
    names a directory and whose path part, as [urlsplit] gives it, does
    not end in a slash, is answered with status 301, the header Location
    (the path with the slash added), the header Content-Length: 0, the two
    isolation headers, and no body. *)
Theorem directory_without_slash_redirects
    (L : Lib) (W : World) (h : handler) (parts_path : string) :
  idle h -> request_version h <> "HTTP/0.9" ->
  os_path_isdir W
    (SimpleHTTPRequestHandler.translate_path L (directory h) (path h))
  = true ->
  urlsplit_path L (path h) = Some parts_path ->
  endswith_char parts_path slash = false ->
  let h' :=
    responded (status_line (protocol_version h) 301 (reason L 301 None))
      [("Server", version_string L);
       ("Date", date_time_string L (time_now h));
       ("Location", redirect_url L (path h));
       ("Content-Length", "0")] "" h in
  RequestHandler.do_GET L W h = (Ok tt, h')
  /\ RequestHandler.do_HEAD L W h = (Ok tt, h').
Proof.
  intros Hidle Hv Hd Hu Hs h'.
  pose proof (send_head_redirect L W h parts_path Hv Hidle Hd Hu Hs) as Hr.
  split.
  - now rewrite (do_GET_of_send_head L W h _ _ Hr).
  - now rewrite (do_HEAD_of_send_head L W h _ _ Hr).
Qed.

(** The theorem at GET /assets HTTP/1.0 on the sample site. *)
Lemma directory_without_slash_redirects_witness :
  let h := sample_parsed "GET" "/assets" in
  let h' :=
    responded (status_line "HTTP/1.0" 301 "Moved Permanently")
      [("Server", "SimpleHTTP/0.6 Python/3.11.2");
       ("Date", "Thu, 01 Jan 1970 00:00:00 GMT");
       ("Location", "/assets/");
       ("Content-Length", "0")] "" h in
  RequestHandler.do_GET sample_lib sample_site h = (Ok tt, h')
  /\ RequestHandler.do_HEAD sample_lib sample_site h = (Ok tt, h').
Proof.
  cbv zeta.
  apply (directory_without_slash_redirects sample_lib sample_site
           (sample_parsed "GET" "/assets") "/assets");
    [reflexivity | discriminate | reflexivity | reflexivity | reflexivity].
Defined.

(** X6.  A GET request that is not HTTP/0.9, for a directory asked for
    with its final slash, is answered with the file index.html of that
    directory when there is one that can be read (last modified in the
    years 1 to 9999, the browser cache not in play), whether or not the
    directory also holds index.htm; index.htm is served that way when
    index.html is no file.  The directory is not listed. *)
Theorem directory_index_is_served
    (L : Lib) (W : World) (h : handler) (parts_path name content : string)
    (mtime : Z) :
  idle h -> request_version h <> "HTTP/0.9" ->
  let p := SimpleHTTPRequestHandler.translate_path L (directory h) (path h) in
  os_path_isdir W p = true ->
  urlsplit_path L (path h) = Some parts_path ->
  endswith_char parts_path slash = true ->
  name = "index.html"
  \/ (name = "index.htm"
      /\ os_path_isfile W (posixpath.join p "index.html") = false) ->
  lookup W (posixpath.join p name) = Some (File true content mtime) ->
  representable mtime = true ->
  SimpleHTTPRequestHandler.not_modified L (headers h) mtime = Some false ->
  RequestHandler.do_GET L W h
  = (Ok tt,
     responded (status_line (protocol_version h) 200 (reason L 200 None))
       [("Server", version_string L);
        ("Date", date_time_string L (time_now h));
        ("Content-type",
         SimpleHTTPRequestHandler.guess_type L (posixpath.join p name));
        ("Content-Length", str_of_nat (String.length content));
        ("Last-Modified", date_time_string L (mtime / 1000000)%Z)]
       content h).
Proof.
  intros Hidle Hv p Hd Hu Hs Hname Hl Hrep Hnm.
  set (f := mkFileobj (Some (posixpath.join p name)) content mtime).
  assert (Ho : py_open W (posixpath.join p name) = Opened f)
    by (unfold py_open; now rewrite Hl).
  assert (Hf : os_path_isfile W (posixpath.join p name) = true)
    by (unfold os_path_isfile; now rewrite Hl).
  assert (Hsimple : simple_name name).
  { destruct Hname as [-> | [-> _]];
      [apply simple_index_html | apply simple_index_htm]. }
  assert (Hhead : RequestHandler.send_head L W h
                  = (Ok (Some f),
                     responded
                       (status_line (protocol_version h) 200 (reason L 200 None))
                       (file_headers L h (posixpath.join p name) f) "" h)).
  { rewrite (send_head_directory L W h parts_path Hd Hu Hs); fold p.
    destruct Hname as [-> | [-> Hno]].
    - rewrite Hf.
      apply send_head_file_ok; try assumption. now apply index_no_slash.
    - rewrite Hno, Hf.
      apply send_head_file_ok; try assumption. now apply index_no_slash. }
  rewrite (do_GET_of_send_head L W h _ _ Hhead).
  now rewrite responded_body.
Qed.

(** The theorem at GET /docs/ HTTP/1.0 on the sample site, where docs
    holds index.html and index.htm. *)
Lemma directory_index_is_served_witness :
  let h := sample_parsed "GET" "/docs/" in
  lookup sample_site "/home/dev/repo/dist/docs/index.htm"
  = Some (File true "<p>old</p>" 5000000)
  /\ RequestHandler.do_GET sample_lib sample_site h
     = (Ok tt,
        responded (status_line "HTTP/1.0" 200 "OK")
          [("Server", "SimpleHTTP/0.6 Python/3.11.2");
           ("Date", "Thu, 01 Jan 1970 00:00:00 GMT");
           ("Content-type", "text/html");
           ("Content-Length", "11");
           ("Last-Modified", "Thu, 01 Jan 1970 00:00:05 GMT")]
          "<p>docs</p>" h).
Proof.
  cbv zeta; split; [reflexivity|].
  apply (directory_index_is_served sample_lib sample_site
           (sample_parsed "GET" "/docs/") "/docs/" "index.html" "<p>docs</p>"
           5000000);
    [reflexivity | discriminate | reflexivity | reflexivity | reflexivity
    | left; reflexivity | reflexivity | reflexivity | reflexivity].
Defined.

(** X7.  A GET request that is not HTTP/0.9, for a directory asked for
    with its final slash that holds neither index.html nor index.htm and
    can be read, its listing encodable in the encoding of the file system,
    is answered with status 200, the page that lists the entries of the
    directory as the body and its length as Content-Length. *)
Theorem directory_without_index_is_listed
    (L : Lib) (W : World) (h : handler) (parts_path : string)
    (list : list string) (page : string) :
  idle h -> request_version h <> "HTTP/0.9" ->
  let p := SimpleHTTPRequestHandler.translate_path L (directory h) (path h) in
  os_path_isdir W p = true ->
  urlsplit_path L (path h) = Some parts_path ->
  endswith_char parts_path slash = true ->
  os_path_isfile W (posixpath.join p "index.html") = false ->
  os_path_isfile W (posixpath.join p "index.htm") = false ->
  os_listdir W p = Some list ->
  listing_page L W h p list = Some page ->
  RequestHandler.do_GET L W h
  = (Ok tt,
     responded (status_line (protocol_version h) 200 (reason L 200 None))
       [("Server", version_string L);
        ("Date", date_time_string L (time_now h));
        ("Content-type", "text/html; charset=" ++ filesystemencoding L);
        ("Content-Length", str_of_nat (String.length page))]
       page h).
Proof.
  intros Hidle Hv p Hd Hu Hs H1 H2 Hlist Hpage.
  assert (Hhead : RequestHandler.send_head L W h
                  = (Ok (Some (mkFileobj None page 0)),
                     responded
                       (status_line (protocol_version h) 200 (reason L 200 None))
                       (listing_headers L h page) "" h)).
  { rewrite (send_head_directory L W h parts_path Hd Hu Hs); fold p.
    rewrite H1, H2. now apply (list_directory_ok L W p list page). }
  rewrite (do_GET_of_send_head L W h _ _ Hhead); cbn [f_content].
  now rewrite responded_body.
Qed.

(** The theorem at GET /assets/ HTTP/1.0 on the sample site. *)
Lemma directory_without_index_is_listed_witness :
  let h := sample_parsed "GET" "/assets/" in
  RequestHandler.do_GET sample_lib sample_site h
  = (Ok tt,
     responded (status_line "HTTP/1.0" 200 "OK")
       [("Server", "SimpleHTTP/0.6 Python/3.11.2");
        ("Date", "Thu, 01 Jan 1970 00:00:00 GMT");
        ("Content-type", "text/html; charset=utf-8");
        ("Content-Length", "37")]
       ("Directory listing for /assets/" ++ LF ++ "app.js") h).
Proof.
  cbv zeta.
  apply (directory_without_index_is_listed sample_lib sample_site
           (sample_parsed "GET" "/assets/") "/assets/" ["app.js"]
           ("Directory listing for /assets/" ++ LF ++ "app.js"));
    [reflexivity | discriminate | reflexivity | reflexivity | reflexivity
    | reflexivity | reflexivity | reflexivity | reflexivity].
Defined.

(** X8.  A GET request that is not HTTP/0.9, for a directory asked for
    with its final slash that holds neither index file and cannot be read,
    is answered with status 404 and the message No permission to list
    directory, the isolation headers included; the entries of the
    directory are not sent. *)
Theorem unreadable_directory_is_404
    (L : Lib) (W : World) (h : handler) (parts_path : string) :
  idle h -> request_version h <> "HTTP/0.9" ->
  let p := SimpleHTTPRequestHandler.translate_path L (directory h) (path h) in
  os_path_isdir W p = true ->
  urlsplit_path L (path h) = Some parts_path ->
  endswith_char parts_path slash = true ->
  os_path_isfile W (posixpath.join p "index.html") = false ->
  os_path_isfile W (posixpath.join p "index.htm") = false ->
  os_listdir W p = None ->
  let message := "No permission to list directory" in
  RequestHandler.do_GET L W h
  = (Ok tt,
     set_close_connection true
       (responded (status_line (protocol_version h) 404 message)
          (error_headers L 404 (Some message) None h)
          (error_payload L 404 (Some message) None h) h)).
Proof.
  intros Hidle Hv p Hd Hu Hs H1 H2 Hlist message.
  assert (Hhead : RequestHandler.send_head L W h
                  = (Ok None, not_found L message h)).
  { rewrite (send_head_directory L W h parts_path Hd Hu Hs); fold p.
    rewrite H1, H2. now apply list_directory_denied. }
  now rewrite (do_GET_of_send_head L W h _ _ Hhead).
Qed.

(** The theorem at GET /private/ HTTP/1.0 on the sample site. *)
Lemma unreadable_directory_is_404_witness :
  let h := sample_parsed "GET" "/private/" in
  let message := "No permission to list directory" in
  RequestHandler.do_GET sample_lib sample_site h
  = (Ok tt,
     set_close_connection true
       (responded (status_line "HTTP/1.0" 404 message)
          (error_headers sample_lib 404 (Some message) None h)
          (error_payload sample_lib 404 (Some message) None h) h)).
Proof.
  cbv zeta.
  apply (unreadable_directory_is_404 sample_lib sample_site
           (sample_parsed "GET" "/private/") "/private/");
    [reflexivity | discriminate | reflexivity | reflexivity | reflexivity
    | reflexivity | reflexivity | reflexivity].
Defined.

(** ** One connection, one request *)

(** X9.  On the server [test] starts, which speaks HTTP/1.0, a connection
    carries one request: the handler answers the first request it reads
    and returns; whatever follows it on the connection is not read, a
    Connection: keep-alive header notwithstanding. *)
Theorem one_request_per_connection
    (L : Lib) (W : World) (h : handler) (r : request) (rest : list request) :
  protocol_version h = "HTTP/1.0" ->
  RequestHandler.handle L W (r :: rest) h = RequestHandler.handle L W [r] h.
Proof.
  intros Hp.
  now rewrite !(handle_first_request L W r _ h Hp).
Qed.

(** The theorem at a connection on which two requests arrive, the first
    asking to keep the connection alive: the response is the one to the
    first request alone. *)
Lemma one_request_per_connection_witness :
  let W := sample_world (Some sample_dist) false in
  let first := sample_request "GET /index.html HTTP/1.0"
                 [("Connection", "keep-alive")] in
  let second := sample_request "GET /nope HTTP/1.0" [] in
  RequestHandler.handle sample_lib W [first; second] sample_handler
  = RequestHandler.handle sample_lib W [first] sample_handler.
Proof.
  cbv zeta.
  apply (one_request_per_connection sample_lib
           (sample_world (Some sample_dist) false) sample_handler).
  reflexivity.
Defined.

(** ** The request line *)

(** X10.  A request line of more than 65536 bytes is not parsed: it is
    answered with status 414, the headers of an error response with the
    two isolation headers, and the error page, and the connection is to be
    closed. *)
Theorem long_request_line_is_414
    (L : Lib) (W : World) (req : request) (h : handler) :
  idle h ->
  (65536 < Z.of_nat (String.length (raw_requestline req)))%Z ->
  exists h',
    RequestHandler.handle_one_request L W req h = (Ok tt, h')
    /\ wfile h'
       = wfile h
         ++ header_block
              (status_line (protocol_version h) 414 (error_message L 414 None))
              (error_headers L 414 None None h)
         ++ error_page L 414 None None
    /\ close_connection h' = true.
Proof.
  intros Hidle Hlen.
  unfold RequestHandler.handle_one_request,
    SimpleHTTPRequestHandler.handle_one_request,
    BaseHTTPRequestHandler.handle_one_request.
  apply Z.ltb_lt in Hlen; rewrite Hlen, !bind_modify.
  fold (SimpleHTTPRequestHandler.send_error L RequestHandler.end_headers).
  fold (RequestHandler.send_error L).
  rewrite send_error_spec; [|discriminate|exact Hidle].
  eexists; split; [reflexivity|]; split; reflexivity.
Qed.

(** The theorem at a request line of 65537 bytes. *)
Lemma long_request_line_is_414_witness :
  let W := sample_world (Some sample_dist) false in
  let req := mkRequest sample_long_line (HeadersOk []) in
  exists h',
    RequestHandler.handle_one_request sample_lib W req sample_handler
    = (Ok tt, h')
    /\ wfile h'
       = header_block (status_line "HTTP/1.0" 414 "Request-URI Too Long")
           (error_headers sample_lib 414 None None sample_handler)
         ++ error_page sample_lib 414 None None
    /\ close_connection h' = true.
Proof.
  cbv zeta.
  apply (long_request_line_is_414 sample_lib
           (sample_world (Some sample_dist) false)
           (mkRequest sample_long_line (HeadersOk [])) sample_handler).
  - reflexivity.
  - vm_compute; reflexivity.
Defined.

(** X11.  On the server [test] starts, a request line of three words
    whose version is accepted and is not HTTP/0.9, and whose method is
    neither GET nor HEAD, is answered with status 501 and the message
    Unsupported method, the two isolation headers included, and the error
    page; no file is looked up. *)
Theorem unsupported_method_is_501
    (L : Lib) (W : World) (req : request) (h : handler)
    (cmd p v bvn : string) (vn : Z * Z) (hs : list (string * string)) :
  idle h -> protocol_version h = "HTTP/1.0" ->
  (Z.of_nat (String.length (raw_requestline req)) <= 65536)%Z ->
  py_split (rstrip is_crlf (raw_requestline req)) = [cmd; p; v] ->
  BaseHTTPRequestHandler.version_number L v = Some (bvn, vn) ->
  BaseHTTPRequestHandler.pair_geb vn 2 0 = false ->
  v <> "HTTP/0.9" ->
  parsed_headers req = HeadersOk hs ->
  cmd <> "GET" -> cmd <> "HEAD" ->
  let message := "Unsupported method (" ++ py_repr L cmd ++ ")" in
  exists h',
    RequestHandler.handle_one_request L W req h = (Ok tt, h')
    /\ wfile h'
       = wfile h
         ++ header_block (status_line "HTTP/1.0" 501 message)
              (error_headers L 501 (Some message) None h)
         ++ error_page L 501 (Some message) None
    /\ close_connection h' = true.
Proof.
  intros Hidle Hp Hlen Hw Hver Hvn Hv Hhs Hget Hhead message.
  rewrite (handle_one_request_accepted L W req h cmd p v bvn vn hs)
    by assumption.
  unfold SimpleHTTPRequestHandler.self_do.
  apply String.eqb_neq in Hget, Hhead. rewrite Hget, Hhead.
  rewrite send_error_spec; [|exact Hv|exact Hidle].
  eexists; split; [reflexivity|]; split; [|reflexivity].
  unfold responded; cbn [wfile set_close_connection set_headers_buffer set_wfile].
  unfold parsed_request at 1 2; cbn [wfile protocol_version]; rewrite Hp.
  unfold error_payload, BaseHTTPRequestHandler.not_head, parsed_request;
    cbn [command]; rewrite Hhead.
  reflexivity.
Qed.

(** The theorem at POST /index.html HTTP/1.0 on the sample
    installation. *)
Lemma unsupported_method_is_501_witness :
  let W := sample_world (Some sample_dist) false in
  let req := sample_request "POST /index.html HTTP/1.0" [] in
  let message := "Unsupported method ('POST')" in
  exists h',
    RequestHandler.handle_one_request sample_lib W req sample_handler
    = (Ok tt, h')
    /\ wfile h'
       = header_block (status_line "HTTP/1.0" 501 message)
           (error_headers sample_lib 501 (Some message) None sample_handler)
         ++ error_page sample_lib 501 (Some message) None
    /\ close_connection h' = true.
Proof.
  cbv zeta.
  apply (unsupported_method_is_501 sample_lib
           (sample_world (Some sample_dist) false)
           (sample_request "POST /index.html HTTP/1.0" []) sample_handler
           "POST" "/index.html" "HTTP/1.0" "1.0" (1, 0)%Z []).
  - reflexivity.
  - reflexivity.
  - vm_compute; discriminate.
  - reflexivity.
  - reflexivity.
  - reflexivity.
  - discriminate.
  - reflexivity.
  - discriminate.
  - discriminate.
Defined.

(** X12.  On the server [test] starts, a request line of the three words
    GET (or HEAD), a path and an accepted version, with header fields that
    parse, is handled by [do_GET] (or [do_HEAD]) on a handler that holds
    the command, the path with two or more slashes at its start reduced to
    one, the version and the header fields, with the connection to be
    closed; nothing has been written before the method runs. *)
Theorem request_line_selects_method
    (L : Lib) (W : World) (req : request) (h : handler)
    (cmd p v bvn : string) (vn : Z * Z) (hs : list (string * string)) :
  protocol_version h = "HTTP/1.0" ->
  (Z.of_nat (String.length (raw_requestline req)) <= 65536)%Z ->
  py_split (rstrip is_crlf (raw_requestline req)) = [cmd; p; v] ->
  BaseHTTPRequestHandler.version_number L v = Some (bvn, vn) ->
  BaseHTTPRequestHandler.pair_geb vn 2 0 = false ->
  parsed_headers req = HeadersOk hs ->
  let h1 :=
    mkHandler (directory h) "HTTP/1.0" (time_now h) v (Some cmd)
      (if startswith p "//"
       then "/" ++ lstrip (fun a => Ascii.eqb a slash) p else p)
      hs true (_headers_buffer h) (wfile h) in
  (cmd = "GET" ->
   RequestHandler.handle_one_request L W req h = RequestHandler.do_GET L W h1)
  /\ (cmd = "HEAD" ->
      RequestHandler.handle_one_request L W req h
      = RequestHandler.do_HEAD L W h1).
Proof.
  intros Hp Hlen Hw Hver Hvn Hhs h1.
  assert (Hh1 : parsed_request h cmd p v hs = h1).
  { unfold parsed_request, collapse_slashes, h1. now rewrite Hp. }
  rewrite (handle_one_request_accepted L W req h cmd p v bvn vn hs)
    by assumption.
  rewrite Hh1.
  split; intros ->; reflexivity.
Qed.

(** The theorem at GET //index.html HTTP/1.0 with a Connection:
    keep-alive header on the sample installation. *)
Lemma request_line_selects_method_witness :
  let W := sample_world (Some sample_dist) false in
  let hs := [("Connection", "keep-alive")] in
  let req := sample_request "GET //index.html HTTP/1.0" hs in
  let h1 :=
    mkHandler "/home/dev/repo/dist" "HTTP/1.0" 0 "HTTP/1.0" (Some "GET")
      "/index.html" hs true None "" in
  RequestHandler.handle_one_request sample_lib W req sample_handler
  = RequestHandler.do_GET sample_lib W h1.
Proof.
  cbv zeta.
  refine (proj1
            (request_line_selects_method sample_lib
               (sample_world (Some sample_dist) false)
               (sample_request "GET //index.html HTTP/1.0"
                  [("Connection", "keep-alive")])
               sample_handler "GET" "//index.html" "HTTP/1.0" "1.0" (1, 0)%Z
               [("Connection", "keep-alive")] _ _ _ _ _ _) eq_refl).
  - reflexivity.
  - vm_compute; discriminate.
  - reflexivity.
  - reflexivity.
  - reflexivity.
  - reflexivity.
Defined.

(** X13.  On the server [test] starts, the path of a request that
    [parse_request] accepts never begins with two slashes, whatever the
    request line: a redirect built from it cannot name another host. *)
Theorem accepted_path_has_one_leading_slash
    (L : Lib) (req : request) (h h' : handler) :
  protocol_version h = "HTTP/1.0" ->
  BaseHTTPRequestHandler.parse_request L RequestHandler.end_headers req h
  = (Ok true, h') ->
  startswith (path h') "//" = false.
Proof.
  intros Hp Hparse.
  destruct (parse_request_path L req h h' Hp Hparse) as [p ->].
  apply collapse_slashes_single.
Qed.

(** The theorem at GET //evil.example/x HTTP/1.0. *)
Lemma accepted_path_has_one_leading_slash_witness :
  let req := sample_request "GET //evil.example/x HTTP/1.0" [] in
  let h' := parsed_request sample_handler "GET" "//evil.example/x"
              "HTTP/1.0" [] in
  path h' = "/evil.example/x" /\ startswith (path h') "//" = false.
Proof.
  cbv zeta; split; [reflexivity|].
  apply (accepted_path_has_one_leading_slash sample_lib
           (sample_request "GET //evil.example/x HTTP/1.0" [])
           sample_handler);
    reflexivity.
Defined.


(** ** The run, connection by connection *)

(** X14.  In a run of the script that reaches the accept loop, every
    connection accepted before the first interrupt is answered by a new
    handler whose directory is the directory the module changed to, the
    real path of dist: the process records one accept and one send for
    each, in the order of arrival, the bytes sent depending on that
    directory, the clock and the requests of that connection alone.  The
    working directory stays the same throughout; the socket keeps
    listening until the interrupt. *)
Theorem run_serves_each_connection_from_root
    (L : Lib) (W : World) (inputs : list input) (host : string) :
  os_chdir_error W (dist_path W) = None ->
  w_getaddrinfo W 8000 = Some host ->
  w_bind_refused W 8000 = false ->
  w_listen_refused W 8000 = false ->
  let root := w_realpath W (dist_path W) in
  let p := snd (main L W inputs) in
  cwd p = root
  /\ trace p
     = app [EvChdir (dist_path W); EvPrint startup_message;
            EvSocket; EvBind host 8000; EvListen;
            EvPrint (serving_message host 8000)]
         (app (served_events L W root inputs)
            (if interrupted inputs
             then [EvPrint interrupt_message; EvClose] else []))
  /\ server_socket p
     = (if interrupted inputs then None else Some (Listening host 8000)).
Proof.
  intros Hc Ha Hb Hl root p; subst p.
  rewrite (main_run L W inputs host Hc Ha Hb Hl); cbv zeta.
  destruct (interrupted inputs); cbn [snd cwd trace server_socket];
    unfold listening_trace, started; cbn [trace app];
    rewrite ?app_nil_r; repeat split; reflexivity.
Qed.

(** The theorem at two connections on the sample installation, the first
    asking for the page, the second for a path that names nothing. *)
Lemma run_serves_each_connection_from_root_witness :
  let W := sample_world (Some sample_dist) false in
  let c1 := Conn 0 [sample_request "GET /index.html HTTP/1.0" []] in
  let c2 := Conn 7 [sample_request "GET /nope HTTP/1.0" []] in
  let p := snd (main sample_lib W [c1; c2]) in
  cwd p = "/home/dev/repo/dist"
  /\ trace p
     = [EvChdir "/home/dev/repo/app/../dist"; EvPrint startup_message;
        EvSocket; EvBind "0.0.0.0" 8000; EvListen;
        EvPrint (serving_message "0.0.0.0" 8000);
        EvAccept;
        EvSend (response_of sample_lib W "/home/dev/repo/dist" 0
                  [sample_request "GET /index.html HTTP/1.0" []]);
        EvAccept;
        EvSend (response_of sample_lib W "/home/dev/repo/dist" 7
                  [sample_request "GET /nope HTTP/1.0" []])]
  /\ server_socket p = Some (Listening "0.0.0.0" 8000).
Proof.
  cbv zeta.
  apply (run_serves_each_connection_from_root sample_lib
           (sample_world (Some sample_dist) false)
           [Conn 0 [sample_request "GET /index.html HTTP/1.0" []];
            Conn 7 [sample_request "GET /nope HTTP/1.0" []]] "0.0.0.0");
    reflexivity.
Defined.

(** X15.  When the interrupt arrives while the script serves, the process
    prints the line of [test], closes the server socket and exits with
    status 0; connections that arrive after the interrupt are not
    accepted, so the run is the same as if nothing had followed it. *)
Theorem interrupt_ends_the_run
    (L : Lib) (W : World) (conns rest : list input) (host : string) :
  os_chdir_error W (dist_path W) = None ->
  w_getaddrinfo W 8000 = Some host ->
  w_bind_refused W 8000 = false ->
  w_listen_refused W 8000 = false ->
  main L W (app conns (Interrupt :: rest)) = main L W (app conns [Interrupt])
  /\ fst (main L W (app conns (Interrupt :: rest))) = Exited 0
  /\ server_socket (snd (main L W (app conns (Interrupt :: rest)))) = None
  /\ exists before,
       trace (snd (main L W (app conns (Interrupt :: rest))))
       = app before [EvPrint interrupt_message; EvClose].
Proof.
  intros Hc Ha Hb Hl.
  rewrite !(main_run L W _ host Hc Ha Hb Hl); cbv zeta.
  destruct (served_events_interrupt L W conns rest
              (w_realpath W (dist_path W))) as (-> & -> & ->).
  repeat split; eexists; reflexivity.
Qed.

(** The theorem at one connection, then the interrupt, then one more
    connection on the sample installation. *)
Lemma interrupt_ends_the_run_witness :
  let W := sample_world (Some sample_dist) false in
  let c := Conn 0 [sample_request "GET /index.html HTTP/1.0" []] in
  main sample_lib W [c; Interrupt; c] = main sample_lib W [c; Interrupt]
  /\ fst (main sample_lib W [c; Interrupt; c]) = Exited 0
  /\ server_socket (snd (main sample_lib W [c; Interrupt; c])) = None
  /\ exists before,
       trace (snd (main sample_lib W [c; Interrupt; c]))
       = app before [EvPrint interrupt_message; EvClose].
Proof.
  cbv zeta.
  apply (interrupt_ends_the_run sample_lib
           (sample_world (Some sample_dist) false)
           [Conn 0 [sample_request "GET /index.html HTTP/1.0" []]]
           [Conn 0 [sample_request "GET /index.html HTTP/1.0" []]] "0.0.0.0");
    reflexivity.
Defined.

(** ** Paths *)

(** X16.  [translate_path] looks at the request path up to its first [?]
    or [#] only: a query or a fragment added to a path does not change the
    file system path it maps to. *)
Theorem translate_path_ignores_query_and_fragment
    (L : Lib) (d p q : string) :
  SimpleHTTPRequestHandler.translate_path L d (p ++ "?" ++ q)
  = SimpleHTTPRequestHandler.translate_path L d p
  /\ SimpleHTTPRequestHandler.translate_path L d (p ++ "#" ++ q)
     = SimpleHTTPRequestHandler.translate_path L d p.
Proof.
  change ("?" ++ q) with (String "?"%char q).
  change ("#" ++ q) with (String "#"%char q).
  unfold SimpleHTTPRequestHandler.translate_path.
  now rewrite split1_app_sep, split1_split1_app.
Qed.

(** X17.  [normpath] of a path that begins with a slash, as [abspath]
    applies it to the path of the script, is one or two slashes followed
    by simple names joined by single slashes: no empty component, no [.]
    and no [..] is left. *)
Theorem normpath_of_absolute_is_clean (p : string) :
  startswith p "/" = true ->
  exists k comps,
    (k = 1 \/ k = 2)%nat
    /\ Forall simple_name comps
    /\ posixpath.normpath p
       = posixpath.repeat_slash k ++ String.concat "/" comps.
Proof.
  intros Habs; unfold posixpath.normpath.
  destruct p as [|a p]; [discriminate|]; cbn [isempty]; rewrite Habs.
  set (k := if _ && _ then 2%nat else 1%nat).
  assert (Hk : (k = 1 \/ k = 2)%nat) by (subst k; destruct (_ && _); auto).
  exists k, (fold_left (posixpath.normpath_step k)
               (split_on slash (String a p)) []).
  split; [exact Hk|]; split.
  - apply normpath_loop_clean; [destruct Hk; lia | | constructor].
    apply Forall_forall; intros w Hw. now apply (split_on_no_sep slash (String a p)).
  - destruct Hk as [-> | ->]; reflexivity.
Qed.

(** The theorem at /a/../../etc/./passwd. *)
Lemma normpath_of_absolute_is_clean_witness :
  posixpath.normpath "/a/../../etc/./passwd" = "/etc/passwd"
  /\ exists k comps,
       (k = 1 \/ k = 2)%nat
       /\ Forall simple_name comps
       /\ posixpath.normpath "/a/../../etc/./passwd"
          = posixpath.repeat_slash k ++ String.concat "/" comps.
Proof.
  split; [reflexivity|].
  apply (normpath_of_absolute_is_clean "/a/../../etc/./passwd").
  reflexivity.
Defined.

(** ** The directory of the script *)

(** X18.  When the script is run by its absolute path, or by its bare
    name from the directory that holds it, and that directory is written
    with simple names, the directory the module changes to is that
    directory followed by /../dist: the working directory from which the
    script was started plays no part in the first case. *)
Theorem dist_path_is_beside_script_directory
    (W : World) (names : list string) (n : string) :
  names <> [] -> Forall simple_name names -> simple_name n ->
  w_file W = url_of (app names [n])
  \/ (w_file W = n /\ w_cwd W = url_of names) ->
  current_dir W = url_of names
  /\ dist_path W = url_of names ++ "/../dist".
Proof.
  intros Hne Hall Hn Hfile.
  destruct (url_of_shape names Hne Hall) as (Hnz & Hend & Habs).
  assert (Hie : forall x, isempty (url_of names ++ x) = false) by reflexivity.
  assert (Hie0 : isempty (url_of names) = false) by reflexivity.
  assert (Hsnoc : url_of (app names [n]) = url_of names ++ "/" ++ n).
  { unfold url_of. now rewrite (concat_snoc names n Hne), append_assoc. }
  assert (Hall' : Forall simple_name (app names [n]))
    by (apply Forall_app; split; [exact Hall | now constructor]).
  assert (Hne' : app names [n] <> []) by (destruct names; discriminate).
  assert (Habspath : posixpath.abspath (w_cwd W) (w_file W)
                     = url_of names ++ "/" ++ n).
  { unfold posixpath.abspath.
    destruct Hfile as [-> | [-> ->]].
    - destruct (url_of_shape _ Hne' Hall') as (_ & _ & ->).
      now rewrite (normpath_url _ Hne' Hall').
    - unfold posixpath.isabs, posixpath.join.
      rewrite (simple_name_not_abs n Hn), Hend.
      rewrite Hie0; cbn [orb].
      rewrite <- Hsnoc. now apply normpath_url. }
  assert (Hdir : current_dir W = url_of names).
  { unfold current_dir; rewrite Habspath.
    apply dirname_app; try assumption. apply Hn. }
  split; [exact Hdir|].
  unfold dist_path; rewrite Hdir; unfold posixpath.join.
  change (startswith ".." "/") with false.
  change (startswith "dist" "/") with false.
  rewrite Hend.
  rewrite !Hie0; cbn [orb].
  rewrite (endswith_char_app slash (url_of names) ("/" ++ ".."))
    by discriminate.
  change (endswith_char ("/" ++ "..") slash) with false.
  rewrite Hie; cbn [orb].
  now rewrite !append_assoc.
Qed.

(** The theorem at the script /home/dev/repo/app/devserver.py. *)
Lemma dist_path_is_beside_script_directory_witness :
  let W := sample_world (Some sample_dist) false in
  current_dir W = "/home/dev/repo/app"
  /\ dist_path W = "/home/dev/repo/app/../dist".
Proof.
  cbv zeta.
  apply (dist_path_is_beside_script_directory
           (sample_world (Some sample_dist) false)
           ["home"; "dev"; "repo"; "app"] "devserver.py").
  - discriminate.
  - repeat constructor; discriminate.
  - repeat constructor; discriminate.
  - left; reflexivity.
Defined.

(** ** More responses *)

(** X19.  A GET request that is not HTTP/0.9, for a file that can be
    read, with an If-Modified-Since date that parses and is not earlier
    than the last modification of the file, a time of the years 1 to 9999
    taken by its whole seconds, and no If-None-Match, is answered with
    status 304, the headers Server and Date and the two isolation
    headers, and nothing else: no Content-Length and no body. *)
Theorem unchanged_file_is_304
    (L : Lib) (W : World) (h : handler) (content : string) (mtime : Z) :
  idle h -> request_version h <> "HTTP/0.9" ->
  let p := SimpleHTTPRequestHandler.translate_path L (directory h) (path h) in
  lookup W p = Some (File true content mtime) ->
  endswith_char p slash = false ->
  SimpleHTTPRequestHandler.not_modified L (headers h) mtime = Some true ->
  RequestHandler.do_GET L W h
  = (Ok tt,
     responded (status_line (protocol_version h) 304 (reason L 304 None))
       [("Server", version_string L);
        ("Date", date_time_string L (time_now h))] "" h).
Proof.
  intros Hidle Hv p Hl Hs Hnm.
  assert (Ho : py_open W p = Opened (mkFileobj (Some p) content mtime))
    by (unfold py_open; now rewrite Hl).
  assert (Hhead : RequestHandler.send_head L W h
                  = (Ok None,
                     responded
                       (status_line (protocol_version h) 304 (reason L 304 None))
                       (standard_headers L h) "" h)).
  { rewrite send_head_not_dir
      by (unfold os_path_isdir; fold p; now rewrite Hl).
    fold p.
    now apply (send_head_file_not_modified L W p
                 (mkFileobj (Some p) content mtime)). }
  now rewrite (do_GET_of_send_head L W h _ _ Hhead).
Qed.

(** The theorem at GET /index.html HTTP/1.0 with an If-Modified-Since
    date five seconds after the last modification of the file. *)
Lemma unchanged_file_is_304_witness :
  let W := sample_world (Some sample_dist) false in
  let h := set_headers [("If-Modified-Since", "Thu, 01 Jan 1970 00:00:10 GMT")]
             (sample_parsed "GET" "/index.html") in
  RequestHandler.do_GET sample_lib W h
  = (Ok tt,
     responded (status_line "HTTP/1.0" 304 "Not Modified")
       [("Server", "SimpleHTTP/0.6 Python/3.11.2");
        ("Date", "Thu, 01 Jan 1970 00:00:00 GMT")] "" h).
Proof.
  cbv zeta.
  apply (unchanged_file_is_304 sample_lib
           (sample_world (Some sample_dist) false)
           (set_headers
              [("If-Modified-Since", "Thu, 01 Jan 1970 00:00:10 GMT")]
              (sample_parsed "GET" "/index.html"))
           "<h1>hi</h1>" 5000000);
    [reflexivity | discriminate | reflexivity | reflexivity | reflexivity].
Defined.

(** X20.  A GET request that is not HTTP/0.9, for a path that names a
    file that exists and cannot be opened for reading, is answered like a
    path that names nothing: status 404 File not found, the two isolation
    headers included, and none of the content of the file. *)
Theorem unreadable_file_is_404
    (L : Lib) (W : World) (h : handler) (content : string) (mtime : Z) :
  idle h -> request_version h <> "HTTP/0.9" ->
  lookup W (SimpleHTTPRequestHandler.translate_path L (directory h) (path h))
  = Some (File false content mtime) ->
  RequestHandler.do_GET L W h
  = (Ok tt,
     set_close_connection true
       (responded (status_line (protocol_version h) 404 "File not found")
          (error_headers L 404 (Some "File not found") None h)
          (error_payload L 404 (Some "File not found") None h) h)).
Proof.
  intros Hidle Hv Hl.
  assert (Hhead : RequestHandler.send_head L W h
                  = (Ok None, not_found L "File not found" h)).
  { rewrite send_head_not_dir by (unfold os_path_isdir; now rewrite Hl).
    apply send_head_file_missing; try assumption.
    unfold py_open; now rewrite Hl. }
  now rewrite (do_GET_of_send_head L W h _ _ Hhead).
Qed.

(** The theorem at GET /secret.txt HTTP/1.0 on the sample
    installation. *)
Lemma unreadable_file_is_404_witness :
  let W := sample_world (Some sample_dist) false in
  let h := sample_parsed "GET" "/secret.txt" in
  lookup W "/home/dev/repo/dist/secret.txt"
  = Some (File false "s3cret" 5000000)
  /\ RequestHandler.do_GET sample_lib W h
     = (Ok tt,
        set_close_connection true
          (responded (status_line "HTTP/1.0" 404 "File not found")
             (error_headers sample_lib 404 (Some "File not found") None h)
             (error_payload sample_lib 404 (Some "File not found") None h) h)).
Proof.
  cbv zeta; split; [reflexivity|].
  apply (unreadable_file_is_404 sample_lib
           (sample_world (Some sample_dist) false)
           (sample_parsed "GET" "/secret.txt") "s3cret" 5000000);
    [reflexivity | discriminate | reflexivity].
Defined.

(** ** Requests without a version *)

(** X21.  A GET request without a version (HTTP/0.9) for a file that can
    be read, last modified in the years 1 to 9999, the browser cache not
    in play, is answered with the content of the file and nothing else:
    no status line and no header, so neither isolation header, is
    written, and nothing is left in the buffer. *)
Theorem http09_get_sends_content_only
    (L : Lib) (W : World) (h : handler) (content : string) (mtime : Z) :
  request_version h = "HTTP/0.9" ->
  let p := SimpleHTTPRequestHandler.translate_path L (directory h) (path h) in
  lookup W p = Some (File true content mtime) ->
  endswith_char p slash = false ->
  representable mtime = true ->
  SimpleHTTPRequestHandler.not_modified L (headers h) mtime = Some false ->
  RequestHandler.do_GET L W h = (Ok tt, set_wfile (wfile h ++ content) h).
Proof.
  intros Hv p Hl Hs Hrep Hnm.
  assert (Ho : py_open W p = Opened (mkFileobj (Some p) content mtime))
    by (unfold py_open; now rewrite Hl).
  assert (Hhead : RequestHandler.send_head L W h
                  = (Ok (Some (mkFileobj (Some p) content mtime)), h)).
  { rewrite send_head_not_dir
      by (unfold os_path_isdir; fold p; now rewrite Hl).
    fold p.
    rewrite (send_head_file_legacy L W p _ h Hv Hs Ho); cbn [f_mtime_us].
    now rewrite Hnm, Hrep. }
  now rewrite (do_GET_of_send_head L W h _ _ Hhead).
Qed.

(** The theorem at the request line GET /index.html on the sample
    installation. *)
Lemma http09_get_sends_content_only_witness :
  let W := sample_world (Some sample_dist) false in
  let h := set_path "/index.html"
             (set_command (Some "GET")
                (set_request_version "HTTP/0.9" sample_handler)) in
  RequestHandler.do_GET sample_lib W h = (Ok tt, set_wfile "<h1>hi</h1>" h).
Proof.
  cbv zeta.
  apply (http09_get_sends_content_only sample_lib
           (sample_world (Some sample_dist) false)
           (set_path "/index.html"
              (set_command (Some "GET")
                 (set_request_version "HTTP/0.9" sample_handler)))
           "<h1>hi</h1>" 5000000);
    reflexivity.
Defined.

(** X22.  A request line of three or more words whose version is 2.0 or
    above is refused before the version of the request is recorded: the
    answer is the page of error 505 alone, with no status line and no
    header, so without the isolation headers, and the connection is to be
    closed. *)
Theorem version_2_gets_bare_error_page
    (L : Lib) (W : World) (req : request) (h : handler)
    (bvn : string) (vn : Z * Z) :
  (Z.of_nat (String.length (raw_requestline req)) <= 65536)%Z ->
  let words := py_split (rstrip is_crlf (raw_requestline req)) in
  (3 <= length words)%nat ->
  BaseHTTPRequestHandler.version_number L (last words "") = Some (bvn, vn) ->
  BaseHTTPRequestHandler.pair_geb vn 2 0 = true ->
  exists h',
    RequestHandler.handle_one_request L W req h = (Ok tt, h')
    /\ wfile h'
       = wfile h
         ++ error_page L 505 (Some ("Invalid HTTP version (" ++ bvn ++ ")")) None
    /\ close_connection h' = true.
Proof.
  intros Hlen words Hwords Hver Hvn.
  unfold RequestHandler.handle_one_request,
    SimpleHTTPRequestHandler.handle_one_request,
    BaseHTTPRequestHandler.handle_one_request.
  apply Z.ltb_ge in Hlen; rewrite Hlen.
  assert (Hne : isempty (raw_requestline req) = false).
  { subst words. destruct (raw_requestline req); [cbn in Hwords; lia|].
    reflexivity. }
  rewrite Hne.
  assert (H0 : (length words =? 0)%nat = false)
    by (apply Nat.eqb_neq; lia).
  assert (H3 : (3 <=? length words)%nat = true) by (now apply Nat.leb_le).
  assert (Hparse : exists h1,
    BaseHTTPRequestHandler.parse_request L RequestHandler.end_headers req h
    = (Ok false, h1)
    /\ wfile h1
       = wfile h
         ++ error_page L 505 (Some ("Invalid HTTP version (" ++ bvn ++ ")"))
              None
    /\ close_connection h1 = true).
  { unfold BaseHTTPRequestHandler.parse_request.
    rewrite !bind_modify. fold words. rewrite H0, H3, Hver, bind_get; hsimp.
    fold (SimpleHTTPRequestHandler.send_error L RequestHandler.end_headers).
    fold (RequestHandler.send_error L).
    rewrite Hvn.
    destruct (_ && _); unfold when; rewrite ?bind_modify, ?bind_ret;
      (erewrite bind_run by (apply send_error_legacy; reflexivity));
      eexists; (split; [reflexivity|]); split; reflexivity. }
  destruct Hparse as (h1 & Hrun & Hw & Hc).
  rewrite (bind_run _ _ _ _ _ Hrun); cbn [negb].
  exists h1; repeat split; assumption.
Qed.

(** The theorem at the request line GET / HTTP/2.0. *)
Lemma version_2_gets_bare_error_page_witness :
  let W := sample_world (Some sample_dist) false in
  let req := sample_request "GET / HTTP/2.0" [] in
  exists h',
    RequestHandler.handle_one_request sample_lib W req sample_handler
    = (Ok tt, h')
    /\ wfile h'
       = sample_error_body 505 "Invalid HTTP version (2.0)"
           "Cannot fulfill request"
    /\ close_connection h' = true.
Proof.
  cbv zeta.
  apply (version_2_gets_bare_error_page sample_lib
           (sample_world (Some sample_dist) false)
           (sample_request "GET / HTTP/2.0" []) sample_handler "2.0" (2, 0)%Z).
  - vm_compute; discriminate.
  - vm_compute; lia.
  - reflexivity.
  - reflexivity.
Defined.

(** ** One response for each connection *)

(** X23.  On the server [test] starts, take a connection whose first
    request line is not empty and records a version other than HTTP/0.9
    (three words or more, the last a well-formed version below 2.0, or a
    line that is too long).  Whatever else arrives on the connection, the
    handler either raises with nothing written, or returns with exactly
    one response written, one of the five it makes, and the header section
    of that response ends with the two isolation headers and the blank
    line. *)
Theorem connection_gets_at_most_one_response
    (L : Lib) (W : World) (first : request) (reqs : list request)
    (h h' : handler) (r : result unit) :
  idle h -> protocol_version h = "HTTP/1.0" ->
  isempty (raw_requestline first) = false ->
  recorded_version L first <> "HTTP/0.9" ->
  RequestHandler.handle L W (first :: reqs) h = (r, h') ->
  (exists e, r = Raise e /\ wfile h' = wfile h)
  \/ (r = Ok tt
      /\ exists hx out,
           time_now hx = time_now h
           /\ protocol_version hx = "HTTP/1.0"
           /\ framed L W hx out
           /\ wfile h' = wfile h ++ out
           /\ exists status kvs body,
                out = header_block status kvs ++ body
                /\ forallb base_header kvs = true).
Proof.
  intros Hidle Hp Hne Hv Hrun.
  rewrite (handle_first_request L W first reqs h Hp) in Hrun.
  destruct (handle_one_request_replied L W first (set_close_connection true h)
              Hidle Hp Hne Hv) as [_ Hrep].
  injection Hrun as Hr Hh; unfold replied in Hrep; rewrite Hr, Hh in Hrep.
  cbn [wfile set_close_connection] in Hrep.
  destruct r as [[]|e|].
  - right; split; [reflexivity|].
    destruct Hrep as (hx & out & Ht & Hpx & Hf & Hw).
    exists hx, out.
    split; [exact Ht|]. split; [now rewrite Hpx|]. split; [exact Hf|].
    split; [exact Hw|]. exact (framed_headers L W hx out Hf).
  - left; exists e; split; [reflexivity | exact Hrep].
  - destruct Hrep.
Qed.

(** The theorem at a connection that carries two requests. *)
Lemma connection_gets_at_most_one_response_witness :
  let W := sample_world (Some sample_dist) false in
  let reqs := [sample_request "GET /index.html HTTP/1.0" [];
               sample_request "GET /nope HTTP/1.0" []] in
  let h := sample_handler in
  let r := fst (RequestHandler.handle sample_lib W reqs h) in
  let h' := snd (RequestHandler.handle sample_lib W reqs h) in
  (exists e, r = Raise e /\ wfile h' = wfile h)
  \/ (r = Ok tt
      /\ exists hx out,
           time_now hx = time_now h
           /\ protocol_version hx = "HTTP/1.0"
           /\ framed sample_lib W hx out
           /\ wfile h' = wfile h ++ out
           /\ exists status kvs body,
                out = header_block status kvs ++ body
                /\ forallb base_header kvs = true).
Proof.
  cbv zeta.
  apply (connection_gets_at_most_one_response sample_lib
           (sample_world (Some sample_dist) false)
           (sample_request "GET /index.html HTTP/1.0" [])
           [sample_request "GET /nope HTTP/1.0" []] sample_handler);
    [reflexivity | reflexivity | reflexivity | vm_compute; discriminate
    | apply surjective_pairing].
Defined.

(** ** The run without a socket *)

(** X24.  When no address can be found to listen on, the run ends with
    status 1 after the message of the script has been printed: no socket
    is created and nothing is served. *)
Theorem no_address_ends_run_without_socket
    (L : Lib) (W : World) (inputs : list input) :
  os_chdir_error W (dist_path W) = None ->
  w_getaddrinfo W 8000 = None ->
  main L W inputs
  = (Exited 1,
     mkProcess (w_realpath W (dist_path W)) None
       [EvChdir (dist_path W); EvPrint startup_message]).
Proof.
  intros Hc Ha.
  unfold main, module_body, os_chdir, test, _get_best_family.
  rewrite Hc, Ha. reflexivity.
Qed.

(** The theorem on the sample installation without an address, a
    connection waiting. *)
Lemma no_address_ends_run_without_socket_witness :
  main sample_lib sample_world_without_address
    [Conn 0 [sample_request "GET /index.html HTTP/1.0" []]]
  = (Exited 1,
     mkProcess "/home/dev/repo/dist" None
       [EvChdir "/home/dev/repo/app/../dist"; EvPrint startup_message]).
Proof.
  apply (no_address_ends_run_without_socket sample_lib
           sample_world_without_address
           [Conn 0 [sample_request "GET /index.html HTTP/1.0" []]]);
    reflexivity.
Defined.

(** ** Paths that name nothing *)

(** X25.  A HEAD request that is not HTTP/0.9, for a path that the
    system can be given and that names nothing, is answered with the header section of the 404 response,
    Content-Length giving the length of the error page, and without the
    page. *)
Theorem head_for_missing_path_has_no_page
    (L : Lib) (W : World) (h : handler) :
  idle h -> request_version h <> "HTTP/0.9" ->
  command h = Some "HEAD" ->
  lookup W (SimpleHTTPRequestHandler.translate_path L (directory h) (path h))
  = None ->
  unusable_path W
    (SimpleHTTPRequestHandler.translate_path L (directory h) (path h))
  = false ->
  exists h',
    RequestHandler.do_HEAD L W h = (Ok tt, h')
    /\ wfile h'
       = wfile h
         ++ header_block
              (status_line (protocol_version h) 404 "File not found")
              [("Server", version_string L);
               ("Date", date_time_string L (time_now h));
               ("Connection", "close");
               ("Content-Type", "text/html;charset=utf-8");
               ("Content-Length",
                str_of_nat
                  (String.length
                     (error_page L 404 (Some "File not found") None)))].
Proof.
  intros Hidle Hv Hcmd Hl Hu.
  pose proof (send_head_nothing L W h Hv Hidle Hl Hu) as Hhead.
  eexists; split; [exact (do_HEAD_of_send_head L W h _ _ Hhead)|].
  unfold not_found, responded, error_payload, BaseHTTPRequestHandler.not_head.
  cbn [wfile set_close_connection set_headers_buffer set_wfile].
  rewrite Hcmd; cbn [String.eqb Ascii.eqb Bool.eqb negb andb].
  rewrite andb_false_r. now rewrite append_nil_r.
Qed.

(** The theorem at HEAD /nope HTTP/1.0 on the sample installation. *)
Lemma head_for_missing_path_has_no_page_witness :
  let W := sample_world (Some sample_dist) false in
  let h := sample_parsed "HEAD" "/nope" in
  exists h',
    RequestHandler.do_HEAD sample_lib W h = (Ok tt, h')
    /\ wfile h'
       = header_block (status_line "HTTP/1.0" 404 "File not found")
           [("Server", "SimpleHTTP/0.6 Python/3.11.2");
            ("Date", "Thu, 01 Jan 1970 00:00:00 GMT");
            ("Connection", "close");
            ("Content-Type", "text/html;charset=utf-8");
            ("Content-Length", "335")].
Proof.
  cbv zeta.
  apply (head_for_missing_path_has_no_page sample_lib
           (sample_world (Some sample_dist) false)
           (sample_parsed "HEAD" "/nope"));
    [reflexivity | discriminate | reflexivity | reflexivity | reflexivity].
Defined.

(** X26.  A GET request that is not HTTP/0.9, for a path that ends in a
    slash and names no directory, is answered with status 404 File not
    found without any file being opened, also when the path without the
    slash names a file. *)
Theorem file_path_with_final_slash_is_404
    (L : Lib) (W : World) (h : handler) :
  idle h -> request_version h <> "HTTP/0.9" ->
  let p := SimpleHTTPRequestHandler.translate_path L (directory h) (path h) in
  os_path_isdir W p = false ->
  endswith_char p slash = true ->
  RequestHandler.do_GET L W h
  = (Ok tt,
     set_close_connection true
       (responded (status_line (protocol_version h) 404 "File not found")
          (error_headers L 404 (Some "File not found") None h)
          (error_payload L 404 (Some "File not found") None h) h)).
Proof.
  intros Hidle Hv p Hd Hs.
  assert (Hhead : RequestHandler.send_head L W h
                  = (Ok None, not_found L "File not found" h)).
  { rewrite send_head_not_dir by exact Hd. fold p.
    now apply send_head_file_slash. }
  now rewrite (do_GET_of_send_head L W h _ _ Hhead).
Qed.

(** The theorem at GET /index.html/ HTTP/1.0 on the sample installation,
    where /index.html names a file. *)
Lemma file_path_with_final_slash_is_404_witness :
  let W := sample_world (Some sample_dist) false in
  let h := sample_parsed "GET" "/index.html/" in
  lookup W "/home/dev/repo/dist/index.html"
  = Some (File true "<h1>hi</h1>" 5000000)
  /\ RequestHandler.do_GET sample_lib W h
     = (Ok tt,
        set_close_connection true
          (responded (status_line "HTTP/1.0" 404 "File not found")
             (error_headers sample_lib 404 (Some "File not found") None h)
             (error_payload sample_lib 404 (Some "File not found") None h) h)).
Proof.
  cbv zeta; split; [reflexivity|].
  apply (file_path_with_final_slash_is_404 sample_lib
           (sample_world (Some sample_dist) false)
           (sample_parsed "GET" "/index.html/"));
    [reflexivity | discriminate | reflexivity | reflexivity].
Defined.

(** ** When the server comes up *)


